(** * dd-scroller: the Scroller controller and the side-target helper

    A shallow embedding of [Scroller] (the scroll/resize observer and
    facade over the animated scroll functions) and of [scrollToSide].

    JavaScript numbers that hold pixel offsets and sizes are modelled as
    [Z]; the host element is a record of the DOM properties the controller
    reads and writes.  Methods run in a small state/exception/output monad:
    the state is the controller together with the parts of its environment
    it touches (microtask queue, timers, animations), an exception keeps
    the state reached when it was thrown, and the output lists, in order,
    the events emitted and the observer and promise notifications made. *)

From Stdlib Require Import ZArith List String Bool Lia.
Import ListNotations.
Local Open Scope Z_scope.

(** ** Data model *)

Inductive ScrollAxis : Type := AxisX | AxisY.

Inductive ScrollYDirection : Type := YTop | YBottom.

Inductive ScrollXDirection : Type := XLeft | XRight.

(** [ScrollDirection = ScrollYDirection | ScrollXDirection]. *)
Inductive ScrollDirection : Type :=
| DirY (d : ScrollYDirection)
| DirX (d : ScrollXDirection).

Inductive ScrollerState : Type := Pending | Ready | Running | Destroyed.

Record ScrollSizeOvserverSetting : Type := {
  interval : Z;
  width : bool;
  height : bool
}.

(** The bound DOM element: the properties the controller reads
    ([clientWidth] .. [scrollLeft]) or writes ([scrollTop], [scrollLeft]),
    what [isDocumentElement] and [isBodyElement] answer for it, and the
    host-level scroll suppression toggled by [disableScroll] and
    [enableScroll]. *)
Record Element : Type := {
  el_ref : nat;
  el_isDocumentElement : bool;
  el_isBodyElement : bool;
  el_clientWidth : Z;
  el_clientHeight : Z;
  el_scrollWidth : Z;
  el_scrollHeight : Z;
  el_scrollTop : Z;
  el_scrollLeft : Z;
  el_scrollDisabled : bool
}.

Definition el_set_scrollLeft (v : Z) (e : Element) : Element :=
  {| el_ref := el_ref e; el_isDocumentElement := el_isDocumentElement e;
     el_isBodyElement := el_isBodyElement e; el_clientWidth := el_clientWidth e;
     el_clientHeight := el_clientHeight e; el_scrollWidth := el_scrollWidth e;
     el_scrollHeight := el_scrollHeight e; el_scrollTop := el_scrollTop e;
     el_scrollLeft := v; el_scrollDisabled := el_scrollDisabled e |}.

Definition el_set_scrollTop (v : Z) (e : Element) : Element :=
  {| el_ref := el_ref e; el_isDocumentElement := el_isDocumentElement e;
     el_isBodyElement := el_isBodyElement e; el_clientWidth := el_clientWidth e;
     el_clientHeight := el_clientHeight e; el_scrollWidth := el_scrollWidth e;
     el_scrollHeight := el_scrollHeight e; el_scrollTop := v;
     el_scrollLeft := el_scrollLeft e; el_scrollDisabled := el_scrollDisabled e |}.

Definition el_set_scrollDisabled (v : bool) (e : Element) : Element :=
  {| el_ref := el_ref e; el_isDocumentElement := el_isDocumentElement e;
     el_isBodyElement := el_isBodyElement e; el_clientWidth := el_clientWidth e;
     el_clientHeight := el_clientHeight e; el_scrollWidth := el_scrollWidth e;
     el_scrollHeight := el_scrollHeight e; el_scrollTop := el_scrollTop e;
     el_scrollLeft := el_scrollLeft e; el_scrollDisabled := v |}.

Definition el_set_scrollSize (w h : Z) (e : Element) : Element :=
  {| el_ref := el_ref e; el_isDocumentElement := el_isDocumentElement e;
     el_isBodyElement := el_isBodyElement e; el_clientWidth := el_clientWidth e;
     el_clientHeight := el_clientHeight e; el_scrollWidth := w;
     el_scrollHeight := h; el_scrollTop := el_scrollTop e;
     el_scrollLeft := el_scrollLeft e; el_scrollDisabled := el_scrollDisabled e |}.

(** [type ScrollerEventTarget = Window | Element]. *)
Inductive ScrollerEventTarget : Type := TargetWindow | TargetElement.

Record ScrollerPayload : Type := {
  top : Z;
  left : Z;
  bottom : Z;
  right : Z;
  axis : ScrollAxis;
  direction : ScrollDirection;
  directionX : ScrollXDirection;
  directionY : ScrollYDirection;
  tickedX : Z;
  tickedY : Z;
  totalX : Z;
  totalY : Z
}.

(** [keyof ScrollerScrollEventMap]. *)
Inductive ScrollTick : Type := scrollStart | scroll | scrollEnd.

(** [ScrollerEventMap]: an event name with its payload. *)
Inductive Event : Type :=
| EvScroll (name : ScrollTick) (payload : ScrollerPayload)
| EvReady
| EvChangeState (state : ScrollerState)
| EvResize (w h : Z)
| EvChangeAxis (a : ScrollAxis)
| EvChangeLastDirection (d : ScrollDirection)
| EvChangeLastYDirection (d : ScrollYDirection)
| EvChangeLastXDirection (d : ScrollXDirection).

(** [type ScrollStopper = number | string | Object | Symbol].  Objects and
    symbols are compared by identity; a number is a finite value or NaN. *)
Inductive ScrollStopper : Type :=
| StopperNumber (n : Z)
| StopperNaN
| StopperString (s : string)
| StopperObject (ref : nat)
| StopperSymbol (ref : nat).

(** A resolve function stored in [_readyResolvers]: the promise it settles
    is awaited either by outside code (identified by a waiter number) or
    by the body of [start]. *)
Inductive Resolver : Type :=
| ResolveWaiter (waiter : nat)
| ResolveStart.

(** Jobs of the microtask queue the controller can cause. *)
Inductive Microtask : Type :=
| StartContinuation
| WaiterContinuation (waiter : nat)
| ScrollToResultSettled.

(** [Partial<ScrollPosition>]. *)
Record ScrollPosition : Type := {
  pos_x : option Z;
  pos_y : option Z
}.

Inductive ScrollRequest : Type :=
| RequestBy (diffX diffY : Z)
| RequestTo (position : ScrollPosition).

Inductive AnimationStatus : Type := InFlight | Cancelled | Completed.

Record Animation : Type := {
  anim_request : ScrollRequest;
  anim_container : Element;
  anim_status : AnimationStatus
}.

(** A [ScrollResult] is identified by its position in the list of the
    animations started so far. *)
Definition ScrollResult : Type := nat.

(** What the options of a scroll request contribute to the controller's
    bookkeeping: the container. *)
Record ScrollOptions : Type := {
  container : option Element
}.

Inductive Error : Type :=
| AlreadyDestroyed
| InvalidTarget
| MissingContainer
| TypeError
| ReferenceError.

(** What a method makes visible to the outside, in order. *)
Inductive Effect : Type :=
| Emit (e : Event)
| SyncToObserver (observer : nat) (keys : list string)
| ResolveReady (r : Resolver)
| Resumed (waiter : nat).

Record Scroller : Type := mkScroller {
  scrollingJudgeInterval : Z;
  baseAxis : ScrollAxis;
  scrollSizeOvserver : option ScrollSizeOvserverSetting;
  _el : option Element;
  _eventTarget : option ScrollerEventTarget;
  _isDocumentElement : bool;
  _isBodyElement : bool;
  _isRootElement : bool;
  _state : ScrollerState;
  _containerWidth : Z;
  _containerHeight : Z;
  _scrollWidth : Z;
  _scrollHeight : Z;
  _scrollTop : Z;
  _scrollRight : Z;
  _scrollBottom : Z;
  _scrollLeft : Z;
  _lastAxis : ScrollAxis;
  _lastDirection : ScrollDirection;
  _lastYDirection : ScrollYDirection;
  _lastXDirection : ScrollXDirection;
  _nowScrolling : bool;
  _readyResolvers : list Resolver;
  _scrollingJudgeTimerId : option nat;
  _startX : Z;
  _startY : Z;
  _tickedX : Z;
  _tickedY : Z;
  _lastTotalX : Z;
  _lastTotalY : Z;
  _scrollListener : bool;
  _resizeListener : bool;
  _resizeObserver : bool;
  _scrollToResult : option ScrollResult;
  _observers : list nat;
  _scrollStoppers : list ScrollStopper;
  _scrollSizeOvserverPollingId : option nat;
  _scrollSizeOvserverSuspended : bool;
  _visibilityListener : bool;
  _subscribers : list nat
}.

Definition set_el (v : option Element) (s : Scroller) : Scroller :=
  {| scrollingJudgeInterval := scrollingJudgeInterval s; baseAxis := baseAxis s;
  scrollSizeOvserver := scrollSizeOvserver s; _el := v; _eventTarget := _eventTarget s;
  _isDocumentElement := _isDocumentElement s; _isBodyElement := _isBodyElement s;
  _isRootElement := _isRootElement s; _state := _state s; _containerWidth := _containerWidth
  s; _containerHeight := _containerHeight s; _scrollWidth := _scrollWidth s; _scrollHeight :=
  _scrollHeight s; _scrollTop := _scrollTop s; _scrollRight := _scrollRight s; _scrollBottom
  := _scrollBottom s; _scrollLeft := _scrollLeft s; _lastAxis := _lastAxis s; _lastDirection
  := _lastDirection s; _lastYDirection := _lastYDirection s; _lastXDirection :=
  _lastXDirection s; _nowScrolling := _nowScrolling s; _readyResolvers := _readyResolvers s;
  _scrollingJudgeTimerId := _scrollingJudgeTimerId s; _startX := _startX s; _startY := _startY
  s; _tickedX := _tickedX s; _tickedY := _tickedY s; _lastTotalX := _lastTotalX s; _lastTotalY
  := _lastTotalY s; _scrollListener := _scrollListener s; _resizeListener := _resizeListener
  s; _resizeObserver := _resizeObserver s; _scrollToResult := _scrollToResult s; _observers :=
  _observers s; _scrollStoppers := _scrollStoppers s; _scrollSizeOvserverPollingId :=
  _scrollSizeOvserverPollingId s; _scrollSizeOvserverSuspended := _scrollSizeOvserverSuspended
  s; _visibilityListener := _visibilityListener s; _subscribers := _subscribers s |}.

Definition set_eventTarget (v : option ScrollerEventTarget) (s : Scroller) : Scroller :=
  {| scrollingJudgeInterval := scrollingJudgeInterval s; baseAxis := baseAxis s;
  scrollSizeOvserver := scrollSizeOvserver s; _el := _el s; _eventTarget := v;
  _isDocumentElement := _isDocumentElement s; _isBodyElement := _isBodyElement s;
  _isRootElement := _isRootElement s; _state := _state s; _containerWidth := _containerWidth
  s; _containerHeight := _containerHeight s; _scrollWidth := _scrollWidth s; _scrollHeight :=
  _scrollHeight s; _scrollTop := _scrollTop s; _scrollRight := _scrollRight s; _scrollBottom
  := _scrollBottom s; _scrollLeft := _scrollLeft s; _lastAxis := _lastAxis s; _lastDirection
  := _lastDirection s; _lastYDirection := _lastYDirection s; _lastXDirection :=
  _lastXDirection s; _nowScrolling := _nowScrolling s; _readyResolvers := _readyResolvers s;
  _scrollingJudgeTimerId := _scrollingJudgeTimerId s; _startX := _startX s; _startY := _startY
  s; _tickedX := _tickedX s; _tickedY := _tickedY s; _lastTotalX := _lastTotalX s; _lastTotalY
  := _lastTotalY s; _scrollListener := _scrollListener s; _resizeListener := _resizeListener
  s; _resizeObserver := _resizeObserver s; _scrollToResult := _scrollToResult s; _observers :=
  _observers s; _scrollStoppers := _scrollStoppers s; _scrollSizeOvserverPollingId :=
  _scrollSizeOvserverPollingId s; _scrollSizeOvserverSuspended := _scrollSizeOvserverSuspended
  s; _visibilityListener := _visibilityListener s; _subscribers := _subscribers s |}.

Definition set_isDocumentElement (v : bool) (s : Scroller) : Scroller :=
  {| scrollingJudgeInterval := scrollingJudgeInterval s; baseAxis := baseAxis s;
  scrollSizeOvserver := scrollSizeOvserver s; _el := _el s; _eventTarget := _eventTarget s;
  _isDocumentElement := v; _isBodyElement := _isBodyElement s; _isRootElement :=
  _isRootElement s; _state := _state s; _containerWidth := _containerWidth s; _containerHeight
  := _containerHeight s; _scrollWidth := _scrollWidth s; _scrollHeight := _scrollHeight s;
  _scrollTop := _scrollTop s; _scrollRight := _scrollRight s; _scrollBottom := _scrollBottom
  s; _scrollLeft := _scrollLeft s; _lastAxis := _lastAxis s; _lastDirection := _lastDirection
  s; _lastYDirection := _lastYDirection s; _lastXDirection := _lastXDirection s; _nowScrolling
  := _nowScrolling s; _readyResolvers := _readyResolvers s; _scrollingJudgeTimerId :=
  _scrollingJudgeTimerId s; _startX := _startX s; _startY := _startY s; _tickedX := _tickedX
  s; _tickedY := _tickedY s; _lastTotalX := _lastTotalX s; _lastTotalY := _lastTotalY s;
  _scrollListener := _scrollListener s; _resizeListener := _resizeListener s; _resizeObserver
  := _resizeObserver s; _scrollToResult := _scrollToResult s; _observers := _observers s;
  _scrollStoppers := _scrollStoppers s; _scrollSizeOvserverPollingId :=
  _scrollSizeOvserverPollingId s; _scrollSizeOvserverSuspended := _scrollSizeOvserverSuspended
  s; _visibilityListener := _visibilityListener s; _subscribers := _subscribers s |}.

Definition set_isBodyElement (v : bool) (s : Scroller) : Scroller :=
  {| scrollingJudgeInterval := scrollingJudgeInterval s; baseAxis := baseAxis s;
  scrollSizeOvserver := scrollSizeOvserver s; _el := _el s; _eventTarget := _eventTarget s;
  _isDocumentElement := _isDocumentElement s; _isBodyElement := v; _isRootElement :=
  _isRootElement s; _state := _state s; _containerWidth := _containerWidth s; _containerHeight
  := _containerHeight s; _scrollWidth := _scrollWidth s; _scrollHeight := _scrollHeight s;
  _scrollTop := _scrollTop s; _scrollRight := _scrollRight s; _scrollBottom := _scrollBottom
  s; _scrollLeft := _scrollLeft s; _lastAxis := _lastAxis s; _lastDirection := _lastDirection
  s; _lastYDirection := _lastYDirection s; _lastXDirection := _lastXDirection s; _nowScrolling
  := _nowScrolling s; _readyResolvers := _readyResolvers s; _scrollingJudgeTimerId :=
  _scrollingJudgeTimerId s; _startX := _startX s; _startY := _startY s; _tickedX := _tickedX
  s; _tickedY := _tickedY s; _lastTotalX := _lastTotalX s; _lastTotalY := _lastTotalY s;
  _scrollListener := _scrollListener s; _resizeListener := _resizeListener s; _resizeObserver
  := _resizeObserver s; _scrollToResult := _scrollToResult s; _observers := _observers s;
  _scrollStoppers := _scrollStoppers s; _scrollSizeOvserverPollingId :=
  _scrollSizeOvserverPollingId s; _scrollSizeOvserverSuspended := _scrollSizeOvserverSuspended
  s; _visibilityListener := _visibilityListener s; _subscribers := _subscribers s |}.

Definition set_isRootElement (v : bool) (s : Scroller) : Scroller :=
  {| scrollingJudgeInterval := scrollingJudgeInterval s; baseAxis := baseAxis s;
  scrollSizeOvserver := scrollSizeOvserver s; _el := _el s; _eventTarget := _eventTarget s;
  _isDocumentElement := _isDocumentElement s; _isBodyElement := _isBodyElement s;
  _isRootElement := v; _state := _state s; _containerWidth := _containerWidth s;
  _containerHeight := _containerHeight s; _scrollWidth := _scrollWidth s; _scrollHeight :=
  _scrollHeight s; _scrollTop := _scrollTop s; _scrollRight := _scrollRight s; _scrollBottom
  := _scrollBottom s; _scrollLeft := _scrollLeft s; _lastAxis := _lastAxis s; _lastDirection
  := _lastDirection s; _lastYDirection := _lastYDirection s; _lastXDirection :=
  _lastXDirection s; _nowScrolling := _nowScrolling s; _readyResolvers := _readyResolvers s;
  _scrollingJudgeTimerId := _scrollingJudgeTimerId s; _startX := _startX s; _startY := _startY
  s; _tickedX := _tickedX s; _tickedY := _tickedY s; _lastTotalX := _lastTotalX s; _lastTotalY
  := _lastTotalY s; _scrollListener := _scrollListener s; _resizeListener := _resizeListener
  s; _resizeObserver := _resizeObserver s; _scrollToResult := _scrollToResult s; _observers :=
  _observers s; _scrollStoppers := _scrollStoppers s; _scrollSizeOvserverPollingId :=
  _scrollSizeOvserverPollingId s; _scrollSizeOvserverSuspended := _scrollSizeOvserverSuspended
  s; _visibilityListener := _visibilityListener s; _subscribers := _subscribers s |}.

Definition set_state (v : ScrollerState) (s : Scroller) : Scroller :=
  {| scrollingJudgeInterval := scrollingJudgeInterval s; baseAxis := baseAxis s;
  scrollSizeOvserver := scrollSizeOvserver s; _el := _el s; _eventTarget := _eventTarget s;
  _isDocumentElement := _isDocumentElement s; _isBodyElement := _isBodyElement s;
  _isRootElement := _isRootElement s; _state := v; _containerWidth := _containerWidth s;
  _containerHeight := _containerHeight s; _scrollWidth := _scrollWidth s; _scrollHeight :=
  _scrollHeight s; _scrollTop := _scrollTop s; _scrollRight := _scrollRight s; _scrollBottom
  := _scrollBottom s; _scrollLeft := _scrollLeft s; _lastAxis := _lastAxis s; _lastDirection
  := _lastDirection s; _lastYDirection := _lastYDirection s; _lastXDirection :=
  _lastXDirection s; _nowScrolling := _nowScrolling s; _readyResolvers := _readyResolvers s;
  _scrollingJudgeTimerId := _scrollingJudgeTimerId s; _startX := _startX s; _startY := _startY
  s; _tickedX := _tickedX s; _tickedY := _tickedY s; _lastTotalX := _lastTotalX s; _lastTotalY
  := _lastTotalY s; _scrollListener := _scrollListener s; _resizeListener := _resizeListener
  s; _resizeObserver := _resizeObserver s; _scrollToResult := _scrollToResult s; _observers :=
  _observers s; _scrollStoppers := _scrollStoppers s; _scrollSizeOvserverPollingId :=
  _scrollSizeOvserverPollingId s; _scrollSizeOvserverSuspended := _scrollSizeOvserverSuspended
  s; _visibilityListener := _visibilityListener s; _subscribers := _subscribers s |}.

Definition set_containerWidth (v : Z) (s : Scroller) : Scroller :=
  {| scrollingJudgeInterval := scrollingJudgeInterval s; baseAxis := baseAxis s;
  scrollSizeOvserver := scrollSizeOvserver s; _el := _el s; _eventTarget := _eventTarget s;
  _isDocumentElement := _isDocumentElement s; _isBodyElement := _isBodyElement s;
  _isRootElement := _isRootElement s; _state := _state s; _containerWidth := v;
  _containerHeight := _containerHeight s; _scrollWidth := _scrollWidth s; _scrollHeight :=
  _scrollHeight s; _scrollTop := _scrollTop s; _scrollRight := _scrollRight s; _scrollBottom
  := _scrollBottom s; _scrollLeft := _scrollLeft s; _lastAxis := _lastAxis s; _lastDirection
  := _lastDirection s; _lastYDirection := _lastYDirection s; _lastXDirection :=
  _lastXDirection s; _nowScrolling := _nowScrolling s; _readyResolvers := _readyResolvers s;
  _scrollingJudgeTimerId := _scrollingJudgeTimerId s; _startX := _startX s; _startY := _startY
  s; _tickedX := _tickedX s; _tickedY := _tickedY s; _lastTotalX := _lastTotalX s; _lastTotalY
  := _lastTotalY s; _scrollListener := _scrollListener s; _resizeListener := _resizeListener
  s; _resizeObserver := _resizeObserver s; _scrollToResult := _scrollToResult s; _observers :=
  _observers s; _scrollStoppers := _scrollStoppers s; _scrollSizeOvserverPollingId :=
  _scrollSizeOvserverPollingId s; _scrollSizeOvserverSuspended := _scrollSizeOvserverSuspended
  s; _visibilityListener := _visibilityListener s; _subscribers := _subscribers s |}.

Definition set_containerHeight (v : Z) (s : Scroller) : Scroller :=
  {| scrollingJudgeInterval := scrollingJudgeInterval s; baseAxis := baseAxis s;
  scrollSizeOvserver := scrollSizeOvserver s; _el := _el s; _eventTarget := _eventTarget s;
  _isDocumentElement := _isDocumentElement s; _isBodyElement := _isBodyElement s;
  _isRootElement := _isRootElement s; _state := _state s; _containerWidth := _containerWidth
  s; _containerHeight := v; _scrollWidth := _scrollWidth s; _scrollHeight := _scrollHeight s;
  _scrollTop := _scrollTop s; _scrollRight := _scrollRight s; _scrollBottom := _scrollBottom
  s; _scrollLeft := _scrollLeft s; _lastAxis := _lastAxis s; _lastDirection := _lastDirection
  s; _lastYDirection := _lastYDirection s; _lastXDirection := _lastXDirection s; _nowScrolling
  := _nowScrolling s; _readyResolvers := _readyResolvers s; _scrollingJudgeTimerId :=
  _scrollingJudgeTimerId s; _startX := _startX s; _startY := _startY s; _tickedX := _tickedX
  s; _tickedY := _tickedY s; _lastTotalX := _lastTotalX s; _lastTotalY := _lastTotalY s;
  _scrollListener := _scrollListener s; _resizeListener := _resizeListener s; _resizeObserver
  := _resizeObserver s; _scrollToResult := _scrollToResult s; _observers := _observers s;
  _scrollStoppers := _scrollStoppers s; _scrollSizeOvserverPollingId :=
  _scrollSizeOvserverPollingId s; _scrollSizeOvserverSuspended := _scrollSizeOvserverSuspended
  s; _visibilityListener := _visibilityListener s; _subscribers := _subscribers s |}.

Definition set_scrollWidth (v : Z) (s : Scroller) : Scroller :=
  {| scrollingJudgeInterval := scrollingJudgeInterval s; baseAxis := baseAxis s;
  scrollSizeOvserver := scrollSizeOvserver s; _el := _el s; _eventTarget := _eventTarget s;
  _isDocumentElement := _isDocumentElement s; _isBodyElement := _isBodyElement s;
  _isRootElement := _isRootElement s; _state := _state s; _containerWidth := _containerWidth
  s; _containerHeight := _containerHeight s; _scrollWidth := v; _scrollHeight := _scrollHeight
  s; _scrollTop := _scrollTop s; _scrollRight := _scrollRight s; _scrollBottom :=
  _scrollBottom s; _scrollLeft := _scrollLeft s; _lastAxis := _lastAxis s; _lastDirection :=
  _lastDirection s; _lastYDirection := _lastYDirection s; _lastXDirection := _lastXDirection
  s; _nowScrolling := _nowScrolling s; _readyResolvers := _readyResolvers s;
  _scrollingJudgeTimerId := _scrollingJudgeTimerId s; _startX := _startX s; _startY := _startY
  s; _tickedX := _tickedX s; _tickedY := _tickedY s; _lastTotalX := _lastTotalX s; _lastTotalY
  := _lastTotalY s; _scrollListener := _scrollListener s; _resizeListener := _resizeListener
  s; _resizeObserver := _resizeObserver s; _scrollToResult := _scrollToResult s; _observers :=
  _observers s; _scrollStoppers := _scrollStoppers s; _scrollSizeOvserverPollingId :=
  _scrollSizeOvserverPollingId s; _scrollSizeOvserverSuspended := _scrollSizeOvserverSuspended
  s; _visibilityListener := _visibilityListener s; _subscribers := _subscribers s |}.

Definition set_scrollHeight (v : Z) (s : Scroller) : Scroller :=
  {| scrollingJudgeInterval := scrollingJudgeInterval s; baseAxis := baseAxis s;
  scrollSizeOvserver := scrollSizeOvserver s; _el := _el s; _eventTarget := _eventTarget s;
  _isDocumentElement := _isDocumentElement s; _isBodyElement := _isBodyElement s;
  _isRootElement := _isRootElement s; _state := _state s; _containerWidth := _containerWidth
  s; _containerHeight := _containerHeight s; _scrollWidth := _scrollWidth s; _scrollHeight :=
  v; _scrollTop := _scrollTop s; _scrollRight := _scrollRight s; _scrollBottom :=
  _scrollBottom s; _scrollLeft := _scrollLeft s; _lastAxis := _lastAxis s; _lastDirection :=
  _lastDirection s; _lastYDirection := _lastYDirection s; _lastXDirection := _lastXDirection
  s; _nowScrolling := _nowScrolling s; _readyResolvers := _readyResolvers s;
  _scrollingJudgeTimerId := _scrollingJudgeTimerId s; _startX := _startX s; _startY := _startY
  s; _tickedX := _tickedX s; _tickedY := _tickedY s; _lastTotalX := _lastTotalX s; _lastTotalY
  := _lastTotalY s; _scrollListener := _scrollListener s; _resizeListener := _resizeListener
  s; _resizeObserver := _resizeObserver s; _scrollToResult := _scrollToResult s; _observers :=
  _observers s; _scrollStoppers := _scrollStoppers s; _scrollSizeOvserverPollingId :=
  _scrollSizeOvserverPollingId s; _scrollSizeOvserverSuspended := _scrollSizeOvserverSuspended
  s; _visibilityListener := _visibilityListener s; _subscribers := _subscribers s |}.

Definition set_scrollTop (v : Z) (s : Scroller) : Scroller :=
  {| scrollingJudgeInterval := scrollingJudgeInterval s; baseAxis := baseAxis s;
  scrollSizeOvserver := scrollSizeOvserver s; _el := _el s; _eventTarget := _eventTarget s;
  _isDocumentElement := _isDocumentElement s; _isBodyElement := _isBodyElement s;
  _isRootElement := _isRootElement s; _state := _state s; _containerWidth := _containerWidth
  s; _containerHeight := _containerHeight s; _scrollWidth := _scrollWidth s; _scrollHeight :=
  _scrollHeight s; _scrollTop := v; _scrollRight := _scrollRight s; _scrollBottom :=
  _scrollBottom s; _scrollLeft := _scrollLeft s; _lastAxis := _lastAxis s; _lastDirection :=
  _lastDirection s; _lastYDirection := _lastYDirection s; _lastXDirection := _lastXDirection
  s; _nowScrolling := _nowScrolling s; _readyResolvers := _readyResolvers s;
  _scrollingJudgeTimerId := _scrollingJudgeTimerId s; _startX := _startX s; _startY := _startY
  s; _tickedX := _tickedX s; _tickedY := _tickedY s; _lastTotalX := _lastTotalX s; _lastTotalY
  := _lastTotalY s; _scrollListener := _scrollListener s; _resizeListener := _resizeListener
  s; _resizeObserver := _resizeObserver s; _scrollToResult := _scrollToResult s; _observers :=
  _observers s; _scrollStoppers := _scrollStoppers s; _scrollSizeOvserverPollingId :=
  _scrollSizeOvserverPollingId s; _scrollSizeOvserverSuspended := _scrollSizeOvserverSuspended
  s; _visibilityListener := _visibilityListener s; _subscribers := _subscribers s |}.

Definition set_scrollRight (v : Z) (s : Scroller) : Scroller :=
  {| scrollingJudgeInterval := scrollingJudgeInterval s; baseAxis := baseAxis s;
  scrollSizeOvserver := scrollSizeOvserver s; _el := _el s; _eventTarget := _eventTarget s;
  _isDocumentElement := _isDocumentElement s; _isBodyElement := _isBodyElement s;
  _isRootElement := _isRootElement s; _state := _state s; _containerWidth := _containerWidth
  s; _containerHeight := _containerHeight s; _scrollWidth := _scrollWidth s; _scrollHeight :=
  _scrollHeight s; _scrollTop := _scrollTop s; _scrollRight := v; _scrollBottom :=
  _scrollBottom s; _scrollLeft := _scrollLeft s; _lastAxis := _lastAxis s; _lastDirection :=
  _lastDirection s; _lastYDirection := _lastYDirection s; _lastXDirection := _lastXDirection
  s; _nowScrolling := _nowScrolling s; _readyResolvers := _readyResolvers s;
  _scrollingJudgeTimerId := _scrollingJudgeTimerId s; _startX := _startX s; _startY := _startY
  s; _tickedX := _tickedX s; _tickedY := _tickedY s; _lastTotalX := _lastTotalX s; _lastTotalY
  := _lastTotalY s; _scrollListener := _scrollListener s; _resizeListener := _resizeListener
  s; _resizeObserver := _resizeObserver s; _scrollToResult := _scrollToResult s; _observers :=
  _observers s; _scrollStoppers := _scrollStoppers s; _scrollSizeOvserverPollingId :=
  _scrollSizeOvserverPollingId s; _scrollSizeOvserverSuspended := _scrollSizeOvserverSuspended
  s; _visibilityListener := _visibilityListener s; _subscribers := _subscribers s |}.

Definition set_scrollBottom (v : Z) (s : Scroller) : Scroller :=
  {| scrollingJudgeInterval := scrollingJudgeInterval s; baseAxis := baseAxis s;
  scrollSizeOvserver := scrollSizeOvserver s; _el := _el s; _eventTarget := _eventTarget s;
  _isDocumentElement := _isDocumentElement s; _isBodyElement := _isBodyElement s;
  _isRootElement := _isRootElement s; _state := _state s; _containerWidth := _containerWidth
  s; _containerHeight := _containerHeight s; _scrollWidth := _scrollWidth s; _scrollHeight :=
  _scrollHeight s; _scrollTop := _scrollTop s; _scrollRight := _scrollRight s; _scrollBottom
  := v; _scrollLeft := _scrollLeft s; _lastAxis := _lastAxis s; _lastDirection :=
  _lastDirection s; _lastYDirection := _lastYDirection s; _lastXDirection := _lastXDirection
  s; _nowScrolling := _nowScrolling s; _readyResolvers := _readyResolvers s;
  _scrollingJudgeTimerId := _scrollingJudgeTimerId s; _startX := _startX s; _startY := _startY
  s; _tickedX := _tickedX s; _tickedY := _tickedY s; _lastTotalX := _lastTotalX s; _lastTotalY
  := _lastTotalY s; _scrollListener := _scrollListener s; _resizeListener := _resizeListener
  s; _resizeObserver := _resizeObserver s; _scrollToResult := _scrollToResult s; _observers :=
  _observers s; _scrollStoppers := _scrollStoppers s; _scrollSizeOvserverPollingId :=
  _scrollSizeOvserverPollingId s; _scrollSizeOvserverSuspended := _scrollSizeOvserverSuspended
  s; _visibilityListener := _visibilityListener s; _subscribers := _subscribers s |}.

Definition set_scrollLeft (v : Z) (s : Scroller) : Scroller :=
  {| scrollingJudgeInterval := scrollingJudgeInterval s; baseAxis := baseAxis s;
  scrollSizeOvserver := scrollSizeOvserver s; _el := _el s; _eventTarget := _eventTarget s;
  _isDocumentElement := _isDocumentElement s; _isBodyElement := _isBodyElement s;
  _isRootElement := _isRootElement s; _state := _state s; _containerWidth := _containerWidth
  s; _containerHeight := _containerHeight s; _scrollWidth := _scrollWidth s; _scrollHeight :=
  _scrollHeight s; _scrollTop := _scrollTop s; _scrollRight := _scrollRight s; _scrollBottom
  := _scrollBottom s; _scrollLeft := v; _lastAxis := _lastAxis s; _lastDirection :=
  _lastDirection s; _lastYDirection := _lastYDirection s; _lastXDirection := _lastXDirection
  s; _nowScrolling := _nowScrolling s; _readyResolvers := _readyResolvers s;
  _scrollingJudgeTimerId := _scrollingJudgeTimerId s; _startX := _startX s; _startY := _startY
  s; _tickedX := _tickedX s; _tickedY := _tickedY s; _lastTotalX := _lastTotalX s; _lastTotalY
  := _lastTotalY s; _scrollListener := _scrollListener s; _resizeListener := _resizeListener
  s; _resizeObserver := _resizeObserver s; _scrollToResult := _scrollToResult s; _observers :=
  _observers s; _scrollStoppers := _scrollStoppers s; _scrollSizeOvserverPollingId :=
  _scrollSizeOvserverPollingId s; _scrollSizeOvserverSuspended := _scrollSizeOvserverSuspended
  s; _visibilityListener := _visibilityListener s; _subscribers := _subscribers s |}.

Definition set_lastAxis (v : ScrollAxis) (s : Scroller) : Scroller :=
  {| scrollingJudgeInterval := scrollingJudgeInterval s; baseAxis := baseAxis s;
  scrollSizeOvserver := scrollSizeOvserver s; _el := _el s; _eventTarget := _eventTarget s;
  _isDocumentElement := _isDocumentElement s; _isBodyElement := _isBodyElement s;
  _isRootElement := _isRootElement s; _state := _state s; _containerWidth := _containerWidth
  s; _containerHeight := _containerHeight s; _scrollWidth := _scrollWidth s; _scrollHeight :=
  _scrollHeight s; _scrollTop := _scrollTop s; _scrollRight := _scrollRight s; _scrollBottom
  := _scrollBottom s; _scrollLeft := _scrollLeft s; _lastAxis := v; _lastDirection :=
  _lastDirection s; _lastYDirection := _lastYDirection s; _lastXDirection := _lastXDirection
  s; _nowScrolling := _nowScrolling s; _readyResolvers := _readyResolvers s;
  _scrollingJudgeTimerId := _scrollingJudgeTimerId s; _startX := _startX s; _startY := _startY
  s; _tickedX := _tickedX s; _tickedY := _tickedY s; _lastTotalX := _lastTotalX s; _lastTotalY
  := _lastTotalY s; _scrollListener := _scrollListener s; _resizeListener := _resizeListener
  s; _resizeObserver := _resizeObserver s; _scrollToResult := _scrollToResult s; _observers :=
  _observers s; _scrollStoppers := _scrollStoppers s; _scrollSizeOvserverPollingId :=
  _scrollSizeOvserverPollingId s; _scrollSizeOvserverSuspended := _scrollSizeOvserverSuspended
  s; _visibilityListener := _visibilityListener s; _subscribers := _subscribers s |}.

Definition set_lastDirection (v : ScrollDirection) (s : Scroller) : Scroller :=
  {| scrollingJudgeInterval := scrollingJudgeInterval s; baseAxis := baseAxis s;
  scrollSizeOvserver := scrollSizeOvserver s; _el := _el s; _eventTarget := _eventTarget s;
  _isDocumentElement := _isDocumentElement s; _isBodyElement := _isBodyElement s;
  _isRootElement := _isRootElement s; _state := _state s; _containerWidth := _containerWidth
  s; _containerHeight := _containerHeight s; _scrollWidth := _scrollWidth s; _scrollHeight :=
  _scrollHeight s; _scrollTop := _scrollTop s; _scrollRight := _scrollRight s; _scrollBottom
  := _scrollBottom s; _scrollLeft := _scrollLeft s; _lastAxis := _lastAxis s; _lastDirection
  := v; _lastYDirection := _lastYDirection s; _lastXDirection := _lastXDirection s;
  _nowScrolling := _nowScrolling s; _readyResolvers := _readyResolvers s;
  _scrollingJudgeTimerId := _scrollingJudgeTimerId s; _startX := _startX s; _startY := _startY
  s; _tickedX := _tickedX s; _tickedY := _tickedY s; _lastTotalX := _lastTotalX s; _lastTotalY
  := _lastTotalY s; _scrollListener := _scrollListener s; _resizeListener := _resizeListener
  s; _resizeObserver := _resizeObserver s; _scrollToResult := _scrollToResult s; _observers :=
  _observers s; _scrollStoppers := _scrollStoppers s; _scrollSizeOvserverPollingId :=
  _scrollSizeOvserverPollingId s; _scrollSizeOvserverSuspended := _scrollSizeOvserverSuspended
  s; _visibilityListener := _visibilityListener s; _subscribers := _subscribers s |}.

Definition set_lastYDirection (v : ScrollYDirection) (s : Scroller) : Scroller :=
  {| scrollingJudgeInterval := scrollingJudgeInterval s; baseAxis := baseAxis s;
  scrollSizeOvserver := scrollSizeOvserver s; _el := _el s; _eventTarget := _eventTarget s;
  _isDocumentElement := _isDocumentElement s; _isBodyElement := _isBodyElement s;
  _isRootElement := _isRootElement s; _state := _state s; _containerWidth := _containerWidth
  s; _containerHeight := _containerHeight s; _scrollWidth := _scrollWidth s; _scrollHeight :=
  _scrollHeight s; _scrollTop := _scrollTop s; _scrollRight := _scrollRight s; _scrollBottom
  := _scrollBottom s; _scrollLeft := _scrollLeft s; _lastAxis := _lastAxis s; _lastDirection
  := _lastDirection s; _lastYDirection := v; _lastXDirection := _lastXDirection s;
  _nowScrolling := _nowScrolling s; _readyResolvers := _readyResolvers s;
  _scrollingJudgeTimerId := _scrollingJudgeTimerId s; _startX := _startX s; _startY := _startY
  s; _tickedX := _tickedX s; _tickedY := _tickedY s; _lastTotalX := _lastTotalX s; _lastTotalY
  := _lastTotalY s; _scrollListener := _scrollListener s; _resizeListener := _resizeListener
  s; _resizeObserver := _resizeObserver s; _scrollToResult := _scrollToResult s; _observers :=
  _observers s; _scrollStoppers := _scrollStoppers s; _scrollSizeOvserverPollingId :=
  _scrollSizeOvserverPollingId s; _scrollSizeOvserverSuspended := _scrollSizeOvserverSuspended
  s; _visibilityListener := _visibilityListener s; _subscribers := _subscribers s |}.

Definition set_lastXDirection (v : ScrollXDirection) (s : Scroller) : Scroller :=
  {| scrollingJudgeInterval := scrollingJudgeInterval s; baseAxis := baseAxis s;
  scrollSizeOvserver := scrollSizeOvserver s; _el := _el s; _eventTarget := _eventTarget s;
  _isDocumentElement := _isDocumentElement s; _isBodyElement := _isBodyElement s;
  _isRootElement := _isRootElement s; _state := _state s; _containerWidth := _containerWidth
  s; _containerHeight := _containerHeight s; _scrollWidth := _scrollWidth s; _scrollHeight :=
  _scrollHeight s; _scrollTop := _scrollTop s; _scrollRight := _scrollRight s; _scrollBottom
  := _scrollBottom s; _scrollLeft := _scrollLeft s; _lastAxis := _lastAxis s; _lastDirection
  := _lastDirection s; _lastYDirection := _lastYDirection s; _lastXDirection := v;
  _nowScrolling := _nowScrolling s; _readyResolvers := _readyResolvers s;
  _scrollingJudgeTimerId := _scrollingJudgeTimerId s; _startX := _startX s; _startY := _startY
  s; _tickedX := _tickedX s; _tickedY := _tickedY s; _lastTotalX := _lastTotalX s; _lastTotalY
  := _lastTotalY s; _scrollListener := _scrollListener s; _resizeListener := _resizeListener
  s; _resizeObserver := _resizeObserver s; _scrollToResult := _scrollToResult s; _observers :=
  _observers s; _scrollStoppers := _scrollStoppers s; _scrollSizeOvserverPollingId :=
  _scrollSizeOvserverPollingId s; _scrollSizeOvserverSuspended := _scrollSizeOvserverSuspended
  s; _visibilityListener := _visibilityListener s; _subscribers := _subscribers s |}.

Definition set_nowScrolling (v : bool) (s : Scroller) : Scroller :=
  {| scrollingJudgeInterval := scrollingJudgeInterval s; baseAxis := baseAxis s;
  scrollSizeOvserver := scrollSizeOvserver s; _el := _el s; _eventTarget := _eventTarget s;
  _isDocumentElement := _isDocumentElement s; _isBodyElement := _isBodyElement s;
  _isRootElement := _isRootElement s; _state := _state s; _containerWidth := _containerWidth
  s; _containerHeight := _containerHeight s; _scrollWidth := _scrollWidth s; _scrollHeight :=
  _scrollHeight s; _scrollTop := _scrollTop s; _scrollRight := _scrollRight s; _scrollBottom
  := _scrollBottom s; _scrollLeft := _scrollLeft s; _lastAxis := _lastAxis s; _lastDirection
  := _lastDirection s; _lastYDirection := _lastYDirection s; _lastXDirection :=
  _lastXDirection s; _nowScrolling := v; _readyResolvers := _readyResolvers s;
  _scrollingJudgeTimerId := _scrollingJudgeTimerId s; _startX := _startX s; _startY := _startY
  s; _tickedX := _tickedX s; _tickedY := _tickedY s; _lastTotalX := _lastTotalX s; _lastTotalY
  := _lastTotalY s; _scrollListener := _scrollListener s; _resizeListener := _resizeListener
  s; _resizeObserver := _resizeObserver s; _scrollToResult := _scrollToResult s; _observers :=
  _observers s; _scrollStoppers := _scrollStoppers s; _scrollSizeOvserverPollingId :=
  _scrollSizeOvserverPollingId s; _scrollSizeOvserverSuspended := _scrollSizeOvserverSuspended
  s; _visibilityListener := _visibilityListener s; _subscribers := _subscribers s |}.

Definition set_readyResolvers (v : list Resolver) (s : Scroller) : Scroller :=
  {| scrollingJudgeInterval := scrollingJudgeInterval s; baseAxis := baseAxis s;
  scrollSizeOvserver := scrollSizeOvserver s; _el := _el s; _eventTarget := _eventTarget s;
  _isDocumentElement := _isDocumentElement s; _isBodyElement := _isBodyElement s;
  _isRootElement := _isRootElement s; _state := _state s; _containerWidth := _containerWidth
  s; _containerHeight := _containerHeight s; _scrollWidth := _scrollWidth s; _scrollHeight :=
  _scrollHeight s; _scrollTop := _scrollTop s; _scrollRight := _scrollRight s; _scrollBottom
  := _scrollBottom s; _scrollLeft := _scrollLeft s; _lastAxis := _lastAxis s; _lastDirection
  := _lastDirection s; _lastYDirection := _lastYDirection s; _lastXDirection :=
  _lastXDirection s; _nowScrolling := _nowScrolling s; _readyResolvers := v;
  _scrollingJudgeTimerId := _scrollingJudgeTimerId s; _startX := _startX s; _startY := _startY
  s; _tickedX := _tickedX s; _tickedY := _tickedY s; _lastTotalX := _lastTotalX s; _lastTotalY
  := _lastTotalY s; _scrollListener := _scrollListener s; _resizeListener := _resizeListener
  s; _resizeObserver := _resizeObserver s; _scrollToResult := _scrollToResult s; _observers :=
  _observers s; _scrollStoppers := _scrollStoppers s; _scrollSizeOvserverPollingId :=
  _scrollSizeOvserverPollingId s; _scrollSizeOvserverSuspended := _scrollSizeOvserverSuspended
  s; _visibilityListener := _visibilityListener s; _subscribers := _subscribers s |}.

Definition set_scrollingJudgeTimerId (v : option nat) (s : Scroller) : Scroller :=
  {| scrollingJudgeInterval := scrollingJudgeInterval s; baseAxis := baseAxis s;
  scrollSizeOvserver := scrollSizeOvserver s; _el := _el s; _eventTarget := _eventTarget s;
  _isDocumentElement := _isDocumentElement s; _isBodyElement := _isBodyElement s;
  _isRootElement := _isRootElement s; _state := _state s; _containerWidth := _containerWidth
  s; _containerHeight := _containerHeight s; _scrollWidth := _scrollWidth s; _scrollHeight :=
  _scrollHeight s; _scrollTop := _scrollTop s; _scrollRight := _scrollRight s; _scrollBottom
  := _scrollBottom s; _scrollLeft := _scrollLeft s; _lastAxis := _lastAxis s; _lastDirection
  := _lastDirection s; _lastYDirection := _lastYDirection s; _lastXDirection :=
  _lastXDirection s; _nowScrolling := _nowScrolling s; _readyResolvers := _readyResolvers s;
  _scrollingJudgeTimerId := v; _startX := _startX s; _startY := _startY s; _tickedX :=
  _tickedX s; _tickedY := _tickedY s; _lastTotalX := _lastTotalX s; _lastTotalY := _lastTotalY
  s; _scrollListener := _scrollListener s; _resizeListener := _resizeListener s;
  _resizeObserver := _resizeObserver s; _scrollToResult := _scrollToResult s; _observers :=
  _observers s; _scrollStoppers := _scrollStoppers s; _scrollSizeOvserverPollingId :=
  _scrollSizeOvserverPollingId s; _scrollSizeOvserverSuspended := _scrollSizeOvserverSuspended
  s; _visibilityListener := _visibilityListener s; _subscribers := _subscribers s |}.

Definition set_startX (v : Z) (s : Scroller) : Scroller :=
  {| scrollingJudgeInterval := scrollingJudgeInterval s; baseAxis := baseAxis s;
  scrollSizeOvserver := scrollSizeOvserver s; _el := _el s; _eventTarget := _eventTarget s;
  _isDocumentElement := _isDocumentElement s; _isBodyElement := _isBodyElement s;
  _isRootElement := _isRootElement s; _state := _state s; _containerWidth := _containerWidth
  s; _containerHeight := _containerHeight s; _scrollWidth := _scrollWidth s; _scrollHeight :=
  _scrollHeight s; _scrollTop := _scrollTop s; _scrollRight := _scrollRight s; _scrollBottom
  := _scrollBottom s; _scrollLeft := _scrollLeft s; _lastAxis := _lastAxis s; _lastDirection
  := _lastDirection s; _lastYDirection := _lastYDirection s; _lastXDirection :=
  _lastXDirection s; _nowScrolling := _nowScrolling s; _readyResolvers := _readyResolvers s;
  _scrollingJudgeTimerId := _scrollingJudgeTimerId s; _startX := v; _startY := _startY s;
  _tickedX := _tickedX s; _tickedY := _tickedY s; _lastTotalX := _lastTotalX s; _lastTotalY :=
  _lastTotalY s; _scrollListener := _scrollListener s; _resizeListener := _resizeListener s;
  _resizeObserver := _resizeObserver s; _scrollToResult := _scrollToResult s; _observers :=
  _observers s; _scrollStoppers := _scrollStoppers s; _scrollSizeOvserverPollingId :=
  _scrollSizeOvserverPollingId s; _scrollSizeOvserverSuspended := _scrollSizeOvserverSuspended
  s; _visibilityListener := _visibilityListener s; _subscribers := _subscribers s |}.

Definition set_startY (v : Z) (s : Scroller) : Scroller :=
  {| scrollingJudgeInterval := scrollingJudgeInterval s; baseAxis := baseAxis s;
  scrollSizeOvserver := scrollSizeOvserver s; _el := _el s; _eventTarget := _eventTarget s;
  _isDocumentElement := _isDocumentElement s; _isBodyElement := _isBodyElement s;
  _isRootElement := _isRootElement s; _state := _state s; _containerWidth := _containerWidth
  s; _containerHeight := _containerHeight s; _scrollWidth := _scrollWidth s; _scrollHeight :=
  _scrollHeight s; _scrollTop := _scrollTop s; _scrollRight := _scrollRight s; _scrollBottom
  := _scrollBottom s; _scrollLeft := _scrollLeft s; _lastAxis := _lastAxis s; _lastDirection
  := _lastDirection s; _lastYDirection := _lastYDirection s; _lastXDirection :=
  _lastXDirection s; _nowScrolling := _nowScrolling s; _readyResolvers := _readyResolvers s;
  _scrollingJudgeTimerId := _scrollingJudgeTimerId s; _startX := _startX s; _startY := v;
  _tickedX := _tickedX s; _tickedY := _tickedY s; _lastTotalX := _lastTotalX s; _lastTotalY :=
  _lastTotalY s; _scrollListener := _scrollListener s; _resizeListener := _resizeListener s;
  _resizeObserver := _resizeObserver s; _scrollToResult := _scrollToResult s; _observers :=
  _observers s; _scrollStoppers := _scrollStoppers s; _scrollSizeOvserverPollingId :=
  _scrollSizeOvserverPollingId s; _scrollSizeOvserverSuspended := _scrollSizeOvserverSuspended
  s; _visibilityListener := _visibilityListener s; _subscribers := _subscribers s |}.

Definition set_tickedX (v : Z) (s : Scroller) : Scroller :=
  {| scrollingJudgeInterval := scrollingJudgeInterval s; baseAxis := baseAxis s;
  scrollSizeOvserver := scrollSizeOvserver s; _el := _el s; _eventTarget := _eventTarget s;
  _isDocumentElement := _isDocumentElement s; _isBodyElement := _isBodyElement s;
  _isRootElement := _isRootElement s; _state := _state s; _containerWidth := _containerWidth
  s; _containerHeight := _containerHeight s; _scrollWidth := _scrollWidth s; _scrollHeight :=
  _scrollHeight s; _scrollTop := _scrollTop s; _scrollRight := _scrollRight s; _scrollBottom
  := _scrollBottom s; _scrollLeft := _scrollLeft s; _lastAxis := _lastAxis s; _lastDirection
  := _lastDirection s; _lastYDirection := _lastYDirection s; _lastXDirection :=
  _lastXDirection s; _nowScrolling := _nowScrolling s; _readyResolvers := _readyResolvers s;
  _scrollingJudgeTimerId := _scrollingJudgeTimerId s; _startX := _startX s; _startY := _startY
  s; _tickedX := v; _tickedY := _tickedY s; _lastTotalX := _lastTotalX s; _lastTotalY :=
  _lastTotalY s; _scrollListener := _scrollListener s; _resizeListener := _resizeListener s;
  _resizeObserver := _resizeObserver s; _scrollToResult := _scrollToResult s; _observers :=
  _observers s; _scrollStoppers := _scrollStoppers s; _scrollSizeOvserverPollingId :=
  _scrollSizeOvserverPollingId s; _scrollSizeOvserverSuspended := _scrollSizeOvserverSuspended
  s; _visibilityListener := _visibilityListener s; _subscribers := _subscribers s |}.

Definition set_tickedY (v : Z) (s : Scroller) : Scroller :=
  {| scrollingJudgeInterval := scrollingJudgeInterval s; baseAxis := baseAxis s;
  scrollSizeOvserver := scrollSizeOvserver s; _el := _el s; _eventTarget := _eventTarget s;
  _isDocumentElement := _isDocumentElement s; _isBodyElement := _isBodyElement s;
  _isRootElement := _isRootElement s; _state := _state s; _containerWidth := _containerWidth
  s; _containerHeight := _containerHeight s; _scrollWidth := _scrollWidth s; _scrollHeight :=
  _scrollHeight s; _scrollTop := _scrollTop s; _scrollRight := _scrollRight s; _scrollBottom
  := _scrollBottom s; _scrollLeft := _scrollLeft s; _lastAxis := _lastAxis s; _lastDirection
  := _lastDirection s; _lastYDirection := _lastYDirection s; _lastXDirection :=
  _lastXDirection s; _nowScrolling := _nowScrolling s; _readyResolvers := _readyResolvers s;
  _scrollingJudgeTimerId := _scrollingJudgeTimerId s; _startX := _startX s; _startY := _startY
  s; _tickedX := _tickedX s; _tickedY := v; _lastTotalX := _lastTotalX s; _lastTotalY :=
  _lastTotalY s; _scrollListener := _scrollListener s; _resizeListener := _resizeListener s;
  _resizeObserver := _resizeObserver s; _scrollToResult := _scrollToResult s; _observers :=
  _observers s; _scrollStoppers := _scrollStoppers s; _scrollSizeOvserverPollingId :=
  _scrollSizeOvserverPollingId s; _scrollSizeOvserverSuspended := _scrollSizeOvserverSuspended
  s; _visibilityListener := _visibilityListener s; _subscribers := _subscribers s |}.

Definition set_lastTotalX (v : Z) (s : Scroller) : Scroller :=
  {| scrollingJudgeInterval := scrollingJudgeInterval s; baseAxis := baseAxis s;
  scrollSizeOvserver := scrollSizeOvserver s; _el := _el s; _eventTarget := _eventTarget s;
  _isDocumentElement := _isDocumentElement s; _isBodyElement := _isBodyElement s;
  _isRootElement := _isRootElement s; _state := _state s; _containerWidth := _containerWidth
  s; _containerHeight := _containerHeight s; _scrollWidth := _scrollWidth s; _scrollHeight :=
  _scrollHeight s; _scrollTop := _scrollTop s; _scrollRight := _scrollRight s; _scrollBottom
  := _scrollBottom s; _scrollLeft := _scrollLeft s; _lastAxis := _lastAxis s; _lastDirection
  := _lastDirection s; _lastYDirection := _lastYDirection s; _lastXDirection :=
  _lastXDirection s; _nowScrolling := _nowScrolling s; _readyResolvers := _readyResolvers s;
  _scrollingJudgeTimerId := _scrollingJudgeTimerId s; _startX := _startX s; _startY := _startY
  s; _tickedX := _tickedX s; _tickedY := _tickedY s; _lastTotalX := v; _lastTotalY :=
  _lastTotalY s; _scrollListener := _scrollListener s; _resizeListener := _resizeListener s;
  _resizeObserver := _resizeObserver s; _scrollToResult := _scrollToResult s; _observers :=
  _observers s; _scrollStoppers := _scrollStoppers s; _scrollSizeOvserverPollingId :=
  _scrollSizeOvserverPollingId s; _scrollSizeOvserverSuspended := _scrollSizeOvserverSuspended
  s; _visibilityListener := _visibilityListener s; _subscribers := _subscribers s |}.

Definition set_lastTotalY (v : Z) (s : Scroller) : Scroller :=
  {| scrollingJudgeInterval := scrollingJudgeInterval s; baseAxis := baseAxis s;
  scrollSizeOvserver := scrollSizeOvserver s; _el := _el s; _eventTarget := _eventTarget s;
  _isDocumentElement := _isDocumentElement s; _isBodyElement := _isBodyElement s;
  _isRootElement := _isRootElement s; _state := _state s; _containerWidth := _containerWidth
  s; _containerHeight := _containerHeight s; _scrollWidth := _scrollWidth s; _scrollHeight :=
  _scrollHeight s; _scrollTop := _scrollTop s; _scrollRight := _scrollRight s; _scrollBottom
  := _scrollBottom s; _scrollLeft := _scrollLeft s; _lastAxis := _lastAxis s; _lastDirection
  := _lastDirection s; _lastYDirection := _lastYDirection s; _lastXDirection :=
  _lastXDirection s; _nowScrolling := _nowScrolling s; _readyResolvers := _readyResolvers s;
  _scrollingJudgeTimerId := _scrollingJudgeTimerId s; _startX := _startX s; _startY := _startY
  s; _tickedX := _tickedX s; _tickedY := _tickedY s; _lastTotalX := _lastTotalX s; _lastTotalY
  := v; _scrollListener := _scrollListener s; _resizeListener := _resizeListener s;
  _resizeObserver := _resizeObserver s; _scrollToResult := _scrollToResult s; _observers :=
  _observers s; _scrollStoppers := _scrollStoppers s; _scrollSizeOvserverPollingId :=
  _scrollSizeOvserverPollingId s; _scrollSizeOvserverSuspended := _scrollSizeOvserverSuspended
  s; _visibilityListener := _visibilityListener s; _subscribers := _subscribers s |}.

Definition set_scrollListener (v : bool) (s : Scroller) : Scroller :=
  {| scrollingJudgeInterval := scrollingJudgeInterval s; baseAxis := baseAxis s;
  scrollSizeOvserver := scrollSizeOvserver s; _el := _el s; _eventTarget := _eventTarget s;
  _isDocumentElement := _isDocumentElement s; _isBodyElement := _isBodyElement s;
  _isRootElement := _isRootElement s; _state := _state s; _containerWidth := _containerWidth
  s; _containerHeight := _containerHeight s; _scrollWidth := _scrollWidth s; _scrollHeight :=
  _scrollHeight s; _scrollTop := _scrollTop s; _scrollRight := _scrollRight s; _scrollBottom
  := _scrollBottom s; _scrollLeft := _scrollLeft s; _lastAxis := _lastAxis s; _lastDirection
  := _lastDirection s; _lastYDirection := _lastYDirection s; _lastXDirection :=
  _lastXDirection s; _nowScrolling := _nowScrolling s; _readyResolvers := _readyResolvers s;
  _scrollingJudgeTimerId := _scrollingJudgeTimerId s; _startX := _startX s; _startY := _startY
  s; _tickedX := _tickedX s; _tickedY := _tickedY s; _lastTotalX := _lastTotalX s; _lastTotalY
  := _lastTotalY s; _scrollListener := v; _resizeListener := _resizeListener s;
  _resizeObserver := _resizeObserver s; _scrollToResult := _scrollToResult s; _observers :=
  _observers s; _scrollStoppers := _scrollStoppers s; _scrollSizeOvserverPollingId :=
  _scrollSizeOvserverPollingId s; _scrollSizeOvserverSuspended := _scrollSizeOvserverSuspended
  s; _visibilityListener := _visibilityListener s; _subscribers := _subscribers s |}.

Definition set_resizeListener (v : bool) (s : Scroller) : Scroller :=
  {| scrollingJudgeInterval := scrollingJudgeInterval s; baseAxis := baseAxis s;
  scrollSizeOvserver := scrollSizeOvserver s; _el := _el s; _eventTarget := _eventTarget s;
  _isDocumentElement := _isDocumentElement s; _isBodyElement := _isBodyElement s;
  _isRootElement := _isRootElement s; _state := _state s; _containerWidth := _containerWidth
  s; _containerHeight := _containerHeight s; _scrollWidth := _scrollWidth s; _scrollHeight :=
  _scrollHeight s; _scrollTop := _scrollTop s; _scrollRight := _scrollRight s; _scrollBottom
  := _scrollBottom s; _scrollLeft := _scrollLeft s; _lastAxis := _lastAxis s; _lastDirection
  := _lastDirection s; _lastYDirection := _lastYDirection s; _lastXDirection :=
  _lastXDirection s; _nowScrolling := _nowScrolling s; _readyResolvers := _readyResolvers s;
  _scrollingJudgeTimerId := _scrollingJudgeTimerId s; _startX := _startX s; _startY := _startY
  s; _tickedX := _tickedX s; _tickedY := _tickedY s; _lastTotalX := _lastTotalX s; _lastTotalY
  := _lastTotalY s; _scrollListener := _scrollListener s; _resizeListener := v;
  _resizeObserver := _resizeObserver s; _scrollToResult := _scrollToResult s; _observers :=
  _observers s; _scrollStoppers := _scrollStoppers s; _scrollSizeOvserverPollingId :=
  _scrollSizeOvserverPollingId s; _scrollSizeOvserverSuspended := _scrollSizeOvserverSuspended
  s; _visibilityListener := _visibilityListener s; _subscribers := _subscribers s |}.

Definition set_resizeObserver (v : bool) (s : Scroller) : Scroller :=
  {| scrollingJudgeInterval := scrollingJudgeInterval s; baseAxis := baseAxis s;
  scrollSizeOvserver := scrollSizeOvserver s; _el := _el s; _eventTarget := _eventTarget s;
  _isDocumentElement := _isDocumentElement s; _isBodyElement := _isBodyElement s;
  _isRootElement := _isRootElement s; _state := _state s; _containerWidth := _containerWidth
  s; _containerHeight := _containerHeight s; _scrollWidth := _scrollWidth s; _scrollHeight :=
  _scrollHeight s; _scrollTop := _scrollTop s; _scrollRight := _scrollRight s; _scrollBottom
  := _scrollBottom s; _scrollLeft := _scrollLeft s; _lastAxis := _lastAxis s; _lastDirection
  := _lastDirection s; _lastYDirection := _lastYDirection s; _lastXDirection :=
  _lastXDirection s; _nowScrolling := _nowScrolling s; _readyResolvers := _readyResolvers s;
  _scrollingJudgeTimerId := _scrollingJudgeTimerId s; _startX := _startX s; _startY := _startY
  s; _tickedX := _tickedX s; _tickedY := _tickedY s; _lastTotalX := _lastTotalX s; _lastTotalY
  := _lastTotalY s; _scrollListener := _scrollListener s; _resizeListener := _resizeListener
  s; _resizeObserver := v; _scrollToResult := _scrollToResult s; _observers := _observers s;
  _scrollStoppers := _scrollStoppers s; _scrollSizeOvserverPollingId :=
  _scrollSizeOvserverPollingId s; _scrollSizeOvserverSuspended := _scrollSizeOvserverSuspended
  s; _visibilityListener := _visibilityListener s; _subscribers := _subscribers s |}.

Definition set_scrollToResult (v : option ScrollResult) (s : Scroller) : Scroller :=
  {| scrollingJudgeInterval := scrollingJudgeInterval s; baseAxis := baseAxis s;
  scrollSizeOvserver := scrollSizeOvserver s; _el := _el s; _eventTarget := _eventTarget s;
  _isDocumentElement := _isDocumentElement s; _isBodyElement := _isBodyElement s;
  _isRootElement := _isRootElement s; _state := _state s; _containerWidth := _containerWidth
  s; _containerHeight := _containerHeight s; _scrollWidth := _scrollWidth s; _scrollHeight :=
  _scrollHeight s; _scrollTop := _scrollTop s; _scrollRight := _scrollRight s; _scrollBottom
  := _scrollBottom s; _scrollLeft := _scrollLeft s; _lastAxis := _lastAxis s; _lastDirection
  := _lastDirection s; _lastYDirection := _lastYDirection s; _lastXDirection :=
  _lastXDirection s; _nowScrolling := _nowScrolling s; _readyResolvers := _readyResolvers s;
  _scrollingJudgeTimerId := _scrollingJudgeTimerId s; _startX := _startX s; _startY := _startY
  s; _tickedX := _tickedX s; _tickedY := _tickedY s; _lastTotalX := _lastTotalX s; _lastTotalY
  := _lastTotalY s; _scrollListener := _scrollListener s; _resizeListener := _resizeListener
  s; _resizeObserver := _resizeObserver s; _scrollToResult := v; _observers := _observers s;
  _scrollStoppers := _scrollStoppers s; _scrollSizeOvserverPollingId :=
  _scrollSizeOvserverPollingId s; _scrollSizeOvserverSuspended := _scrollSizeOvserverSuspended
  s; _visibilityListener := _visibilityListener s; _subscribers := _subscribers s |}.

Definition set_observers (v : list nat) (s : Scroller) : Scroller :=
  {| scrollingJudgeInterval := scrollingJudgeInterval s; baseAxis := baseAxis s;
  scrollSizeOvserver := scrollSizeOvserver s; _el := _el s; _eventTarget := _eventTarget s;
  _isDocumentElement := _isDocumentElement s; _isBodyElement := _isBodyElement s;
  _isRootElement := _isRootElement s; _state := _state s; _containerWidth := _containerWidth
  s; _containerHeight := _containerHeight s; _scrollWidth := _scrollWidth s; _scrollHeight :=
  _scrollHeight s; _scrollTop := _scrollTop s; _scrollRight := _scrollRight s; _scrollBottom
  := _scrollBottom s; _scrollLeft := _scrollLeft s; _lastAxis := _lastAxis s; _lastDirection
  := _lastDirection s; _lastYDirection := _lastYDirection s; _lastXDirection :=
  _lastXDirection s; _nowScrolling := _nowScrolling s; _readyResolvers := _readyResolvers s;
  _scrollingJudgeTimerId := _scrollingJudgeTimerId s; _startX := _startX s; _startY := _startY
  s; _tickedX := _tickedX s; _tickedY := _tickedY s; _lastTotalX := _lastTotalX s; _lastTotalY
  := _lastTotalY s; _scrollListener := _scrollListener s; _resizeListener := _resizeListener
  s; _resizeObserver := _resizeObserver s; _scrollToResult := _scrollToResult s; _observers :=
  v; _scrollStoppers := _scrollStoppers s; _scrollSizeOvserverPollingId :=
  _scrollSizeOvserverPollingId s; _scrollSizeOvserverSuspended := _scrollSizeOvserverSuspended
  s; _visibilityListener := _visibilityListener s; _subscribers := _subscribers s |}.

Definition set_scrollStoppers (v : list ScrollStopper) (s : Scroller) : Scroller :=
  {| scrollingJudgeInterval := scrollingJudgeInterval s; baseAxis := baseAxis s;
  scrollSizeOvserver := scrollSizeOvserver s; _el := _el s; _eventTarget := _eventTarget s;
  _isDocumentElement := _isDocumentElement s; _isBodyElement := _isBodyElement s;
  _isRootElement := _isRootElement s; _state := _state s; _containerWidth := _containerWidth
  s; _containerHeight := _containerHeight s; _scrollWidth := _scrollWidth s; _scrollHeight :=
  _scrollHeight s; _scrollTop := _scrollTop s; _scrollRight := _scrollRight s; _scrollBottom
  := _scrollBottom s; _scrollLeft := _scrollLeft s; _lastAxis := _lastAxis s; _lastDirection
  := _lastDirection s; _lastYDirection := _lastYDirection s; _lastXDirection :=
  _lastXDirection s; _nowScrolling := _nowScrolling s; _readyResolvers := _readyResolvers s;
  _scrollingJudgeTimerId := _scrollingJudgeTimerId s; _startX := _startX s; _startY := _startY
  s; _tickedX := _tickedX s; _tickedY := _tickedY s; _lastTotalX := _lastTotalX s; _lastTotalY
  := _lastTotalY s; _scrollListener := _scrollListener s; _resizeListener := _resizeListener
  s; _resizeObserver := _resizeObserver s; _scrollToResult := _scrollToResult s; _observers :=
  _observers s; _scrollStoppers := v; _scrollSizeOvserverPollingId :=
  _scrollSizeOvserverPollingId s; _scrollSizeOvserverSuspended := _scrollSizeOvserverSuspended
  s; _visibilityListener := _visibilityListener s; _subscribers := _subscribers s |}.

Definition set_scrollSizeOvserverPollingId (v : option nat) (s : Scroller) : Scroller :=
  {| scrollingJudgeInterval := scrollingJudgeInterval s; baseAxis := baseAxis s;
  scrollSizeOvserver := scrollSizeOvserver s; _el := _el s; _eventTarget := _eventTarget s;
  _isDocumentElement := _isDocumentElement s; _isBodyElement := _isBodyElement s;
  _isRootElement := _isRootElement s; _state := _state s; _containerWidth := _containerWidth
  s; _containerHeight := _containerHeight s; _scrollWidth := _scrollWidth s; _scrollHeight :=
  _scrollHeight s; _scrollTop := _scrollTop s; _scrollRight := _scrollRight s; _scrollBottom
  := _scrollBottom s; _scrollLeft := _scrollLeft s; _lastAxis := _lastAxis s; _lastDirection
  := _lastDirection s; _lastYDirection := _lastYDirection s; _lastXDirection :=
  _lastXDirection s; _nowScrolling := _nowScrolling s; _readyResolvers := _readyResolvers s;
  _scrollingJudgeTimerId := _scrollingJudgeTimerId s; _startX := _startX s; _startY := _startY
  s; _tickedX := _tickedX s; _tickedY := _tickedY s; _lastTotalX := _lastTotalX s; _lastTotalY
  := _lastTotalY s; _scrollListener := _scrollListener s; _resizeListener := _resizeListener
  s; _resizeObserver := _resizeObserver s; _scrollToResult := _scrollToResult s; _observers :=
  _observers s; _scrollStoppers := _scrollStoppers s; _scrollSizeOvserverPollingId := v;
  _scrollSizeOvserverSuspended := _scrollSizeOvserverSuspended s; _visibilityListener :=
  _visibilityListener s; _subscribers := _subscribers s |}.

Definition set_scrollSizeOvserverSuspended (v : bool) (s : Scroller) : Scroller :=
  {| scrollingJudgeInterval := scrollingJudgeInterval s; baseAxis := baseAxis s;
  scrollSizeOvserver := scrollSizeOvserver s; _el := _el s; _eventTarget := _eventTarget s;
  _isDocumentElement := _isDocumentElement s; _isBodyElement := _isBodyElement s;
  _isRootElement := _isRootElement s; _state := _state s; _containerWidth := _containerWidth
  s; _containerHeight := _containerHeight s; _scrollWidth := _scrollWidth s; _scrollHeight :=
  _scrollHeight s; _scrollTop := _scrollTop s; _scrollRight := _scrollRight s; _scrollBottom
  := _scrollBottom s; _scrollLeft := _scrollLeft s; _lastAxis := _lastAxis s; _lastDirection
  := _lastDirection s; _lastYDirection := _lastYDirection s; _lastXDirection :=
  _lastXDirection s; _nowScrolling := _nowScrolling s; _readyResolvers := _readyResolvers s;
  _scrollingJudgeTimerId := _scrollingJudgeTimerId s; _startX := _startX s; _startY := _startY
  s; _tickedX := _tickedX s; _tickedY := _tickedY s; _lastTotalX := _lastTotalX s; _lastTotalY
  := _lastTotalY s; _scrollListener := _scrollListener s; _resizeListener := _resizeListener
  s; _resizeObserver := _resizeObserver s; _scrollToResult := _scrollToResult s; _observers :=
  _observers s; _scrollStoppers := _scrollStoppers s; _scrollSizeOvserverPollingId :=
  _scrollSizeOvserverPollingId s; _scrollSizeOvserverSuspended := v; _visibilityListener :=
  _visibilityListener s; _subscribers := _subscribers s |}.

Definition set_visibilityListener (v : bool) (s : Scroller) : Scroller :=
  {| scrollingJudgeInterval := scrollingJudgeInterval s; baseAxis := baseAxis s;
  scrollSizeOvserver := scrollSizeOvserver s; _el := _el s; _eventTarget := _eventTarget s;
  _isDocumentElement := _isDocumentElement s; _isBodyElement := _isBodyElement s;
  _isRootElement := _isRootElement s; _state := _state s; _containerWidth := _containerWidth
  s; _containerHeight := _containerHeight s; _scrollWidth := _scrollWidth s; _scrollHeight :=
  _scrollHeight s; _scrollTop := _scrollTop s; _scrollRight := _scrollRight s; _scrollBottom
  := _scrollBottom s; _scrollLeft := _scrollLeft s; _lastAxis := _lastAxis s; _lastDirection
  := _lastDirection s; _lastYDirection := _lastYDirection s; _lastXDirection :=
  _lastXDirection s; _nowScrolling := _nowScrolling s; _readyResolvers := _readyResolvers s;
  _scrollingJudgeTimerId := _scrollingJudgeTimerId s; _startX := _startX s; _startY := _startY
  s; _tickedX := _tickedX s; _tickedY := _tickedY s; _lastTotalX := _lastTotalX s; _lastTotalY
  := _lastTotalY s; _scrollListener := _scrollListener s; _resizeListener := _resizeListener
  s; _resizeObserver := _resizeObserver s; _scrollToResult := _scrollToResult s; _observers :=
  _observers s; _scrollStoppers := _scrollStoppers s; _scrollSizeOvserverPollingId :=
  _scrollSizeOvserverPollingId s; _scrollSizeOvserverSuspended := _scrollSizeOvserverSuspended
  s; _visibilityListener := v; _subscribers := _subscribers s |}.

Definition set_subscribers (v : list nat) (s : Scroller) : Scroller :=
  {| scrollingJudgeInterval := scrollingJudgeInterval s; baseAxis := baseAxis s;
  scrollSizeOvserver := scrollSizeOvserver s; _el := _el s; _eventTarget := _eventTarget s;
  _isDocumentElement := _isDocumentElement s; _isBodyElement := _isBodyElement s;
  _isRootElement := _isRootElement s; _state := _state s; _containerWidth := _containerWidth
  s; _containerHeight := _containerHeight s; _scrollWidth := _scrollWidth s; _scrollHeight :=
  _scrollHeight s; _scrollTop := _scrollTop s; _scrollRight := _scrollRight s; _scrollBottom
  := _scrollBottom s; _scrollLeft := _scrollLeft s; _lastAxis := _lastAxis s; _lastDirection
  := _lastDirection s; _lastYDirection := _lastYDirection s; _lastXDirection :=
  _lastXDirection s; _nowScrolling := _nowScrolling s; _readyResolvers := _readyResolvers s;
  _scrollingJudgeTimerId := _scrollingJudgeTimerId s; _startX := _startX s; _startY := _startY
  s; _tickedX := _tickedX s; _tickedY := _tickedY s; _lastTotalX := _lastTotalX s; _lastTotalY
  := _lastTotalY s; _scrollListener := _scrollListener s; _resizeListener := _resizeListener
  s; _resizeObserver := _resizeObserver s; _scrollToResult := _scrollToResult s; _observers :=
  _observers s; _scrollStoppers := _scrollStoppers s; _scrollSizeOvserverPollingId :=
  _scrollSizeOvserverPollingId s; _scrollSizeOvserverSuspended := _scrollSizeOvserverSuspended
  s; _visibilityListener := _visibilityListener s; _subscribers := v |}.

Record World : Type := mkWorld {
  self : Scroller;
  microtasks : list Microtask;
  timers : list nat;
  next_timer : nat;
  animations : list Animation;
  reactions : list ScrollResult;
  HAS_WINDOW : bool;
  isVisible : bool;
  visibility_subscribed : bool;
  document_clientWidth : Z;
  document_clientHeight : Z;
  document_querySelector : string -> option Element;
  document_scrollingElement : option Element;
  defaultSettings_container : option Element
}.

Definition set_self (v : Scroller) (w : World) : World :=
  {| self := v; microtasks := microtasks w; timers := timers w; next_timer := next_timer w;
  animations := animations w; reactions := reactions w; HAS_WINDOW := HAS_WINDOW w; isVisible
  := isVisible w; visibility_subscribed := visibility_subscribed w; document_clientWidth :=
  document_clientWidth w; document_clientHeight := document_clientHeight w;
  document_querySelector := document_querySelector w; document_scrollingElement :=
  document_scrollingElement w; defaultSettings_container := defaultSettings_container w |}.

Definition set_microtasks (v : list Microtask) (w : World) : World :=
  {| self := self w; microtasks := v; timers := timers w; next_timer := next_timer w;
  animations := animations w; reactions := reactions w; HAS_WINDOW := HAS_WINDOW w; isVisible
  := isVisible w; visibility_subscribed := visibility_subscribed w; document_clientWidth :=
  document_clientWidth w; document_clientHeight := document_clientHeight w;
  document_querySelector := document_querySelector w; document_scrollingElement :=
  document_scrollingElement w; defaultSettings_container := defaultSettings_container w |}.

Definition set_timers (v : list nat) (w : World) : World :=
  {| self := self w; microtasks := microtasks w; timers := v; next_timer := next_timer w;
  animations := animations w; reactions := reactions w; HAS_WINDOW := HAS_WINDOW w; isVisible
  := isVisible w; visibility_subscribed := visibility_subscribed w; document_clientWidth :=
  document_clientWidth w; document_clientHeight := document_clientHeight w;
  document_querySelector := document_querySelector w; document_scrollingElement :=
  document_scrollingElement w; defaultSettings_container := defaultSettings_container w |}.

Definition set_next_timer (v : nat) (w : World) : World :=
  {| self := self w; microtasks := microtasks w; timers := timers w; next_timer := v;
  animations := animations w; reactions := reactions w; HAS_WINDOW := HAS_WINDOW w; isVisible
  := isVisible w; visibility_subscribed := visibility_subscribed w; document_clientWidth :=
  document_clientWidth w; document_clientHeight := document_clientHeight w;
  document_querySelector := document_querySelector w; document_scrollingElement :=
  document_scrollingElement w; defaultSettings_container := defaultSettings_container w |}.

Definition set_animations (v : list Animation) (w : World) : World :=
  {| self := self w; microtasks := microtasks w; timers := timers w; next_timer := next_timer
  w; animations := v; reactions := reactions w; HAS_WINDOW := HAS_WINDOW w; isVisible :=
  isVisible w; visibility_subscribed := visibility_subscribed w; document_clientWidth :=
  document_clientWidth w; document_clientHeight := document_clientHeight w;
  document_querySelector := document_querySelector w; document_scrollingElement :=
  document_scrollingElement w; defaultSettings_container := defaultSettings_container w |}.

Definition set_reactions (v : list ScrollResult) (w : World) : World :=
  {| self := self w; microtasks := microtasks w; timers := timers w; next_timer := next_timer
  w; animations := animations w; reactions := v; HAS_WINDOW := HAS_WINDOW w; isVisible :=
  isVisible w; visibility_subscribed := visibility_subscribed w; document_clientWidth :=
  document_clientWidth w; document_clientHeight := document_clientHeight w;
  document_querySelector := document_querySelector w; document_scrollingElement :=
  document_scrollingElement w; defaultSettings_container := defaultSettings_container w |}.

Definition set_visibility_subscribed (v : bool) (w : World) : World :=
  {| self := self w; microtasks := microtasks w; timers := timers w; next_timer := next_timer
  w; animations := animations w; reactions := reactions w; HAS_WINDOW := HAS_WINDOW w;
  isVisible := isVisible w; visibility_subscribed := v; document_clientWidth :=
  document_clientWidth w; document_clientHeight := document_clientHeight w;
  document_querySelector := document_querySelector w; document_scrollingElement :=
  document_scrollingElement w; defaultSettings_container := defaultSettings_container w |}.

(** ** The monad of controller methods *)

Inductive Outcome (A : Type) : Type :=
| Ok (a : A) (w : World) (out : list Effect)
| Throw (e : Error) (w : World) (out : list Effect).

Arguments Ok {A} a w out.
Arguments Throw {A} e w out.

Definition M (A : Type) : Type := World -> Outcome A.

Definition ret {A : Type} (a : A) : M A := fun w => Ok a w [].

Definition bind {A B : Type} (m : M A) (f : A -> M B) : M B :=
  fun w =>
    match m w with
    | Ok a w1 o1 =>
        match f a w1 with
        | Ok b w2 o2 => Ok b w2 (o1 ++ o2)
        | Throw e w2 o2 => Throw e w2 (o1 ++ o2)
        end
    | Throw e w1 o1 => Throw e w1 o1
    end.

Declare Scope scroller_scope.
Delimit Scope scroller_scope with scroller.
Notation "x <- c1 ;; c2" := (bind c1 (fun x => c2))
  (at level 61, c1 at next level, right associativity) : scroller_scope.
Notation "c1 ;; c2" := (bind c1 (fun _ => c2))
  (at level 61, right associativity) : scroller_scope.
Local Open Scope scroller_scope.

Definition throw {A : Type} (e : Error) : M A := fun w => Throw e w [].

(** Reading and assigning the fields of [this]. *)
Definition this : M Scroller := fun w => Ok (self w) w [].

Definition assign (f : Scroller -> Scroller) : M unit :=
  fun w => Ok tt (set_self (f (self w)) w) [].

(** Reading and changing the environment. *)
Definition env : M World := fun w => Ok w w [].

Definition assign_env (f : World -> World) : M unit :=
  fun w => Ok tt (f w) [].

Definition tell (out : list Effect) : M unit := fun w => Ok tt w out.

(** [DDEvent.emit]. *)
Definition emit (e : Event) : M unit := tell [Emit e].

(** Modelled from the spec: the subscriptions of the event emitter the
    controller extends (DDEvent, of the package dd-event, not under src/).
    [on] registers a subscriber, [offAll] removes every subscriber, and an
    event is delivered to the subscribers registered when it is emitted. *)
Definition on (subscriber : nat) : M unit :=
  assign (fun s => set_subscribers (_subscribers s ++ [subscriber]) s).

Definition offAll : M unit := assign (set_subscribers []).

(** A call of an [async] function whose promise the caller drops: an
    exception inside it rejects that promise and does not reach the
    caller. *)
Definition detached (m : M unit) : M unit :=
  fun w =>
    match m w with
    | Ok _ w1 o1 => Ok tt w1 o1
    | Throw _ w1 o1 => Ok tt w1 o1
    end.

Definition when (b : bool) (m : M unit) : M unit := if b then m else ret tt.

Fixpoint forEach {A : Type} (l : list A) (f : A -> M unit) : M unit :=
  match l with
  | [] => ret tt
  | a :: l' => f a ;; forEach l' f
  end.

Definition enqueueMicrotask (t : Microtask) : M unit :=
  assign_env (fun w => set_microtasks (microtasks w ++ [t]) w).

(** [window.setTimeout] / [window.setInterval]: a fresh live timer id. *)
Definition setTimer : M nat :=
  w <- env ;;
  assign_env (fun w => set_next_timer (S (next_timer w))
                         (set_timers (next_timer w :: timers w) w)) ;;
  ret (next_timer w).

(** [clearTimeout] / [clearInterval]. *)
Definition clearTimer (id : nat) : M unit :=
  assign_env (fun w => set_timers (filter (fun t => negb (Nat.eqb t id)) (timers w)) w).

(** ** Equality of JavaScript values *)

Definition ScrollAxis_eqb (a b : ScrollAxis) : bool :=
  match a, b with
  | AxisX, AxisX | AxisY, AxisY => true
  | _, _ => false
  end.

Definition ScrollYDirection_eqb (a b : ScrollYDirection) : bool :=
  match a, b with
  | YTop, YTop | YBottom, YBottom => true
  | _, _ => false
  end.

Definition ScrollXDirection_eqb (a b : ScrollXDirection) : bool :=
  match a, b with
  | XLeft, XLeft | XRight, XRight => true
  | _, _ => false
  end.

Definition ScrollDirection_eqb (a b : ScrollDirection) : bool :=
  match a, b with
  | DirY c, DirY d => ScrollYDirection_eqb c d
  | DirX c, DirX d => ScrollXDirection_eqb c d
  | _, _ => false
  end.

Definition ScrollerState_eqb (a b : ScrollerState) : bool :=
  match a, b with
  | Pending, Pending | Ready, Ready | Running, Running | Destroyed, Destroyed => true
  | _, _ => false
  end.

(** [a === b] on stopper values: NaN is not equal to itself. *)
Definition strictEquals (a b : ScrollStopper) : bool :=
  match a, b with
  | StopperNumber m, StopperNumber n => Z.eqb m n
  | StopperString s, StopperString t => String.eqb s t
  | StopperObject r, StopperObject q => Nat.eqb r q
  | StopperSymbol r, StopperSymbol q => Nat.eqb r q
  | _, _ => false
  end.

(** SameValueZero, the comparison of [Array.prototype.includes]: as [===]
    but NaN equals NaN. *)
Definition sameValueZero (a b : ScrollStopper) : bool :=
  match a, b with
  | StopperNaN, StopperNaN => true
  | _, _ => strictEquals a b
  end.

(** [Array.prototype.includes]. *)
Definition includes (l : list ScrollStopper) (v : ScrollStopper) : bool :=
  existsb (sameValueZero v) l.

(** [Array.prototype.indexOf]: [None] stands for [-1]. *)
Fixpoint indexOf (l : list ScrollStopper) (v : ScrollStopper) : option nat :=
  match l with
  | [] => None
  | a :: l' =>
      if strictEquals a v then Some O
      else match indexOf l' v with
           | Some i => Some (S i)
           | None => None
           end
  end.

(** [array.splice(index, 1)]: the array without the element at [index]. *)
Fixpoint splice1 {A : Type} (index : nat) (l : list A) : list A :=
  match l, index with
  | [], _ => []
  | _ :: l', O => l'
  | a :: l', S i => a :: splice1 i l'
  end.

(** [includes] and [indexOf] on the array of observers (object identity). *)
Definition includesObserver (l : list nat) (o : nat) : bool :=
  existsb (Nat.eqb o) l.

Fixpoint indexOfObserver (l : list nat) (o : nat) : option nat :=
  match l with
  | [] => None
  | a :: l' =>
      if Nat.eqb a o then Some O
      else match indexOfObserver l' o with
           | Some i => Some (S i)
           | None => None
           end
  end.

(** ** Getters *)

Definition isPending (s : Scroller) : bool := ScrollerState_eqb (_state s) Pending.
Definition isRunning (s : Scroller) : bool := ScrollerState_eqb (_state s) Running.
Definition isDestroyed (s : Scroller) : bool := ScrollerState_eqb (_state s) Destroyed.

Definition scrollEnabled (s : Scroller) : bool :=
  Nat.eqb (List.length (_scrollStoppers s)) 0.

Definition scrollableX (s : Scroller) : bool := _containerWidth s <? _scrollWidth s.
Definition scrollableY (s : Scroller) : bool := _containerHeight s <? _scrollHeight s.

Definition lastPayload (s : Scroller) : ScrollerPayload :=
  {| top := _scrollTop s;
     left := _scrollLeft s;
     bottom := _scrollBottom s;
     right := _scrollRight s;
     axis := _lastAxis s;
     direction := _lastDirection s;
     directionX := _lastXDirection s;
     directionY := _lastYDirection s;
     tickedX := _tickedX s;
     tickedY := _tickedY s;
     totalX := _lastTotalX s;
     totalY := _lastTotalY s |}.

(** ** The animated scroll functions the controller delegates to *)

(** Modelled from the spec: [$] and [defaultSettings] of the scroll
    functions (./util and ./scroll, not under src/), as [scrollToSide] uses
    them: [$((options && options.container) || defaultSettings.container)].
    The container is the one given in the options, else the default one;
    [None] is a container that does not resolve. *)
Definition resolveContainer (options : option ScrollOptions) : M (option Element) :=
  w <- env ;;
  ret (match options with
       | Some o =>
           match container o with
           | Some c => Some c
           | None => defaultSettings_container w
           end
       | None => defaultSettings_container w
       end).

(** Modelled from the spec: the animation engine behind [scrollBy] and
    [scrollTo] (./scroll-by-internal and ./scroll-to, not under src/).  A
    request references the container its options name.  A request whose
    options name no container that resolves fails at the call; otherwise a
    new animation is in flight and its [ScrollResult] is returned.  The
    frames of the animation are not modelled. *)
Definition animate (request : ScrollRequest) (options : option ScrollOptions)
  : M ScrollResult :=
  match options with
  | Some o =>
      match container o with
      | Some c =>
          w <- env ;;
          assign_env (fun w => set_animations
            (animations w ++
               [{| anim_request := request; anim_container := c;
                   anim_status := InFlight |}]) w) ;;
          ret (List.length (animations w))
      | None => throw MissingContainer
      end
  | None => throw MissingContainer
  end.

Definition scrollBy (diffX diffY : Z) (options : option ScrollOptions) : M ScrollResult :=
  animate (RequestBy diffX diffY) options.

Definition scrollTo (position : ScrollPosition) (options : option ScrollOptions)
  : M ScrollResult :=
  animate (RequestTo position) options.

Definition statusOf (result : ScrollResult) (w : World) : option AnimationStatus :=
  option_map anim_status (nth_error (animations w) result).

Definition inFlight (result : ScrollResult) (w : World) : bool :=
  match statusOf result w with
  | Some InFlight => true
  | _ => false
  end.

Fixpoint setStatus (result : nat) (st : AnimationStatus) (l : list Animation)
  : list Animation :=
  match l, result with
  | [], _ => []
  | a :: l', O =>
      {| anim_request := anim_request a; anim_container := anim_container a;
         anim_status := st |} :: l'
  | a :: l', S i => a :: setStatus i st l'
  end.

(** Modelled from the spec: the completion future of an animation in
    flight resolves, on cancellation as on completion; the reactions the
    controller attached to it are queued as microtasks. *)
Definition settle (result : ScrollResult) (st : AnimationStatus) : M unit :=
  w <- env ;;
  when (inFlight result w)
    (assign_env (fun w => set_animations (setStatus result st (animations w)) w) ;;
     forEach (filter (Nat.eqb result) (reactions w))
             (fun _ => enqueueMicrotask ScrollToResultSettled) ;;
     assign_env (fun w =>
       set_reactions (filter (fun r => negb (Nat.eqb result r)) (reactions w)) w)).

(** [ScrollResult.cancel]. *)
Definition result_cancel (result : ScrollResult) : M unit := settle result Cancelled.

(** The animation reaches its target. *)
Definition animation_completes (result : ScrollResult) : M unit :=
  settle result Completed.

(** [result.promise.then(callback)] with the controller's callback. *)
Definition promise_then (result : ScrollResult) : M unit :=
  w <- env ;;
  if inFlight result w
  then assign_env (fun w => set_reactions (reactions w ++ [result]) w)
  else enqueueMicrotask ScrollToResultSettled.

(** Modelled from the spec: [enableScroll] and [disableScroll] of ./util
    (not under src/) lift and set the host-level scroll suppression of the
    element. *)
Definition enableScroll (el : option Element) : option Element :=
  option_map (el_set_scrollDisabled false) el.

Definition disableScroll (el : option Element) : option Element :=
  option_map (el_set_scrollDisabled true) el.

(** ** scrollToSide *)

Inductive ScrollSide : Type := SideTop | SideBottom | SideLeft | SideRight.

Definition ScrollSide_eqb (a b : ScrollSide) : bool :=
  match a, b with
  | SideTop, SideTop | SideBottom, SideBottom
  | SideLeft, SideLeft | SideRight, SideRight => true
  | _, _ => false
  end.

Definition sides_includes (sides : list ScrollSide) (side : ScrollSide) : bool :=
  existsb (ScrollSide_eqb side) sides.

(** The argument of [scrollToSide]: one side or an array of sides. *)
Inductive ScrollToSideTargets : Type :=
| OneSide (side : ScrollSide)
| SideArray (sides : list ScrollSide).

Definition set_x (v : Z) (p : ScrollPosition) : ScrollPosition :=
  {| pos_x := Some v; pos_y := pos_y p |}.

Definition set_y (v : Z) (p : ScrollPosition) : ScrollPosition :=
  {| pos_x := pos_x p; pos_y := Some v |}.

(** The body of [scrollToSide] up to its [return]: the position handed to
    [scrollTo]. *)
Definition scrollToSide_position (targets : ScrollToSideTargets)
  (options : option ScrollOptions) : M ScrollPosition :=
  let sides := match targets with OneSide side => [side] | SideArray l => l end in
  let position := {| pos_x := None; pos_y := None |} in
  let hasRight := sides_includes sides SideRight in
  let hasBottom := sides_includes sides SideBottom in
  let position :=
    if sides_includes sides SideTop then set_y 0 position
    else if sides_includes sides SideLeft then set_x 0 position
    else position in
  if hasRight || hasBottom then
    c <- resolveContainer options ;;
    match c with
    | None => throw MissingContainer
    | Some c =>
        let position := if hasRight then set_x (el_scrollWidth c) position else position in
        let position := if hasBottom then set_y (el_scrollHeight c) position else position in
        ret position
    end
  else ret position.

Definition scrollToSide (targets : ScrollToSideTargets) (options : option ScrollOptions)
  : M ScrollResult :=
  position <- scrollToSide_position targets options ;;
  scrollTo position options.

Definition scrollToTop (options : option ScrollOptions) : M ScrollResult :=
  scrollToSide (OneSide SideTop) options.

Definition scrollToRight (options : option ScrollOptions) : M ScrollResult :=
  scrollToSide (OneSide SideRight) options.

Definition scrollToBottom (options : option ScrollOptions) : M ScrollResult :=
  scrollToSide (OneSide SideBottom) options.

Definition scrollToLeft (options : option ScrollOptions) : M ScrollResult :=
  scrollToSide (OneSide SideLeft) options.

(** ** Scroller: private methods *)

(** [this.el.<property>]: a TypeError when no element is bound. *)
Definition el : M Element :=
  s <- this ;;
  match _el s with
  | Some e => ret e
  | None => throw TypeError
  end.

Definition _syncToObserver (observer : nat) (keys : list string) : M unit :=
  tell [SyncToObserver observer keys].

Definition _syncToObservers (keys : list string) : M unit :=
  s <- this ;;
  if Nat.eqb (List.length (_observers s)) 0 then ret tt
  else forEach (_observers s) (fun observer => _syncToObserver observer keys).

Definition _clearScrollToResult : M unit :=
  s <- this ;;
  match _scrollToResult s with
  | None => ret tt
  | Some _ => assign (set_scrollToResult None)
  end.

Definition _setScrollToResult (result : ScrollResult) : M ScrollResult :=
  assign (set_scrollToResult (Some result)) ;;
  promise_then result ;;
  ret result.

Definition cancel : M unit :=
  s <- this ;;
  match _scrollToResult s with
  | None => ret tt
  | Some result => result_cancel result ;; _clearScrollToResult
  end.

Definition _scrollEnable : M unit :=
  assign (fun s => set_el (enableScroll (_el s)) s).

Definition _scrollDisable : M unit :=
  cancel ;;
  assign (fun s => set_el (disableScroll (_el s)) s).

Definition _updateScrollable : M unit :=
  s <- this ;;
  if scrollEnabled s then _scrollEnable else _scrollDisable.

Definition _setState (state : ScrollerState) : M unit :=
  s <- this ;;
  when (negb (ScrollerState_eqb (_state s) state))
    (assign (set_state state) ;;
     _syncToObservers ["state"; "isPending"; "isReady"; "isRunning"; "isDestroyed"]%string ;;
     emit (EvChangeState state)).

Definition _checkDestroyed : M unit :=
  s <- this ;;
  if isDestroyed s then throw AlreadyDestroyed else ret tt.

Definition _updateContainerSize (width height : option Z) : M unit :=
  s <- this ;;
  w <- env ;;
  width <- match width with
           | Some v => ret v
           | None => if _isBodyElement s then ret (document_clientWidth w)
                     else e <- el ;; ret (el_clientWidth e)
           end ;;
  height <- match height with
            | Some v => ret v
            | None => if _isBodyElement s then ret (document_clientHeight w)
                      else e <- el ;; ret (el_clientHeight e)
            end ;;
  assign (set_containerWidth width) ;;
  assign (set_containerHeight height) ;;
  when (negb (width =? _containerWidth s) || negb (height =? _containerHeight s))
    (_syncToObservers
       ["containerWidth"; "containerHeight"; "scrollableX"; "scrollableY"]%string ;;
     emit (EvResize width height)).

Definition _updateScrollSize : M unit :=
  s <- this ;;
  e <- el ;;
  assign (set_scrollWidth (el_scrollWidth e)) ;;
  assign (set_scrollHeight (el_scrollHeight e)) ;;
  when (negb (_scrollWidth s =? el_scrollWidth e)
        || negb (_scrollHeight s =? el_scrollHeight e))
    (_syncToObservers ["scrollWidth"; "scrollHeight"; "scrollableX"; "scrollableY"]%string).

Definition _updateScrollPositions : M unit :=
  e <- el ;;
  assign (set_scrollTop (el_scrollTop e)) ;;
  assign (set_scrollLeft (el_scrollLeft e)) ;;
  assign (fun s => set_scrollBottom (_scrollHeight s - _scrollTop s - _containerHeight s) s) ;;
  assign (fun s => set_scrollRight (_scrollWidth s - _scrollLeft s - _containerWidth s) s) ;;
  _syncToObservers ["scrollTop"; "scrollRight"; "scrollBottom"; "scrollLeft"]%string.

Definition _update (width height : option Z) : M unit :=
  _updateContainerSize width height ;;
  _updateScrollSize ;;
  _updateScrollPositions.

Definition _stopScrollSizeOvserver : M unit :=
  s <- this ;;
  match _scrollSizeOvserverPollingId s with
  | Some id => clearTimer id ;; assign (set_scrollSizeOvserverPollingId None)
  | None => ret tt
  end.

Definition _startScrollSizeOvserver : M unit :=
  w <- env ;;
  if negb (HAS_WINDOW w) then ret tt
  else
    _stopScrollSizeOvserver ;;
    s <- this ;;
    match scrollSizeOvserver s with
    | Some _ => id <- setTimer ;; assign (set_scrollSizeOvserverPollingId (Some id))
    | None => ret tt
    end.

(** The callback given to [setInterval] in [_startScrollSizeOvserver]. *)
Definition scrollSizeOvserver_callback : M unit :=
  s <- this ;;
  match scrollSizeOvserver s with
  | None => _stopScrollSizeOvserver
  | Some _ => if isDestroyed s then _stopScrollSizeOvserver else _updateScrollSize
  end.

Definition _stopListeners : M unit :=
  s <- this ;;
  when (_scrollListener s)
    (match _eventTarget s with
     | Some _ => assign (set_scrollListener false)
     | None => throw TypeError
     end) ;;
  s <- this ;;
  when (_resizeListener s)
    (when (_isDocumentElement s) (assign (set_resizeListener false))) ;;
  s <- this ;;
  when (_resizeObserver s) (assign (set_resizeObserver false)).

Definition _startListeners : M unit :=
  _stopListeners ;;
  assign (set_scrollListener true) ;;
  s <- this ;;
  match _eventTarget s with
  | None => throw TypeError
  | Some _ =>
      (if _isRootElement s then assign (set_resizeListener true)
       else assign (set_resizeObserver true)) ;;
      w <- env ;;
      if isVisible w then
        assign (set_scrollSizeOvserverSuspended false) ;;
        _startScrollSizeOvserver
      else assign (set_scrollSizeOvserverSuspended true)
  end.

Definition _clearScrollingJudgeTimer : M unit :=
  s <- this ;;
  match _scrollingJudgeTimerId s with
  | Some id => clearTimer id ;; assign (set_scrollingJudgeTimerId None)
  | None => ret tt
  end.

Definition _onResize (width height : option Z) : M unit := _update width height.

Definition _triggerScrollTick (event : ScrollTick) : M unit :=
  before <- this ;;
  match event with
  | scrollStart =>
      assign (fun s => set_startX (_scrollLeft s) s) ;;
      assign (fun s => set_startY (_scrollTop s) s) ;;
      assign (set_lastTotalX 0) ;;
      assign (set_lastTotalY 0) ;;
      assign (set_nowScrolling true)
  | scrollEnd => assign (set_nowScrolling false)
  | scroll => ret tt
  end ;;
  s <- this ;;
  when (negb (Bool.eqb (_nowScrolling before) (_nowScrolling s)))
    (_syncToObservers ["nowScrolling"]%string) ;;
  s <- this ;;
  emit (EvScroll event (lastPayload s)).

Definition _onScroll : M unit :=
  s <- this ;;
  if negb (scrollEnabled s) then
    match _el s with
    | None => throw TypeError
    | Some e =>
        assign (set_el (Some (el_set_scrollTop (_scrollTop s)
                               (el_set_scrollLeft (_scrollLeft s) e))))
    end
  else
    (* remember the values before *)
    let before := s in
    _updateScrollPositions ;;
    s <- this ;;
    let tickedX := _scrollLeft s - _scrollLeft before in
    let tickedY := _scrollTop s - _scrollTop before in
    assign (set_tickedX tickedX) ;;
    assign (set_tickedY tickedY) ;;
    (* update axis *)
    (if tickedX =? tickedY then assign (fun s => set_lastAxis (baseAxis s) s)
     else assign (set_lastAxis (if Z.abs tickedY <? Z.abs tickedX then AxisX else AxisY))) ;;
    (* update directions *)
    s <- this ;;
    (if _scrollTop before <? _scrollTop s then assign (set_lastYDirection YBottom)
     else if _scrollTop s <? _scrollTop before then assign (set_lastYDirection YTop)
     else ret tt) ;;
    (if _scrollLeft before <? _scrollLeft s then assign (set_lastXDirection XRight)
     else if _scrollLeft s <? _scrollLeft before then assign (set_lastXDirection XLeft)
     else ret tt) ;;
    assign (fun s => set_lastDirection
              (match _lastAxis s with
               | AxisY => DirY (_lastYDirection s)
               | AxisX => DirX (_lastXDirection s)
               end) s) ;;
    (* judge scroll end by the axis and directions before *)
    s <- this ;;
    let axisIsChanged := negb (ScrollAxis_eqb (_lastAxis s) (_lastAxis before)) in
    let lastXDirectionIsChanged :=
      negb (ScrollXDirection_eqb (_lastXDirection s) (_lastXDirection before)) in
    let lastYDirectionIsChanged :=
      negb (ScrollYDirection_eqb (_lastYDirection s) (_lastYDirection before)) in
    let lastDirectionIsChanged :=
      negb (ScrollDirection_eqb (_lastDirection s) (_lastDirection before)) in
    when axisIsChanged (emit (EvChangeAxis (_lastAxis s))) ;;
    when lastXDirectionIsChanged (emit (EvChangeLastXDirection (_lastXDirection s))) ;;
    when lastYDirectionIsChanged (emit (EvChangeLastYDirection (_lastYDirection s))) ;;
    when lastDirectionIsChanged (emit (EvChangeLastDirection (_lastDirection s))) ;;
    when (axisIsChanged || lastXDirectionIsChanged || lastYDirectionIsChanged
          || lastDirectionIsChanged)
      (_syncToObservers
         ["lastAxis"; "lastDirection"; "lastYDirection"; "lastXDirection"]%string) ;;
    when (_nowScrolling s)
      (if axisIsChanged
          || (ScrollAxis_eqb (_lastAxis before) AxisY && lastYDirectionIsChanged)
          || (ScrollAxis_eqb (_lastAxis before) AxisX && lastXDirectionIsChanged)
       then
         (* emit scroll end & start (both) *)
         _triggerScrollTick scrollEnd
       else
         (* add scroll amounts *)
         assign (fun s => set_lastTotalX (_scrollLeft s - _startX s) s) ;;
         assign (fun s => set_lastTotalY (_scrollTop s - _startY s) s) ;;
         _triggerScrollTick scroll) ;;
    (* judge scroll start *)
    s <- this ;;
    when (negb (_nowScrolling s))
      (_updateScrollSize ;;
       _triggerScrollTick scrollStart) ;;
    _clearScrollingJudgeTimer ;;
    id <- setTimer ;;
    assign (set_scrollingJudgeTimerId (Some id)).

(** The callback given to [setTimeout] at the end of [_onScroll]. *)
Definition scrollingJudgeTimer_callback : M unit := _triggerScrollTick scrollEnd.

(** ** Scroller: public methods *)

Definition continuationOf (r : Resolver) : Microtask :=
  match r with
  | ResolveWaiter waiter => WaiterContinuation waiter
  | ResolveStart => StartContinuation
  end.

(** [ready()], together with the code that awaits the promise it returns:
    [r] tells whose continuation runs once that promise is resolved.  A
    promise that is already resolved queues the continuation at once. *)
Definition ready (r : Resolver) : M unit :=
  _checkDestroyed ;;
  s <- this ;;
  if negb (isPending s) then enqueueMicrotask (continuationOf r)
  else assign (fun s => set_readyResolvers (_readyResolvers s ++ [r]) s).

(** Calling a resolve function of [_readyResolvers]. *)
Definition resolve (r : Resolver) : M unit :=
  tell [ResolveReady r] ;;
  enqueueMicrotask (continuationOf r).

(** [async start()] up to its [await]; an exception stands for the
    rejection of the promise it returns. *)
Definition start : M unit :=
  _checkDestroyed ;;
  s <- this ;;
  if isRunning s then ret tt
  else ready ResolveStart.

(** [async start()] after its [await]. *)
Definition start_continuation : M unit :=
  _startListeners ;;
  _setState Running.

Definition stop : M unit :=
  _checkDestroyed ;;
  s <- this ;;
  if negb (isRunning s) then ret tt
  else
    _stopListeners ;;
    _setState Ready.

Definition destroy : M unit :=
  s <- this ;;
  if isDestroyed s then ret tt
  else
    stop ;;
    cancel ;;
    assign (set_readyResolvers []) ;;
    assign (set_scrollStoppers []) ;;
    _scrollEnable ;;
    assign (set_observers []) ;;
    assign_env (set_visibility_subscribed false) ;;
    assign (set_el None) ;;
    assign (set_eventTarget None) ;;
    assign (set_scrollListener false) ;;
    assign (set_resizeListener false) ;;
    assign (set_resizeObserver false) ;;
    assign (set_scrollToResult None) ;;
    assign (set_visibilityListener false) ;;
    _setState Destroyed ;;
    offAll.

Definition update : M unit := _update None None.

Definition observe (observer : nat) : M unit :=
  s <- this ;;
  when (negb (includesObserver (_observers s) observer))
    (assign (fun s => set_observers (_observers s ++ [observer]) s)) ;;
  _syncToObserver observer
    ["state"; "isPending"; "isReady"; "isRunning"; "isDestroyed"; "scrollEnabled";
     "containerWidth"; "containerHeight"; "scrollWidth"; "scrollHeight"; "scrollableX";
     "scrollableY"; "scrollTop"; "scrollLeft"; "scrollRight"; "scrollBottom"; "lastAxis";
     "lastDirection"; "lastYDirection"; "lastXDirection"; "nowScrolling"]%string.

Definition unobserve (observer : nat) : M unit :=
  s <- this ;;
  match indexOfObserver (_observers s) observer with
  | Some index => assign (fun s => set_observers (splice1 index (_observers s)) s)
  | None => ret tt
  end.

Definition _createMergedScrollOptions : M (option ScrollOptions) :=
  s <- this ;;
  ret (Some {| container := _el s |}).

Definition by_ (diffX diffY : Z) : M ScrollResult :=
  options <- _createMergedScrollOptions ;;
  result <- scrollBy diffX diffY options ;;
  _setScrollToResult result.

Definition to (scrollPosition : ScrollPosition) : M ScrollResult :=
  options <- _createMergedScrollOptions ;;
  result <- scrollTo scrollPosition options ;;
  _setScrollToResult result.

Definition toSide (targets : ScrollToSideTargets) : M ScrollResult :=
  options <- _createMergedScrollOptions ;;
  result <- scrollToSide targets options ;;
  _setScrollToResult result.

Definition toTop : M ScrollResult :=
  options <- _createMergedScrollOptions ;;
  result <- scrollToTop options ;;
  _setScrollToResult result.

Definition toRight : M ScrollResult :=
  options <- _createMergedScrollOptions ;;
  result <- scrollToRight options ;;
  _setScrollToResult result.

Definition toBottom : M ScrollResult :=
  options <- _createMergedScrollOptions ;;
  result <- scrollToBottom options ;;
  _setScrollToResult result.

Definition toLeft : M ScrollResult :=
  options <- _createMergedScrollOptions ;;
  result <- scrollToLeft options ;;
  _setScrollToResult result.

Definition removeScrollStopper (stopper : ScrollStopper) : M unit :=
  s <- this ;;
  match indexOf (_scrollStoppers s) stopper with
  | Some index =>
      assign (fun s => set_scrollStoppers (splice1 index (_scrollStoppers s)) s) ;;
      s <- this ;;
      when (Nat.eqb (List.length (_scrollStoppers s)) 0)
        (_updateScrollable ;;
         _syncToObservers ["scrollEnabled"]%string)
  | None => ret tt
  end.

(** The function [pushScrollStopper] returns is [removeScrollStopper] at
    the same stopper. *)
Definition pushScrollStopper (stopper : ScrollStopper) : M unit :=
  s <- this ;;
  when (negb (includes (_scrollStoppers s) stopper))
    (assign (fun s => set_scrollStoppers (_scrollStoppers s ++ [stopper]) s) ;;
     s <- this ;;
     when (Nat.eqb (List.length (_scrollStoppers s)) 1)
       (_updateScrollable ;;
        _syncToObservers ["scrollEnabled"]%string)).

(** [async _setup()]: it has no [await], so it runs to its end inside the
    call; the promise of [start()] is dropped. *)
Definition _setup : M unit :=
  _updateScrollable ;;
  _update None None ;;
  _setState Ready ;;
  detached start ;;
  emit EvReady ;;
  s <- this ;;
  forEach (_readyResolvers s) resolve ;;
  assign (set_readyResolvers []).

(** The argument of [setElement]: a query string, an element or nothing. *)
Inductive ElementArg : Type :=
| ElString (query : string)
| ElElement (e : Element)
| ElUndefined.

(** Outside a DOM context the first statement only builds an Error, and
    reading [document] is a ReferenceError. *)
Definition setElement (arg : ElementArg) : M unit :=
  stop ;;
  w <- env ;;
  found <- match arg with
           | ElString query =>
               if HAS_WINDOW w then ret (document_querySelector w query)
               else throw ReferenceError
           | ElElement e => ret (Some e)
           | ElUndefined =>
               if HAS_WINDOW w then ret (document_scrollingElement w)
               else throw ReferenceError
           end ;;
  match found with
  | None => throw InvalidTarget
  | Some e =>
      assign (set_el (Some e)) ;;
      assign (set_isDocumentElement (el_isDocumentElement e)) ;;
      assign (set_isBodyElement (el_isBodyElement e)) ;;
      assign (fun s => set_isRootElement (_isDocumentElement s || _isBodyElement s) s) ;;
      assign (fun s => set_eventTarget
                (Some (if _isDocumentElement s || _isBodyElement s
                       then TargetWindow else TargetElement)) s) ;;
      detached _setup
  end.

(** The listener given to the visibility manager. *)
Definition _visibilityListener_callback : M unit :=
  w <- env ;;
  if isVisible w then
    update ;;
    s <- this ;;
    when (_scrollSizeOvserverSuspended s)
      (assign (set_scrollSizeOvserverSuspended false) ;;
       _startScrollSizeOvserver)
  else
    assign (fun s => set_scrollSizeOvserverSuspended
              (match _scrollSizeOvserverPollingId s with Some _ => true | None => false end)
              s) ;;
    _stopScrollSizeOvserver.

(** ** Construction *)

Record ScrollerSetting : Type := {
  setting_el : ElementArg;
  setting_scrollingJudgeInterval : option Z;
  setting_baseAxis : option ScrollAxis;
  setting_scrollSizeOvserver : option (option Z * option bool * option bool)
}.

Definition orDefault {A : Type} (o : option A) (d : A) : A :=
  match o with Some a => a | None => d end.

(** The instance after the field initialisers and the part of the
    constructor before the DOM is touched. *)
Definition initial (setting : ScrollerSetting) : Scroller :=
  let base := orDefault (setting_baseAxis setting) AxisY in
  {| scrollingJudgeInterval := orDefault (setting_scrollingJudgeInterval setting) 500;
     baseAxis := base;
     scrollSizeOvserver :=
       match setting_scrollSizeOvserver setting with
       | Some (i, w, h) =>
           Some {| interval := orDefault i 500; width := orDefault w true;
                   height := orDefault h true |}
       | None => None
       end;
     _el := None;
     _eventTarget := None;
     _isDocumentElement := false;
     _isBodyElement := false;
     _isRootElement := false;
     _state := Pending;
     _containerWidth := 0;
     _containerHeight := 0;
     _scrollWidth := 0;
     _scrollHeight := 0;
     _scrollTop := 0;
     _scrollRight := 0;
     _scrollBottom := 0;
     _scrollLeft := 0;
     _lastAxis := base;
     _lastDirection := match base with AxisY => DirY YTop | AxisX => DirX XLeft end;
     _lastYDirection := YTop;
     _lastXDirection := XLeft;
     _nowScrolling := false;
     _readyResolvers := [];
     _scrollingJudgeTimerId := None;
     _startX := 0;
     _startY := 0;
     _tickedX := 0;
     _tickedY := 0;
     _lastTotalX := 0;
     _lastTotalY := 0;
     _scrollListener := false;
     _resizeListener := false;
     _resizeObserver := false;
     _scrollToResult := None;
     _observers := [];
     _scrollStoppers := [];
     _scrollSizeOvserverPollingId := None;
     _scrollSizeOvserverSuspended := false;
     _visibilityListener := true;
     _subscribers := [] |}.

(** [new Scroller(setting)]. *)
Definition constructor (setting : ScrollerSetting) : M unit :=
  assign (fun _ => initial setting) ;;
  w <- env ;;
  if negb (HAS_WINDOW w) then ret tt
  else
    assign_env (set_visibility_subscribed true) ;;
    setElement (setting_el setting).

(** ** What the host does between calls *)

Definition runMicrotask (t : Microtask) : M unit :=
  match t with
  | StartContinuation => detached start_continuation
  | WaiterContinuation waiter => tell [Resumed waiter]
  | ScrollToResultSettled => _clearScrollToResult
  end.

(** Run the [n] oldest jobs of the microtask queue. *)
Fixpoint runMicrotasks (n : nat) : M unit :=
  match n with
  | O => ret tt
  | S n' =>
      w <- env ;;
      match microtasks w with
      | [] => ret tt
      | t :: rest =>
          assign_env (set_microtasks rest) ;;
          runMicrotask t ;;
          runMicrotasks n'
      end
  end.

(** The user or an animation moves the content of the bound element. *)
Definition host_scrolls (scrollLeft scrollTop : Z) : M unit :=
  assign (fun s => set_el (option_map (fun e => el_set_scrollTop scrollTop
                                                  (el_set_scrollLeft scrollLeft e))
                                      (_el s)) s).

(** The content of the bound element changes size. *)
Definition host_resizes_content (scrollWidth scrollHeight : Z) : M unit :=
  assign (fun s => set_el (option_map (el_set_scrollSize scrollWidth scrollHeight)
                                      (_el s)) s).

(** A scroll event reaches the event target: the listener, when one is
    registered, calls [_onScroll]. *)
Definition scroll_event : M unit :=
  s <- this ;;
  when (_scrollListener s) _onScroll.

(** The idle timeout set by [_onScroll] expires. *)
Definition scrollingJudgeTimer_expires : M unit :=
  s <- this ;;
  w <- env ;;
  match _scrollingJudgeTimerId s with
  | Some id =>
      when (existsb (Nat.eqb id) (timers w))
        (clearTimer id ;; scrollingJudgeTimer_callback)
  | None => ret tt
  end.

(** The polling interval of [_startScrollSizeOvserver] ticks. *)
Definition scrollSizeOvserver_ticks : M unit :=
  s <- this ;;
  w <- env ;;
  match _scrollSizeOvserverPollingId s with
  | Some id => when (existsb (Nat.eqb id) (timers w)) scrollSizeOvserver_callback
  | None => ret tt
  end.

(** ** Running methods *)

Definition worldOf {A : Type} (o : Outcome A) : World :=
  match o with
  | Ok _ w _ => w
  | Throw _ w _ => w
  end.

Definition outputOf {A : Type} (o : Outcome A) : list Effect :=
  match o with
  | Ok _ _ out => out
  | Throw _ _ out => out
  end.

Definition thrownBy {A : Type} (o : Outcome A) : option Error :=
  match o with
  | Ok _ _ _ => None
  | Throw e _ _ => Some e
  end.

(** The scroll-family events of an output, by name and in order. *)
Fixpoint scrollTicks (out : list Effect) : list ScrollTick :=
  match out with
  | [] => []
  | Emit (EvScroll name _) :: out' => name :: scrollTicks out'
  | _ :: out' => scrollTicks out'
  end.

(** The events of an output. *)
Fixpoint emitted (out : list Effect) : list Event :=
  match out with
  | [] => []
  | Emit e :: out' => e :: emitted out'
  | _ :: out' => emitted out'
  end.

(** The deliveries of the events of an output to the subscribers of [s]:
    each event, in order, with each subscriber it reaches. *)
Definition delivered (s : Scroller) (out : list Effect) : list (nat * Event) :=
  flat_map (fun e => map (fun subscriber => (subscriber, e)) (_subscribers s))
    (emitted out).

(** ** A concrete page *)

Module Page.

(** A box of 300 by 200 pixels showing a content of 900 by 1000. *)
Definition box : Element :=
  {| el_ref := 1; el_isDocumentElement := false; el_isBodyElement := false;
     el_clientWidth := 300; el_clientHeight := 200;
     el_scrollWidth := 900; el_scrollHeight := 1000;
     el_scrollTop := 0; el_scrollLeft := 0; el_scrollDisabled := false |}.

Definition html : Element :=
  {| el_ref := 0; el_isDocumentElement := true; el_isBodyElement := false;
     el_clientWidth := 1024; el_clientHeight := 768;
     el_scrollWidth := 1024; el_scrollHeight := 4000;
     el_scrollTop := 0; el_scrollLeft := 0; el_scrollDisabled := false |}.

Definition setting (base : ScrollAxis) : ScrollerSetting :=
  {| setting_el := ElString "#box";
     setting_scrollingJudgeInterval := None;
     setting_baseAxis := Some base;
     setting_scrollSizeOvserver := None |}.

Definition noSetting : ScrollerSetting :=
  {| setting_el := ElUndefined;
     setting_scrollingJudgeInterval := None;
     setting_baseAxis := None;
     setting_scrollSizeOvserver := None |}.

(** The page before any controller exists. *)
Definition page : World :=
  {| self := initial noSetting;
     microtasks := [];
     timers := [];
     next_timer := 1;
     animations := [];
     reactions := [];
     HAS_WINDOW := true;
     isVisible := true;
     visibility_subscribed := false;
     document_clientWidth := 1024;
     document_clientHeight := 768;
     document_querySelector :=
       fun query => if String.eqb query "#box" then Some box else None;
     document_scrollingElement := Some html;
     defaultSettings_container := Some html |}.

(** A controller on the box, constructed and started. *)
Definition running (base : ScrollAxis) : World :=
  worldOf ((constructor (setting base) ;; runMicrotasks 1) page).

(** The same controller in the middle of an episode that scrolls down:
    two scroll events, at offsets 40 and 100. *)
Definition scrollingDown (base : ScrollAxis) : World :=
  worldOf ((host_scrolls 0 40 ;; scroll_event ;;
            host_scrolls 0 100 ;; scroll_event) (running base)).

(** A controller on the box that also polls the size of its content. *)
Definition pollingSetting : ScrollerSetting :=
  {| setting_el := ElString "#box";
     setting_scrollingJudgeInterval := None;
     setting_baseAxis := None;
     setting_scrollSizeOvserver := Some (None, None, None) |}.

Definition polling : World :=
  worldOf ((constructor pollingSetting ;; runMicrotasks 1) page).

(** The running controller with one stopper pushed, after the host has
    moved the content to offset 30 all the same. *)
Definition locked : World :=
  worldOf ((pushScrollStopper (StopperString "modal") ;; host_scrolls 0 30)
             (running AxisY)).


End Page.
(** ** Closed forms used in the proofs *)

(** What [_syncToObservers keys] writes. *)
Definition syncs (keys : list string) (s : Scroller) : list Effect :=
  map (fun observer => SyncToObserver observer keys) (_observers s).

(** The assignments of [_updateScrollPositions] on element [e]. *)
Definition positions (e : Element) (s : Scroller) : Scroller :=
  let s := set_scrollLeft (el_scrollLeft e) (set_scrollTop (el_scrollTop e) s) in
  let s := set_scrollBottom (_scrollHeight s - _scrollTop s - _containerHeight s) s in
  set_scrollRight (_scrollWidth s - _scrollLeft s - _containerWidth s) s.

(** The container size [_updateContainerSize] takes when it is called with
    [width] and [height] on element [e]. *)
Definition measuredWidth (width : option Z) (w : World) (e : Element) : Z :=
  match width with
  | Some v => v
  | None => if _isBodyElement (self w) then document_clientWidth w else el_clientWidth e
  end.

Definition measuredHeight (height : option Z) (w : World) (e : Element) : Z :=
  match height with
  | Some v => v
  | None => if _isBodyElement (self w) then document_clientHeight w else el_clientHeight e
  end.


Arguments _syncToObservers : simpl never.
Arguments syncs : simpl never.

Arguments _updateScrollable : simpl never.
Arguments cancel : simpl never.

(** The array of stoppers after [pushScrollStopper] and after
    [removeScrollStopper]. *)
Definition pushed (l : list ScrollStopper) (t : ScrollStopper) : list ScrollStopper :=
  if includes l t then l else l ++ [t].

Definition removed (l : list ScrollStopper) (t : ScrollStopper) : list ScrollStopper :=
  match indexOf l t with
  | Some index => splice1 index l
  | None => l
  end.

(** A sequence of calls of the two stopper methods. *)
Inductive StopperCall : Type :=
| Push (stopper : ScrollStopper)
| Remove (stopper : ScrollStopper).

Definition callStopper (c : StopperCall) : M unit :=
  match c with
  | Push t => pushScrollStopper t
  | Remove t => removeScrollStopper t
  end.

Fixpoint stoppersAfter (calls : list StopperCall) (l : list ScrollStopper)
  : list ScrollStopper :=
  match calls with
  | [] => l
  | Push t :: calls' => stoppersAfter calls' (pushed l t)
  | Remove t :: calls' => stoppersAfter calls' (removed l t)
  end.

Arguments _updateScrollPositions : simpl never.
Arguments _updateScrollSize : simpl never.
Arguments _triggerScrollTick : simpl never.
Arguments _clearScrollingJudgeTimer : simpl never.

(** The classification [_onScroll] makes of the move from the cached
    offsets of [before] to the offsets of element [e]. *)
Definition tickX (before : Scroller) (e : Element) : Z :=
  el_scrollLeft e - _scrollLeft before.

Definition tickY (before : Scroller) (e : Element) : Z :=
  el_scrollTop e - _scrollTop before.

Definition classifiedAxis (before : Scroller) (e : Element) : ScrollAxis :=
  if tickX before e =? tickY before e then baseAxis before
  else if Z.abs (tickY before e) <? Z.abs (tickX before e) then AxisX else AxisY.

Definition classifiedY (before : Scroller) (e : Element) : ScrollYDirection :=
  if _scrollTop before <? el_scrollTop e then YBottom
  else if el_scrollTop e <? _scrollTop before then YTop
  else _lastYDirection before.

Definition classifiedX (before : Scroller) (e : Element) : ScrollXDirection :=
  if _scrollLeft before <? el_scrollLeft e then XRight
  else if el_scrollLeft e <? _scrollLeft before then XLeft
  else _lastXDirection before.

(** The test of [_onScroll] that ends the episode in progress. *)
Definition episodeEnds (before : Scroller) (e : Element) : bool :=
  negb (ScrollAxis_eqb (classifiedAxis before e) (_lastAxis before))
  || (ScrollAxis_eqb (_lastAxis before) AxisY
      && negb (ScrollYDirection_eqb (classifiedY before e) (_lastYDirection before)))
  || (ScrollAxis_eqb (_lastAxis before) AxisX
      && negb (ScrollXDirection_eqb (classifiedX before e) (_lastXDirection before))).

(** Whether [_onScroll] opens an episode: none is in progress, or the one
    in progress ends. *)
Definition restarts (before : Scroller) (e : Element) : bool :=
  if _nowScrolling before then episodeEnds before e else true.

(** C1 as the claim states it, for the outcome [o] of a scroll event: the
    pass emits scrollEnd, emits no scrollStart, and leaves no episode in
    progress. *)
Definition endsWithoutRestart (o : Outcome unit) : Prop :=
  In scrollEnd (scrollTicks (outputOf o))
  /\ ~ In scrollStart (scrollTicks (outputOf o))
  /\ _nowScrolling (self (worldOf o)) = false.

(** C4 as the claim states it, for a call [m] on a destroyed controller:
    the call returns having changed and emitted nothing, or it fails with
    AlreadyDestroyed. *)
Definition noOpOrAlreadyDestroyed {A : Type} (m : M A) (w : World) : Prop :=
  (exists a, m w = Ok a w []) \/ m w = Throw AlreadyDestroyed w [].

(** The element [setElement] finds for its argument, and whether finding
    it reads [document]. *)
Definition lookup (arg : ElementArg) (w : World) : option Element :=
  match arg with
  | ElString query => document_querySelector w query
  | ElElement e => Some e
  | ElUndefined => document_scrollingElement w
  end.


(** The position of the first effect of an output that satisfies [p]. *)
Fixpoint position (p : Effect -> bool) (out : list Effect) : option nat :=
  match out with
  | [] => None
  | x :: out' =>
      if p x then Some O
      else match position p out' with
           | Some i => Some (S i)
           | None => None
           end
  end.




(** [settles w w']: [w'] is [w] after animations have been settled: the
    document, the timers and the flags of the environment are the same and
    the microtask queue has only grown. *)
Definition settles (w w' : World) : Prop :=
  document_clientWidth w' = document_clientWidth w
  /\ document_clientHeight w' = document_clientHeight w
  /\ HAS_WINDOW w' = HAS_WINDOW w
  /\ isVisible w' = isVisible w
  /\ timers w' = timers w
  /\ next_timer w' = next_timer w
  /\ exists queued, microtasks w' = microtasks w ++ queued.

(** The assignments of [_triggerScrollTick]. *)
Definition ticked (event : ScrollTick) (s : Scroller) : Scroller :=
  match event with
  | scrollStart =>
      set_nowScrolling true
        (set_lastTotalY 0 (set_lastTotalX 0
           (set_startY (_scrollTop s) (set_startX (_scrollLeft s) s))))
  | scrollEnd => set_nowScrolling false s
  | scroll => s
  end.

(** The world after [_clearScrollingJudgeTimer]. *)
Definition timerCleared (w : World) : World :=
  match _scrollingJudgeTimerId (self w) with
  | Some id =>
      set_self (set_scrollingJudgeTimerId None (self w))
        (set_timers (filter (fun t => negb (Nat.eqb t id)) (timers w)) w)
  | None => w
  end.

Arguments timerCleared : simpl never.

(** The shape of every scroll request method of the controller:
    [return this._setScrollToResult(f(this._createMergedScrollOptions(options)))]
    for a scroll function [f]. *)
Definition requestThrough (f : option ScrollOptions -> M ScrollResult) : M ScrollResult :=
  options <- _createMergedScrollOptions ;;
  result <- f options ;;
  _setScrollToResult result.

(** The scroll request methods whose scroll function is under src/. *)
Inductive ScrollCall : Type :=
| CallBy (diffX diffY : Z)
| CallTo (scrollPosition : ScrollPosition)
| CallToSide (targets : ScrollToSideTargets)
| CallToTop
| CallToRight
| CallToBottom
| CallToLeft.

Definition callScroll (call : ScrollCall) : M ScrollResult :=
  match call with
  | CallBy diffX diffY => by_ diffX diffY
  | CallTo scrollPosition => to scrollPosition
  | CallToSide targets => toSide targets
  | CallToTop => toTop
  | CallToRight => toRight
  | CallToBottom => toBottom
  | CallToLeft => toLeft
  end.

(** The scroll function behind a request method. *)
Definition scrollFunction (call : ScrollCall) : option ScrollOptions -> M ScrollResult :=
  match call with
  | CallBy diffX diffY => scrollBy diffX diffY
  | CallTo scrollPosition => scrollTo scrollPosition
  | CallToSide targets => scrollToSide targets
  | CallToTop => scrollToTop
  | CallToRight => scrollToRight
  | CallToBottom => scrollToBottom
  | CallToLeft => scrollToLeft
  end.
(** ** Sequences of scroll events and invariants of the snapshot *)

(** The content moves to each of [moves] in turn, given as pairs of
    scrollLeft and scrollTop, and a scroll event follows every move. *)
Definition burst (moves : list (Z * Z)) : M unit :=
  forEach moves (fun move => host_scrolls (fst move) (snd move) ;; scroll_event).

(** [increasing from l]: every number of [l] is above the one before it,
    the first above [from]. *)
Fixpoint increasing (from : Z) (l : list Z) : bool :=
  match l with
  | [] => true
  | y :: l' => (from <? y) && increasing y l'
  end.

(** The composite direction is the direction of the last axis. *)
Definition directionOfAxis (s : Scroller) : Prop :=
  _lastDirection s
  = match _lastAxis s with
    | AxisY => DirY (_lastYDirection s)
    | AxisX => DirX (_lastXDirection s)
    end.

(** The totals are the distances from the offsets at which the episode
    started. *)
Definition totalsSinceStart (s : Scroller) : Prop :=
  _lastTotalX s = _scrollLeft s - _startX s
  /\ _lastTotalY s = _scrollTop s - _startY s.

(** The timers that [clearTimeout id] leaves. *)
Definition withoutTimer (id : option nat) (l : list nat) : list nat :=
  match id with
  | Some id => filter (fun t => negb (Nat.eqb t id)) l
  | None => l
  end.

(** The change events of an output, in order: changeAxis and the three
    direction changes. *)
Fixpoint changes (out : list Effect) : list Event :=
  match out with
  | [] => []
  | Emit (EvChangeAxis a) :: out' => EvChangeAxis a :: changes out'
  | Emit (EvChangeLastXDirection d) :: out' => EvChangeLastXDirection d :: changes out'
  | Emit (EvChangeLastYDirection d) :: out' => EvChangeLastYDirection d :: changes out'
  | Emit (EvChangeLastDirection d) :: out' => EvChangeLastDirection d :: changes out'
  | _ :: out' => changes out'
  end.

(** The element after the host has moved its content to [x] and [y]. *)
Definition moved (x y : Z) (e : Element) : Element :=
  el_set_scrollTop y (el_set_scrollLeft x e).

(** ** A page whose controller is bound to its body *)

Module Body.

Definition body : Element :=
  {| el_ref := 2; el_isDocumentElement := false; el_isBodyElement := true;
     el_clientWidth := 1024; el_clientHeight := 3000;
     el_scrollWidth := 1024; el_scrollHeight := 3000;
     el_scrollTop := 0; el_scrollLeft := 0; el_scrollDisabled := false |}.

Definition setting : ScrollerSetting :=
  {| setting_el := ElElement body;
     setting_scrollingJudgeInterval := None;
     setting_baseAxis := None;
     setting_scrollSizeOvserver := None |}.

(** A controller on the body, constructed and started. *)
Definition running : World :=
  worldOf ((constructor setting ;; runMicrotasks 1) Page.page).

End Body.

(** ** Observers *)

(** [scrollerObservableKeys]: the keys a full synchronisation writes. *)
Definition scrollerObservableKeys : list string :=
  ["state"; "isPending"; "isReady"; "isRunning"; "isDestroyed"; "scrollEnabled";
   "containerWidth"; "containerHeight"; "scrollWidth"; "scrollHeight"; "scrollableX";
   "scrollableY"; "scrollTop"; "scrollLeft"; "scrollRight"; "scrollBottom"; "lastAxis";
   "lastDirection"; "lastYDirection"; "lastXDirection"; "nowScrolling"]%string.

(** The array of observers after [observe] and after [unobserve]. *)
Definition observed (l : list nat) (o : nat) : list nat :=
  if includesObserver l o then l else l ++ [o].

Definition unobserved (l : list nat) (o : nat) : list nat :=
  match indexOfObserver l o with
  | Some index => splice1 index l
  | None => l
  end.

(** Whether an effect is a synchronisation of observer [o]. *)
Definition syncsTo (o : nat) (x : Effect) : bool :=
  match x with
  | SyncToObserver p _ => Nat.eqb p o
  | _ => false
  end.

(** ** Scroll requests *)

(** A page on which no default container is configured. *)
Module Bare.

Definition page : World :=
  {| self := initial Page.noSetting;
     microtasks := [];
     timers := [];
     next_timer := 1;
     animations := [];
     reactions := [];
     HAS_WINDOW := true;
     isVisible := true;
     visibility_subscribed := false;
     document_clientWidth := 1024;
     document_clientHeight := 768;
     document_querySelector := fun _ => None;
     document_scrollingElement := None;
     defaultSettings_container := None |}.

End Bare.

(** [requested m request c w]: the call [m] on [w] starts the animation
    [request] on container [c] and records its result as the current
    one. *)
Definition requested (m : M ScrollResult) (request : ScrollRequest) (c : Element)
  (w : World) : Prop :=
  exists r w',
    m w = Ok r w' []
    /\ _scrollToResult (self w') = Some r
    /\ nth_error (animations w') r
       = Some {| anim_request := request; anim_container := c; anim_status := InFlight |}.

(** ** Visibility *)

Definition set_isVisible (v : bool) (w : World) : World :=
  {| self := self w; microtasks := microtasks w; timers := timers w;
     next_timer := next_timer w; animations := animations w; reactions := reactions w;
     HAS_WINDOW := HAS_WINDOW w; isVisible := v;
     visibility_subscribed := visibility_subscribed w;
     document_clientWidth := document_clientWidth w;
     document_clientHeight := document_clientHeight w;
     document_querySelector := document_querySelector w;
     document_scrollingElement := document_scrollingElement w;
     defaultSettings_container := defaultSettings_container w |}.

(** The page goes to the background or comes back: the visibility
    manager calls the listener the constructor registered with [change],
    as long as [destroy] has not removed it. *)
Definition visibility_changes (visible : bool) : M unit :=
  assign_env (set_isVisible visible) ;;
  w <- env ;;
  when (visibility_subscribed w) _visibilityListener_callback.

(** ** The far-edge distances *)


(** [keepsEdges m]: on every world, [m] leaves the cached scrollBottom and
    scrollRight as they are, whether it returns or throws. *)
Definition keepsEdges {A : Type} (m : M A) : Prop :=
  forall w,
    _scrollBottom (self (worldOf (m w))) = _scrollBottom (self w)
    /\ _scrollRight (self (worldOf (m w))) = _scrollRight (self w).
(** * Properties *)

(** ** The monad *)

Lemma bind_Ok {A B : Type} (m : M A) (f : A -> M B) w a w1 o1 b w2 o2 :
  m w = Ok a w1 o1 -> f a w1 = Ok b w2 o2 -> bind m f w = Ok b w2 (o1 ++ o2).
Proof.
  unfold bind. intros Hm Hf. rewrite Hm, Hf. reflexivity.
Qed.

Lemma bind_Ok_nil {A B : Type} (m : M A) (f : A -> M B) w a w1 b w2 o2 :
  m w = Ok a w1 [] -> f a w1 = Ok b w2 o2 -> bind m f w = Ok b w2 o2.
Proof. intros Hm Hf. exact (bind_Ok m f w a w1 [] b w2 o2 Hm Hf). Qed.

Lemma bind_Ok_Throw {A B : Type} (m : M A) (f : A -> M B) w a w1 e w2 o2 :
  m w = Ok a w1 [] -> f a w1 = Throw e w2 o2 -> bind m f w = Throw e w2 o2.
Proof. unfold bind. intros Hm Hf. rewrite Hm, Hf. reflexivity. Qed.

(** A first statement that returns without output: the run goes on with
    the rest. *)
Lemma bind_run {A B : Type} (m : M A) (f : A -> M B) w a w1 :
  m w = Ok a w1 [] -> bind m f w = f a w1.
Proof. unfold bind. intros Hm. rewrite Hm. destruct (f a w1); reflexivity. Qed.

Lemma bind_Throw {A B : Type} (m : M A) (f : A -> M B) w e w1 o1 :
  m w = Throw e w1 o1 -> bind m f w = Throw e w1 o1.
Proof. unfold bind. intros Hm. rewrite Hm. reflexivity. Qed.

Lemma set_self_self (w : World) : set_self (self w) w = w.
Proof. destruct w; reflexivity. Qed.

Lemma forEach_tell {A : Type} (l : list A) (f : A -> Effect) (w : World) :
  forEach l (fun a => tell [f a]) w = Ok tt w (map f l).
Proof.
  induction l as [|a l IH]; [reflexivity|].
  cbn [forEach map]. unfold bind. unfold tell at 1. cbv beta iota. rewrite IH. reflexivity.
Qed.

Lemma syncToObservers_eq (keys : list string) (w : World) :
  _syncToObservers keys w = Ok tt w (syncs keys (self w)).
Proof.
  unfold _syncToObservers, syncs, _syncToObserver, bind, this.
  destruct (_observers (self w)) as [|o l] eqn:E; [reflexivity|].
  cbn [List.length Nat.eqb]. rewrite forEach_tell. reflexivity.
Qed.

(** ** scrollToSide *)

Lemma scrollToSide_position_without_container (sides : list ScrollSide) options w :
  sides_includes sides SideRight = false ->
  sides_includes sides SideBottom = false ->
  scrollToSide_position (SideArray sides) options w
  = Ok (if sides_includes sides SideTop then {| pos_x := None; pos_y := Some 0 |}
        else if sides_includes sides SideLeft then {| pos_x := Some 0; pos_y := None |}
        else {| pos_x := None; pos_y := None |}) w [].
Proof.
  intros HR HB. unfold scrollToSide_position. rewrite HR, HB. cbn.
  destruct (sides_includes sides SideTop); [reflexivity|].
  destruct (sides_includes sides SideLeft); reflexivity.
Qed.

(** C9: when the side list contains 'top', the position handed to scrollTo
    has an x exactly when the list contains 'right' (the 'left' branch is
    an [else] of the 'top' test); for ['top','left'] and ['left','top'] the
    position is { y: 0 } alone, with any options and without looking up a
    container. *)
Theorem scrollToSide_top_skips_left (sides : list ScrollSide)
  (options : option ScrollOptions) (w : World)
  (Htop : sides_includes sides SideTop = true) :
  (forall p w' out,
      scrollToSide_position (SideArray sides) options w = Ok p w' out ->
      (pos_x p <> None <-> sides_includes sides SideRight = true))
  /\ scrollToSide_position (SideArray [SideTop; SideLeft]) options w
     = Ok {| pos_x := None; pos_y := Some 0 |} w []
  /\ scrollToSide_position (SideArray [SideLeft; SideTop]) options w
     = Ok {| pos_x := None; pos_y := Some 0 |} w [].
Proof.
  split; [|split; reflexivity].
  intros p w' out. unfold scrollToSide_position. rewrite Htop.
  destruct (sides_includes sides SideRight) eqn:HR;
    destruct (sides_includes sides SideBottom) eqn:HB; cbn;
    unfold bind, resolveContainer; cbn;
    try (destruct options as [[[c|]]|]; cbn;
         try destruct (defaultSettings_container w); cbn);
    intros H; inversion H; subst; cbn; split; congruence.
Qed.

Lemma scrollToSide_top_skips_left_witness :
  sides_includes [SideTop; SideRight] SideTop = true
  /\ (forall p w' out,
         scrollToSide_position (SideArray [SideTop; SideRight]) None Page.page
         = Ok p w' out ->
         (pos_x p <> None <-> sides_includes [SideTop; SideRight] SideRight = true)).
Proof.
  split; [reflexivity|].
  exact (proj1 (scrollToSide_top_skips_left [SideTop; SideRight] None Page.page
                  eq_refl)).
Defined.

(** The request that reaches the engine for the left-top pair leaves the
    horizontal axis out. *)
Example scrollToSide_left_top_request :
  option_map anim_request
    (nth_error (animations (worldOf (scrollToSide (SideArray [SideLeft; SideTop])
                                       (Some {| container := Some Page.box |})
                                       Page.page))) 0)
  = Some (RequestTo {| pos_x := None; pos_y := Some 0 |}).
Proof. reflexivity. Qed.

(** ** A scroll event while scrolling is disabled *)

(** C10: with a stopper present, [_onScroll] writes the cached scrollLeft
    and scrollTop back to the element and returns: the output is empty (no
    event, no observer notification) and nothing else of the controller or
    of its environment changes. *)
Theorem onScroll_disabled_restores_offsets (w : World) (e : Element)
  (Hdisabled : scrollEnabled (self w) = false)
  (Hel : _el (self w) = Some e) :
  _onScroll w
  = Ok tt (set_self (set_el (Some (el_set_scrollTop (_scrollTop (self w))
                                     (el_set_scrollLeft (_scrollLeft (self w)) e)))
                       (self w)) w) [].
Proof.
  unfold _onScroll, bind, this. rewrite Hdisabled. cbn [negb]. rewrite Hel.
  reflexivity.
Qed.

(** ** Cancelling and the host-level scroll suppression *)

Lemma set_microtasks_same (w : World) : set_microtasks (microtasks w) w = w.
Proof. destruct w; reflexivity. Qed.

Lemma forEach_enqueue {A : Type} (l : list A) (t : Microtask) (w : World) :
  forEach l (fun _ => enqueueMicrotask t) w
  = Ok tt (set_microtasks (microtasks w ++ repeat t (List.length l)) w) [].
Proof.
  revert w. induction l as [|a l IH]; intros w.
  - cbn. rewrite app_nil_r, set_microtasks_same. reflexivity.
  - cbn [forEach]. unfold bind at 1. unfold enqueueMicrotask at 1, assign_env.
    rewrite IH. cbn. rewrite <- app_assoc. reflexivity.
Qed.

(** Settling an animation touches the environment only. *)
Lemma settle_self (result : ScrollResult) (st : AnimationStatus) (w : World) :
  exists w', settle result st w = Ok tt w' [] /\ self w' = self w.
Proof.
  unfold settle, bind, env, when. destruct (inFlight result w).
  - unfold assign_env at 1. rewrite forEach_enqueue. cbn. eexists. split; reflexivity.
  - cbn. eexists. split; reflexivity.
Qed.

Lemma set_scrollToResult_same (s : Scroller) (r : option ScrollResult) :
  _scrollToResult s = r -> set_scrollToResult r s = s.
Proof. intros <-. destruct s; reflexivity. Qed.

Lemma cancel_self (w : World) :
  exists w', cancel w = Ok tt w' [] /\ self w' = set_scrollToResult None (self w).
Proof.
  unfold cancel, bind, this. destruct (_scrollToResult (self w)) as [result|] eqn:E.
  - unfold result_cancel. destruct (settle_self result Cancelled w) as (w1 & H1 & Hs).
    rewrite H1. unfold _clearScrollToResult, bind, this. rewrite Hs, E. cbn.
    eexists. split; [reflexivity|]. cbn. rewrite Hs. reflexivity.
  - cbn. exists w. split; [reflexivity|]. symmetry. apply set_scrollToResult_same, E.
Qed.

Lemma updateScrollable_self (w : World) :
  exists w' r e,
    _updateScrollable w = Ok tt w' []
    /\ self w' = set_scrollToResult r (set_el e (self w)).
Proof.
  unfold _updateScrollable, bind, this. destruct (scrollEnabled (self w)).
  - cbn. eexists. exists (_scrollToResult (self w)). eexists. split; [reflexivity|].
    cbn. rewrite set_scrollToResult_same; reflexivity.
  - unfold _scrollDisable, bind. destruct (cancel_self w) as (w1 & H1 & Hs).
    rewrite H1. cbn. eexists. exists None, (disableScroll (_el (self w))).
    split; [reflexivity|]. cbn. rewrite Hs. reflexivity.
Qed.

(** ** Measuring *)

(** The cached offsets after [_updateScrollPositions] on element [e]. *)
Lemma updateScrollPositions_eq (w : World) (e : Element) :
  _el (self w) = Some e ->
  _updateScrollPositions w
  = Ok tt (set_self (positions e (self w)) w)
      (syncs ["scrollTop"; "scrollRight"; "scrollBottom"; "scrollLeft"]%string (self w)).
Proof.
  intros Hel. unfold _updateScrollPositions, el, bind, this, assign. cbn.
  rewrite Hel. cbn. rewrite syncToObservers_eq. unfold positions. cbn. reflexivity.
Qed.

Lemma updateScrollSize_eq (w : World) (e : Element) :
  _el (self w) = Some e ->
  _updateScrollSize w
  = Ok tt (set_self (set_scrollHeight (el_scrollHeight e)
                       (set_scrollWidth (el_scrollWidth e) (self w))) w)
      (if negb (_scrollWidth (self w) =? el_scrollWidth e)
          || negb (_scrollHeight (self w) =? el_scrollHeight e)
       then syncs ["scrollWidth"; "scrollHeight"; "scrollableX"; "scrollableY"]%string
              (self w)
       else []).
Proof.
  intros Hel. unfold _updateScrollSize, el, bind, this, assign, when. cbn.
  rewrite Hel. cbn.
  destruct (negb (_scrollWidth (self w) =? el_scrollWidth e)
            || negb (_scrollHeight (self w) =? el_scrollHeight e)).
  - rewrite syncToObservers_eq. cbn. reflexivity.
  - cbn. reflexivity.
Qed.

Lemma set_self_set_self (a b : Scroller) (w : World) :
  set_self a (set_self b w) = set_self a w.
Proof. reflexivity. Qed.

Lemma updateContainerSize_eq (w : World) (e : Element) (width height : option Z) :
  _el (self w) = Some e ->
  let cw := measuredWidth width w e in
  let ch := measuredHeight height w e in
  _updateContainerSize width height w
  = Ok tt (set_self (set_containerHeight ch (set_containerWidth cw (self w))) w)
      (if negb (cw =? _containerWidth (self w)) || negb (ch =? _containerHeight (self w))
       then syncs ["containerWidth"; "containerHeight"; "scrollableX"; "scrollableY"]%string
              (self w) ++ [Emit (EvResize cw ch)]
       else []).
Proof.
  intros Hel. unfold _updateContainerSize, measuredWidth, measuredHeight, el, bind, this,
    env, assign, when.
  destruct width as [cw|], height as [ch|], (_isBodyElement (self w));
    cbn; repeat (rewrite Hel; cbn);
    match goal with
    | |- context [if ?c then _ else _] => destruct c
    end; cbn; rewrite ?syncToObservers_eq; cbn; rewrite ?set_self_set_self;
    reflexivity.
Qed.


(** The same at the scroll event that opens an episode: [_onScroll] derives
    the edges from the sizes cached before and refreshes the content size
    afterwards, and the scrollStart event carries the stale bottom. *)
Example scroll_start_leaves_edges_stale :
  let o := (host_resizes_content 900 1500 ;; host_scrolls 0 40 ;; scroll_event)
             (Page.running AxisY) in
  _scrollHeight (self (worldOf o)) = 1500
  /\ _scrollTop (self (worldOf o)) = 40
  /\ _containerHeight (self (worldOf o)) = 200
  /\ _scrollBottom (self (worldOf o)) = 760
  /\ map bottom (flat_map (fun e => match e with EvScroll _ p => [p] | _ => [] end)
                   (emitted (outputOf o))) = [760].
Proof. vm_compute. repeat split. Qed.

(** ** Scroll stoppers *)

Lemma scrollEnabled_iff_no_stopper (s : Scroller) :
  scrollEnabled s = true <-> _scrollStoppers s = [].
Proof.
  unfold scrollEnabled. destruct (_scrollStoppers s); cbn; split; congruence.
Qed.

Lemma pushScrollStopper_present (t : ScrollStopper) (w : World) :
  includes (_scrollStoppers (self w)) t = true ->
  pushScrollStopper t w = Ok tt w [].
Proof.
  intros H. unfold pushScrollStopper, bind, this. rewrite H. reflexivity.
Qed.

Lemma removeScrollStopper_absent (t : ScrollStopper) (w : World) :
  indexOf (_scrollStoppers (self w)) t = None ->
  removeScrollStopper t w = Ok tt w [].
Proof.
  intros H. unfold removeScrollStopper, bind, this. rewrite H. reflexivity.
Qed.

Lemma pushScrollStopper_stoppers (t : ScrollStopper) (w : World) :
  exists w' out,
    pushScrollStopper t w = Ok tt w' out
    /\ _scrollStoppers (self w') = pushed (_scrollStoppers (self w)) t.
Proof.
  unfold pushed. destruct (includes (_scrollStoppers (self w)) t) eqn:E.
  - rewrite (pushScrollStopper_present t w E). do 2 eexists. split; reflexivity.
  - unfold pushScrollStopper, bind, this, when. rewrite E. cbn.
    match goal with
    | |- context [if ?c then _ else _] => destruct c
    end.
    + match goal with
      | |- context [_updateScrollable ?W] =>
          destruct (updateScrollable_self W) as (w1 & r & e & H1 & Hs); rewrite H1
      end.
      cbn. rewrite syncToObservers_eq. do 2 eexists. split; [reflexivity|].
      rewrite Hs. reflexivity.
    + cbn. do 2 eexists. split; reflexivity.
Qed.

Lemma removeScrollStopper_stoppers (t : ScrollStopper) (w : World) :
  exists w' out,
    removeScrollStopper t w = Ok tt w' out
    /\ _scrollStoppers (self w') = removed (_scrollStoppers (self w)) t.
Proof.
  unfold removed. destruct (indexOf (_scrollStoppers (self w)) t) as [index|] eqn:E.
  - unfold removeScrollStopper, bind, this, when. rewrite E. cbn.
    match goal with
    | |- context [if ?c then _ else _] => destruct c
    end.
    + match goal with
      | |- context [_updateScrollable ?W] =>
          destruct (updateScrollable_self W) as (w1 & r & e & H1 & Hs); rewrite H1
      end.
      cbn. rewrite syncToObservers_eq. do 2 eexists. split; [reflexivity|].
      rewrite Hs. reflexivity.
    + cbn. do 2 eexists. split; reflexivity.
  - rewrite (removeScrollStopper_absent t w E). do 2 eexists. split; reflexivity.
Qed.

(** Every sequence of pushScrollStopper / removeScrollStopper calls runs to
    its end, and the array of stoppers it leaves is the one the list
    functions [pushed] and [removed] compute. *)
Lemma stopper_calls_run (calls : list StopperCall) (w : World) :
  exists w' out,
    forEach calls callStopper w = Ok tt w' out
    /\ _scrollStoppers (self w') = stoppersAfter calls (_scrollStoppers (self w)).
Proof.
  revert w. induction calls as [|c calls IH]; intros w.
  - do 2 eexists. split; reflexivity.
  - assert (exists w1 o1, callStopper c w = Ok tt w1 o1
              /\ stoppersAfter (c :: calls) (_scrollStoppers (self w))
                 = stoppersAfter calls (_scrollStoppers (self w1)))
      as (w1 & o1 & H1 & Hl).
    { destruct c as [t|t]; cbn [callStopper stoppersAfter].
      - destruct (pushScrollStopper_stoppers t w) as (w1 & o1 & H1 & Hs).
        exists w1, o1. rewrite Hs. split; [exact H1 | reflexivity].
      - destruct (removeScrollStopper_stoppers t w) as (w1 & o1 & H1 & Hs).
        exists w1, o1. rewrite Hs. split; [exact H1 | reflexivity]. }
    destruct (IH w1) as (w2 & o2 & H2 & Hs2).
    exists w2, (o1 ++ o2). cbn [forEach]. split.
    + apply (bind_Ok _ _ w tt w1 o1 tt w2 o2 H1 H2).
    + rewrite Hl. exact Hs2.
Qed.

(** For stoppers other than NaN the two comparisons agree. *)
Lemma sameValueZero_strictEquals (a b : ScrollStopper) :
  a <> StopperNaN -> sameValueZero a b = strictEquals a b.
Proof. destruct a, b; cbn; congruence. Qed.

Lemma strictEquals_refl (a : ScrollStopper) : a <> StopperNaN -> strictEquals a a = true.
Proof.
  destruct a; cbn; intros H;
    [apply Z.eqb_refl | congruence | apply String.eqb_refl
    | apply Nat.eqb_refl | apply Nat.eqb_refl].
Qed.

Lemma strictEquals_sym (a b : ScrollStopper) : strictEquals a b = strictEquals b a.
Proof.
  destruct a, b; cbn; try reflexivity;
    [apply Z.eqb_sym | apply String.eqb_sym | apply Nat.eqb_sym | apply Nat.eqb_sym].
Qed.

(** Two holders compose, as long as neither stopper is NaN: with both
    pushed, removing one keeps scrolling disabled and removing both
    enables it again, in either order. *)
Lemma two_stoppers_compose (a b : ScrollStopper) (w : World) :
  a <> StopperNaN -> b <> StopperNaN -> strictEquals a b = false ->
  _scrollStoppers (self w) = [] ->
  forall first second, (first = a /\ second = b) \/ (first = b /\ second = a) ->
  (exists w' out,
      forEach [Push a; Push b; Remove first] callStopper w = Ok tt w' out
      /\ scrollEnabled (self w') = false)
  /\ (exists w' out,
         forEach [Push a; Push b; Remove first; Remove second] callStopper w
         = Ok tt w' out
         /\ scrollEnabled (self w') = true).
Proof.
  intros Ha Hb Hab Hw first second Hfs.
  assert (Hba : strictEquals b a = false) by (rewrite strictEquals_sym; exact Hab).
  pose proof (strictEquals_refl a Ha) as Haa.
  pose proof (strictEquals_refl b Hb) as Hbb.
  split.
  - destruct (stopper_calls_run [Push a; Push b; Remove first] w) as (w' & out & H & Hs).
    exists w', out. split; [exact H|]. unfold scrollEnabled. rewrite Hs, Hw.
    cbn. unfold pushed, removed, includes. cbn.
    rewrite (sameValueZero_strictEquals b a Hb), Hba. cbn.
    destruct Hfs as [[-> ->] | [-> ->]]; cbn; rewrite ?Haa, ?Hab, ?Hbb; reflexivity.
  - destruct (stopper_calls_run [Push a; Push b; Remove first; Remove second] w)
      as (w' & out & H & Hs).
    exists w', out. split; [exact H|]. unfold scrollEnabled. rewrite Hs, Hw.
    cbn. unfold pushed, removed, includes. cbn.
    rewrite (sameValueZero_strictEquals b a Hb), Hba. cbn.
    destruct Hfs as [[-> ->] | [-> ->]]; cbn; rewrite ?Haa, ?Hab, ?Hbb; cbn;
      rewrite ?Haa, ?Hbb; reflexivity.
Qed.

(** C6 at a NaN stopper.  [pushScrollStopper] looks the stopper up with
    [includes], which finds NaN, and [removeScrollStopper] with [indexOf],
    which never does: after pushing NaN and "menu" and removing both, NaN
    is still in the array and scrolling stays disabled, on the element
    too. *)
Theorem NaN_stopper_is_never_removed :
  let o := forEach [Push StopperNaN; Push (StopperString "menu");
                    Remove StopperNaN; Remove (StopperString "menu")] callStopper
             (Page.running AxisY) in
  thrownBy o = None
  /\ _scrollStoppers (self (worldOf o)) = [StopperNaN]
  /\ scrollEnabled (self (worldOf o)) = false
  /\ option_map el_scrollDisabled (_el (self (worldOf o))) = Some true.
Proof. vm_compute. repeat split. Qed.

(** ** Classifying a scroll event *)

Lemma triggerScrollTick_eq (event : ScrollTick) (w : World) :
  _triggerScrollTick event w
  = Ok tt (set_self (ticked event (self w)) w)
      ((if negb (Bool.eqb (_nowScrolling (self w)) (_nowScrolling (ticked event (self w))))
        then syncs ["nowScrolling"]%string (self w) else [])
       ++ [Emit (EvScroll event (lastPayload (ticked event (self w))))]).
Proof.
  unfold _triggerScrollTick, bind, this, assign, when, emit, tell.
  destruct event; cbn;
    match goal with
    | |- context [if ?c then _ else _] => destruct c
    end; cbn; rewrite ?syncToObservers_eq; cbn; rewrite ?set_self_self; reflexivity.
Qed.

Lemma when_emit (b : bool) (e : Event) (w : World) :
  when b (emit e) w = Ok tt w (if b then [Emit e] else []).
Proof. destruct b; reflexivity. Qed.

Lemma when_syncToObservers (b : bool) (keys : list string) (w : World) :
  when b (_syncToObservers keys) w = Ok tt w (if b then syncs keys (self w) else []).
Proof. destruct b; [apply syncToObservers_eq | reflexivity]. Qed.

Lemma set_lastYDirection_same (w : World) :
  set_self (set_lastYDirection (_lastYDirection (self w)) (self w)) w = w.
Proof. destruct w as [s]; destruct s; reflexivity. Qed.

Lemma set_lastXDirection_same (w : World) :
  set_self (set_lastXDirection (_lastXDirection (self w)) (self w)) w = w.
Proof. destruct w as [s]; destruct s; reflexivity. Qed.

Lemma assign_lastAxis_merge (c : bool) (a : ScrollAxis) (w : World) :
  (if c then assign (fun s => set_lastAxis (baseAxis s) s) else assign (set_lastAxis a)) w
  = Ok tt (set_self (set_lastAxis (if c then baseAxis (self w) else a) (self w)) w) [].
Proof. destruct c; reflexivity. Qed.

Lemma assign_lastYDirection_merge (c1 c2 : bool) (w : World) :
  (if c1 then assign (set_lastYDirection YBottom)
   else if c2 then assign (set_lastYDirection YTop) else ret tt) w
  = Ok tt (set_self (set_lastYDirection
                       (if c1 then YBottom else if c2 then YTop
                        else _lastYDirection (self w)) (self w)) w) [].
Proof.
  destruct c1, c2; try reflexivity. rewrite set_lastYDirection_same. reflexivity.
Qed.

Lemma assign_lastXDirection_merge (c1 c2 : bool) (w : World) :
  (if c1 then assign (set_lastXDirection XRight)
   else if c2 then assign (set_lastXDirection XLeft) else ret tt) w
  = Ok tt (set_self (set_lastXDirection
                       (if c1 then XRight else if c2 then XLeft
                        else _lastXDirection (self w)) (self w)) w) [].
Proof.
  destruct c1, c2; try reflexivity. rewrite set_lastXDirection_same. reflexivity.
Qed.

Lemma set_scrollingJudgeTimerId_same (s : Scroller) :
  _scrollingJudgeTimerId s = None -> set_scrollingJudgeTimerId None s = s.
Proof. intros <-. destruct s; reflexivity. Qed.

Lemma clearScrollingJudgeTimer_self (w : World) :
  exists w',
    _clearScrollingJudgeTimer w = Ok tt w' []
    /\ self w' = set_scrollingJudgeTimerId None (self w).
Proof.
  unfold _clearScrollingJudgeTimer, bind, this.
  destruct (_scrollingJudgeTimerId (self w)) eqn:E; cbn.
  - eexists. split; reflexivity.
  - exists w. split; [reflexivity|]. symmetry.
    apply set_scrollingJudgeTimerId_same, E.
Qed.

(** From here on [cbn] leaves the monad's operations folded: methods are
    run one bind at a time. *)
Arguments bind : simpl never.
Arguments when : simpl never.
Arguments emit : simpl never.
Arguments assign : simpl never.
Arguments this : simpl never.
Arguments setTimer : simpl never.

Lemma clearScrollingJudgeTimer_eq (w : World) :
  _clearScrollingJudgeTimer w = Ok tt (timerCleared w) [].
Proof.
  unfold _clearScrollingJudgeTimer, timerCleared, bind, this.
  destruct (_scrollingJudgeTimerId (self w)); reflexivity.
Qed.

Lemma self_timerCleared (w : World) :
  self (timerCleared w) = set_scrollingJudgeTimerId None (self w).
Proof.
  unfold timerCleared. destruct (_scrollingJudgeTimerId (self w)) eqn:E; cbn.
  - reflexivity.
  - symmetry. apply set_scrollingJudgeTimerId_same, E.
Qed.

Lemma when_true (m : M unit) : when true m = m.
Proof. reflexivity. Qed.

Lemma when_false (m : M unit) : when false m = ret tt.
Proof. reflexivity. Qed.

Lemma scrollTicks_app (o1 o2 : list Effect) :
  scrollTicks (o1 ++ o2) = scrollTicks o1 ++ scrollTicks o2.
Proof.
  induction o1 as [|[[]| | |] o1 IH]; cbn; rewrite ?IH; reflexivity.
Qed.

Lemma scrollTicks_syncs (keys : list string) (s : Scroller) :
  scrollTicks (syncs keys s) = [].
Proof.
  unfold syncs. induction (_observers s) as [|o l IH]; [reflexivity | exact IH].
Qed.

Lemma scrollTicks_if_nil (b : bool) (o : list Effect) :
  scrollTicks o = [] -> scrollTicks (if b then o else []) = [].
Proof. destruct b; [trivial | reflexivity]. Qed.

Ltac prim :=
  lazymatch goal with
  | |- bind _ _ _ = _ =>
      eapply bind_Ok; [ prim | cbn; rewrite ?set_self_set_self; prim ]
  | |- _ =>
      first
        [ apply syncToObservers_eq
        | apply triggerScrollTick_eq
        | apply clearScrollingJudgeTimer_eq
        | apply when_emit
        | apply when_syncToObservers
        | apply assign_lastAxis_merge
        | apply assign_lastYDirection_merge
        | apply assign_lastXDirection_merge
        | (apply updateScrollSize_eq; cbn; eassumption)
        | (apply updateScrollPositions_eq; cbn; eassumption)
        | reflexivity ]
  end.

Ltac step := eapply bind_Ok; [ prim | cbn; rewrite ?set_self_set_self ].

Ltac quiet :=
  rewrite ?scrollTicks_app;
  repeat rewrite scrollTicks_if_nil by (reflexivity || apply scrollTicks_syncs);
  rewrite ?scrollTicks_syncs.

Lemma self_set_self (s : Scroller) (w : World) : self (set_self s w) = s.
Proof. reflexivity. Qed.

Lemma self_set_timers (t : list nat) (w : World) : self (set_timers t w) = self w.
Proof. reflexivity. Qed.

Lemma self_set_next_timer (n : nat) (w : World) : self (set_next_timer n w) = self w.
Proof. reflexivity. Qed.

(** The fields of [self] are read off a world by rewriting, so that no
    two worlds are ever compared by conversion. *)
Ltac selves :=
  repeat first
    [ rewrite self_set_self
    | rewrite self_set_timers
    | rewrite self_set_next_timer
    | rewrite self_timerCleared ].

Ltac fact := first [ progress selves; cbn; first [reflexivity | assumption]
                   | quiet; cbn [scrollTicks app]; reflexivity ].

(** What an enabled [_onScroll] leaves on a bound element: the offsets of
    the element, the classification of the move, an episode in progress,
    and the scroll-family events of the three paths through the episode
    logic. *)
Lemma onScroll_enabled_run (w : World) (e : Element) :
  scrollEnabled (self w) = true -> _el (self w) = Some e ->
  exists w' out,
    _onScroll w = Ok tt w' out
    /\ _scrollTop (self w') = el_scrollTop e
    /\ _scrollLeft (self w') = el_scrollLeft e
    /\ _tickedX (self w') = tickX (self w) e
    /\ _tickedY (self w') = tickY (self w) e
    /\ _lastAxis (self w') = classifiedAxis (self w) e
    /\ _lastYDirection (self w') = classifiedY (self w) e
    /\ _lastXDirection (self w') = classifiedX (self w) e
    /\ _lastDirection (self w')
       = match classifiedAxis (self w) e with
         | AxisY => DirY (classifiedY (self w) e)
         | AxisX => DirX (classifiedX (self w) e)
         end
    /\ _nowScrolling (self w') = true
    /\ _startX (self w')
       = (if restarts (self w) e then el_scrollLeft e else _startX (self w))
    /\ _startY (self w')
       = (if restarts (self w) e then el_scrollTop e else _startY (self w))
    /\ _lastTotalX (self w')
       = (if restarts (self w) e then 0 else el_scrollLeft e - _startX (self w))
    /\ _lastTotalY (self w')
       = (if restarts (self w) e then 0 else el_scrollTop e - _startY (self w))
    /\ scrollTicks out
       = (if _nowScrolling (self w)
          then if episodeEnds (self w) e then [scrollEnd; scrollStart] else [scroll]
          else [scrollStart]).
Proof.
  intros Hen Hel. unfold restarts.
  destruct (_nowScrolling (self w)) eqn:Hns; [destruct (episodeEnds (self w) e) eqn:Hend|].
  - do 2 eexists. split.
    + unfold _onScroll.
      step. rewrite Hen. cbn [negb].
      repeat step. rewrite Hns, when_true.
      match goal with
      | |- context [if ?c then _triggerScrollTick scrollEnd else _] =>
          change c with (episodeEnds (self w) e)
      end.
      rewrite Hend. repeat step. rewrite when_true. repeat step. prim.
    + repeat split; fact.
  - do 2 eexists. split.
    + unfold _onScroll.
      step. rewrite Hen. cbn [negb].
      repeat step. rewrite Hns, when_true.
      match goal with
      | |- context [if ?c then _triggerScrollTick scrollEnd else _] =>
          change c with (episodeEnds (self w) e)
      end.
      rewrite Hend. repeat step. rewrite Hns. cbn [negb]. rewrite when_false.
      repeat step. prim.
    + repeat split; fact.
  - do 2 eexists. split.
    + unfold _onScroll.
      step. rewrite Hen. cbn [negb].
      repeat step. rewrite Hns, when_false. repeat step.
      rewrite Hns. cbn [negb]. rewrite when_true. repeat step. prim.
    + repeat split; fact.
Qed.
Lemma onScroll_disabled_eq (w : World) (e : Element) :
  scrollEnabled (self w) = false -> _el (self w) = Some e ->
  _onScroll w
  = Ok tt (set_self (set_el (Some (el_set_scrollTop (_scrollTop (self w))
                                     (el_set_scrollLeft (_scrollLeft (self w)) e)))
                       (self w)) w) [].
Proof.
  intros Hdisabled Hel. unfold _onScroll, bind, this. rewrite Hdisabled. cbn [negb].
  rewrite Hel. reflexivity.
Qed.

(** C8: a scroll event on a bound element is always processed, and each
    per-axis direction follows the move of the cached offset over the pass:
    'bottom' when scrollTop grew, 'top' when it shrank, unchanged when it
    stayed; 'right', 'left' and unchanged for scrollLeft.  While scrolling
    is enabled the cached offsets after the pass are those of the
    element. *)
Theorem onScroll_directions (w : World) (e : Element) (Hel : _el (self w) = Some e) :
  exists w' out,
    _onScroll w = Ok tt w' out
    /\ (scrollEnabled (self w) = true ->
        _scrollTop (self w') = el_scrollTop e /\ _scrollLeft (self w') = el_scrollLeft e)
    /\ (_scrollTop (self w) < _scrollTop (self w') -> _lastYDirection (self w') = YBottom)
    /\ (_scrollTop (self w') < _scrollTop (self w) -> _lastYDirection (self w') = YTop)
    /\ (_scrollTop (self w') = _scrollTop (self w) ->
        _lastYDirection (self w') = _lastYDirection (self w))
    /\ (_scrollLeft (self w) < _scrollLeft (self w') -> _lastXDirection (self w') = XRight)
    /\ (_scrollLeft (self w') < _scrollLeft (self w) -> _lastXDirection (self w') = XLeft)
    /\ (_scrollLeft (self w') = _scrollLeft (self w) ->
        _lastXDirection (self w') = _lastXDirection (self w)).
Proof.
  destruct (scrollEnabled (self w)) eqn:Hen.
  - destruct (onScroll_enabled_run w e Hen Hel)
      as (w' & out & Hrun & Htop & Hleft & _ & _ & _ & HY & HX & _).
    exists w', out. rewrite Htop, Hleft, HY, HX. unfold classifiedY, classifiedX.
    split; [exact Hrun|]. split; [intros _; split; reflexivity|].
    repeat split; intros H.
    + apply Z.ltb_lt in H. rewrite H. reflexivity.
    + destruct (Z.ltb_spec (_scrollTop (self w)) (el_scrollTop e)); [lia|].
      apply Z.ltb_lt in H. rewrite H. reflexivity.
    + rewrite H, Z.ltb_irrefl. reflexivity.
    + apply Z.ltb_lt in H. rewrite H. reflexivity.
    + destruct (Z.ltb_spec (_scrollLeft (self w)) (el_scrollLeft e)); [lia|].
      apply Z.ltb_lt in H. rewrite H. reflexivity.
    + rewrite H, Z.ltb_irrefl. reflexivity.
  - rewrite (onScroll_disabled_eq w e Hen Hel). do 2 eexists.
    split; [reflexivity|]. rewrite self_set_self. cbn.
    split; [discriminate|]. repeat split; intros H; try reflexivity; lia.
Qed.

Lemma onScroll_directions_witness :
  _el (self (Page.scrollingDown AxisY)) = Some (el_set_scrollTop 100 Page.box)
  /\ exists w' out,
       _onScroll (Page.scrollingDown AxisY) = Ok tt w' out
       /\ (_scrollTop (self w') = _scrollTop (self (Page.scrollingDown AxisY)) ->
           _lastYDirection (self w') = _lastYDirection (self (Page.scrollingDown AxisY))).
Proof.
  split; [reflexivity|].
  destruct (onScroll_directions (Page.scrollingDown AxisY) (el_set_scrollTop 100 Page.box)
              eq_refl) as (w' & out & Hrun & _ & _ & _ & Hsame & _).
  exists w', out. split; [exact Hrun | exact Hsame].
Defined.

(** The axis of a scroll event processed while scrolling is enabled: x
    when the horizontal tick is the larger in absolute value, y when the
    vertical one is, the base axis when the two ticks are equal. *)
Lemma onScroll_axis (w : World) (e : Element) :
  scrollEnabled (self w) = true -> _el (self w) = Some e ->
  exists w' out,
    _onScroll w = Ok tt w' out
    /\ _tickedX (self w') = el_scrollLeft e - _scrollLeft (self w)
    /\ _tickedY (self w') = el_scrollTop e - _scrollTop (self w)
    /\ (Z.abs (_tickedY (self w')) < Z.abs (_tickedX (self w')) ->
        _lastAxis (self w') = AxisX)
    /\ (Z.abs (_tickedX (self w')) < Z.abs (_tickedY (self w')) ->
        _lastAxis (self w') = AxisY)
    /\ (_tickedX (self w') = _tickedY (self w') -> _lastAxis (self w') = baseAxis (self w)).
Proof.
  intros Hen Hel.
  destruct (onScroll_enabled_run w e Hen Hel)
    as (w' & out & Hrun & _ & _ & HtX & HtY & Haxis & _).
  exists w', out. rewrite HtX, HtY, Haxis. unfold classifiedAxis, tickX, tickY.
  split; [exact Hrun|]. do 2 (split; [reflexivity|]).
  set (tx := el_scrollLeft e - _scrollLeft (self w)).
  set (ty := el_scrollTop e - _scrollTop (self w)).
  repeat split; intros H.
  - destruct (Z.eqb_spec tx ty); [lia|]. apply Z.ltb_lt in H. rewrite H. reflexivity.
  - destruct (Z.eqb_spec tx ty); [lia|].
    destruct (Z.ltb_spec (Z.abs ty) (Z.abs tx)); [lia | reflexivity].
  - rewrite H, Z.eqb_refl. reflexivity.
Qed.

(** C2 where it fails: ticks of equal magnitude and opposite signs.  The
    tie is tested with [tickedX === tickedY], on the signed ticks, so such
    a move is not a tie for the code: it falls to the comparison of the
    absolute values, which is not strict for y, and the axis is y whatever
    the base axis is. *)
Theorem opposite_ticks_classify_as_y (w : World) (e : Element)
  (Hen : scrollEnabled (self w) = true) (Hel : _el (self w) = Some e)
  (Hopposite : el_scrollLeft e - _scrollLeft (self w)
               = - (el_scrollTop e - _scrollTop (self w)))
  (Hmoved : el_scrollTop e <> _scrollTop (self w)) :
  exists w' out,
    _onScroll w = Ok tt w' out
    /\ Z.abs (_tickedX (self w')) = Z.abs (_tickedY (self w'))
    /\ _lastAxis (self w') = AxisY.
Proof.
  destruct (onScroll_enabled_run w e Hen Hel)
    as (w' & out & Hrun & _ & _ & HtX & HtY & Haxis & _).
  exists w', out. rewrite HtX, HtY, Haxis. unfold classifiedAxis, tickX, tickY.
  split; [exact Hrun|]. rewrite Hopposite. split; [apply Z.abs_opp|].
  destruct (Z.eqb_spec (- (el_scrollTop e - _scrollTop (self w)))
              (el_scrollTop e - _scrollTop (self w))); [lia|].
  rewrite Z.abs_opp, Z.ltb_irrefl. reflexivity.
Qed.

(** The failing input: base axis x, an episode at scrollLeft 0 and
    scrollTop 100, and a move to scrollLeft 5 and scrollTop 95. *)
Lemma opposite_ticks_classify_as_y_witness :
  baseAxis (self (Page.scrollingDown AxisX)) = AxisX
  /\ exists w' out,
       _onScroll (worldOf (host_scrolls 5 95 (Page.scrollingDown AxisX))) = Ok tt w' out
       /\ Z.abs (_tickedX (self w')) = Z.abs (_tickedY (self w'))
       /\ _lastAxis (self w') = AxisY.
Proof.
  split; [vm_compute; reflexivity|].
  apply (opposite_ticks_classify_as_y
           (worldOf (host_scrolls 5 95 (Page.scrollingDown AxisX)))
           (el_set_scrollTop 95 (el_set_scrollLeft 5 Page.box)));
    [vm_compute; reflexivity | vm_compute; reflexivity | vm_compute; reflexivity
    | vm_compute; discriminate].
Defined.

(** C1 as amended: a scroll event that arrives during an episode, with
    scrolling enabled, and changes the axis or the direction of the axis
    that was active ends that episode and opens the next one in the same
    pass: it emits scrollEnd and then scrollStart, restarts the totals at
    the offsets it measured, and leaves an episode in progress. *)
Theorem reversal_ends_and_restarts (w : World) (e : Element)
  (Hen : scrollEnabled (self w) = true) (Hel : _el (self w) = Some e)
  (Hscrolling : _nowScrolling (self w) = true)
  (Hchanged : episodeEnds (self w) e = true) :
  exists w' out,
    _onScroll w = Ok tt w' out
    /\ scrollTicks out = [scrollEnd; scrollStart]
    /\ _nowScrolling (self w') = true
    /\ _startX (self w') = el_scrollLeft e
    /\ _startY (self w') = el_scrollTop e
    /\ _lastTotalX (self w') = 0
    /\ _lastTotalY (self w') = 0.
Proof.
  destruct (onScroll_enabled_run w e Hen Hel)
    as (w' & out & Hrun & _ & _ & _ & _ & _ & _ & _ & _ & Hns & HsX & HsY & HtX & HtY
        & Hticks).
  unfold restarts in *. rewrite Hscrolling, Hchanged in *.
  exists w', out. repeat split; assumption.
Qed.

Lemma reversal_ends_and_restarts_witness :
  _nowScrolling (self (Page.scrollingDown AxisY)) = true
  /\ exists w' out,
       _onScroll (worldOf (host_scrolls 0 50 (Page.scrollingDown AxisY))) = Ok tt w' out
       /\ scrollTicks out = [scrollEnd; scrollStart]
       /\ _nowScrolling (self w') = true.
Proof.
  split; [vm_compute; reflexivity|].
  assert (Hen : scrollEnabled (self (worldOf (host_scrolls 0 50 (Page.scrollingDown AxisY))))
                = true) by (vm_compute; reflexivity).
  assert (Hel : _el (self (worldOf (host_scrolls 0 50 (Page.scrollingDown AxisY))))
                = Some (el_set_scrollTop 50 Page.box)) by (vm_compute; reflexivity).
  assert (Hns : _nowScrolling (self (worldOf (host_scrolls 0 50 (Page.scrollingDown AxisY))))
                = true) by (vm_compute; reflexivity).
  assert (Hch : episodeEnds (self (worldOf (host_scrolls 0 50 (Page.scrollingDown AxisY))))
                  (el_set_scrollTop 50 Page.box) = true) by (vm_compute; reflexivity).
  destruct (reversal_ends_and_restarts _ _ Hen Hel Hns Hch)
    as (w' & out & Hrun & Hticks & Hns' & _).
  exists w', out. repeat split; assumption.
Defined.

(** C1, counterexample: during an episode that scrolls down (scrollTop 40,
    then 100) the content moves back up to 50.  The pass emits scrollEnd
    and scrollStart, and an episode is in progress after it. *)
Lemma reversal_does_not_leave_episode_ended :
  let before := worldOf (host_scrolls 0 50 (Page.scrollingDown AxisY)) in
  _nowScrolling (self before) = true
  /\ episodeEnds (self before) (el_set_scrollTop 50 Page.box) = true
  /\ ~ endsWithoutRestart (scroll_event before).
Proof.
  split; [vm_compute; reflexivity|]. split; [vm_compute; reflexivity|].
  intros (_ & _ & H). vm_compute in H. discriminate H.
Qed.

(** ** Scroll requests and the current result *)

Lemma animate_on (request : ScrollRequest) (c : Element) (w : World) :
  animate request (Some {| container := Some c |}) w
  = Ok (List.length (animations w))
      (set_animations
         (animations w ++
            [{| anim_request := request; anim_container := c; anim_status := InFlight |}])
         w) [].
Proof. reflexivity. Qed.

Lemma inFlight_after_start (result : ScrollResult) (a : Animation) (w : World) :
  inFlight result w = true ->
  inFlight result (set_animations (animations w ++ [a]) w) = true.
Proof.
  unfold inFlight, statusOf. cbn [animations set_animations].
  destruct (nth_error (animations w) result) as [b|] eqn:E; [|discriminate].
  rewrite nth_error_app1; [rewrite E; trivial|].
  apply nth_error_Some. congruence.
Qed.

Lemma inFlight_started (request : ScrollRequest) (c : Element) (w : World) :
  inFlight (List.length (animations w))
    (set_animations
       (animations w ++
          [{| anim_request := request; anim_container := c; anim_status := InFlight |}])
       w) = true.
Proof.
  unfold inFlight, statusOf. cbn [animations set_animations].
  rewrite nth_error_app2, Nat.sub_diag; [reflexivity | apply Nat.le_refl].
Qed.

Lemma inFlight_set_self (result : ScrollResult) (s : Scroller) (w : World) :
  inFlight result (set_self s w) = inFlight result w.
Proof. reflexivity. Qed.

Lemma inFlight_set_reactions (result : ScrollResult) (l : list ScrollResult) (w : World) :
  inFlight result (set_reactions l w) = inFlight result w.
Proof. reflexivity. Qed.

(** Recording the result of an animation that is in flight. *)
Lemma setScrollToResult_inFlight (result : ScrollResult) (w : World) :
  inFlight result w = true ->
  _setScrollToResult result w
  = Ok result
      (set_reactions (reactions w ++ [result])
         (set_self (set_scrollToResult (Some result) (self w)) w)) [].
Proof.
  intros H. unfold _setScrollToResult.
  eapply bind_Ok_nil; [reflexivity|]. unfold promise_then.
  eapply bind_Ok_nil; [|reflexivity].
  eapply bind_Ok_nil; [reflexivity|]. cbv beta. rewrite inFlight_set_self, H. reflexivity.
Qed.

(** A request made through the controller on a bound element. *)
Lemma request_on_bound_element (request : ScrollRequest) (c : Element) (w : World) :
  _el (self w) = Some c ->
  (options <- _createMergedScrollOptions ;;
   result <- animate request options ;;
   _setScrollToResult result) w
  = Ok (List.length (animations w))
      (set_reactions (reactions w ++ [List.length (animations w)])
         (set_self (set_scrollToResult (Some (List.length (animations w))) (self w))
            (set_animations
               (animations w ++
                  [{| anim_request := request; anim_container := c;
                      anim_status := InFlight |}])
               w))) [].
Proof.
  intros Hel.
  eapply bind_Ok_nil;
    [unfold _createMergedScrollOptions; eapply bind_Ok_nil; reflexivity|].
  rewrite Hel.
  eapply bind_Ok_nil; [apply animate_on|].
  rewrite (setScrollToResult_inFlight _ _ (inFlight_started request c w)). reflexivity.
Qed.




Lemma callScroll_requestThrough (call : ScrollCall) :
  callScroll call = requestThrough (scrollFunction call).
Proof. destruct call; reflexivity. Qed.





(** ** The life cycle *)

Lemma checkDestroyed_destroyed (w : World) :
  _state (self w) = Destroyed -> _checkDestroyed w = Throw AlreadyDestroyed w [].
Proof.
  intros H. unfold _checkDestroyed, bind, this, isDestroyed. rewrite H. reflexivity.
Qed.

Lemma checkDestroyed_live (w : World) :
  isDestroyed (self w) = false -> _checkDestroyed w = Ok tt w [].
Proof.
  intros H. unfold _checkDestroyed, bind, this. rewrite H. reflexivity.
Qed.

Lemma self_set_visibility_subscribed (b : bool) (w : World) :
  self (set_visibility_subscribed b w) = self w.
Proof. reflexivity. Qed.

Lemma self_set_microtasks (l : list Microtask) (w : World) :
  self (set_microtasks l w) = self w.
Proof. reflexivity. Qed.

(** [_stopListeners] clears the three listener fields it can clear, and
    fails only on a scroll listener without an event target. *)
Lemma stopListeners_run (w : World) :
  (_scrollListener (self w) = true -> _eventTarget (self w) <> None) ->
  _stopListeners w
  = Ok tt
      (set_self
         (set_resizeObserver false
            (set_resizeListener (_resizeListener (self w) && negb (_isDocumentElement (self w)))
               (set_scrollListener false (self w)))) w) [].
Proof.
  intros Htarget. destruct w as [s ? ? ? ? ? ? ? ? ? ? ? ? ?]. cbn [self] in *.
  destruct s. cbn in Htarget.
  unfold _stopListeners, bind, this, when, assign, ret, throw. cbn.
  destruct _scrollListener0, _resizeListener0, _isDocumentElement0, _resizeObserver0;
    try (destruct _eventTarget0; [|exfalso; apply Htarget; reflexivity]);
    cbn; reflexivity.
Qed.

Lemma setState_run (state : ScrollerState) (w : World) :
  _setState state w
  = Ok tt (set_self (set_state state (self w)) w)
      (if negb (ScrollerState_eqb (_state (self w)) state)
       then syncs ["state"; "isPending"; "isReady"; "isRunning"; "isDestroyed"]%string
              (self w) ++ [Emit (EvChangeState state)]
       else []).
Proof.
  unfold _setState. eapply bind_Ok_nil; [reflexivity|]. cbv beta.
  destruct (ScrollerState_eqb (_state (self w)) state) eqn:E; cbn [negb].
  - rewrite when_false. unfold ret. f_equal.
    destruct w as [s ? ? ? ? ? ? ? ? ? ? ? ? ?]. cbn [self] in *. destruct s.
    cbn in E. destruct _state0, state; try discriminate E; reflexivity.
  - rewrite when_true.
    eapply bind_Ok_nil; [reflexivity|].
    change (syncs ?k (self w)) with (syncs k (self (set_self (set_state state (self w)) w))).
    eapply bind_Ok; [apply syncToObservers_eq | reflexivity].
Qed.

(** [stop] on a controller that is not destroyed: only [self] changes, the
    listeners are detached and a running controller becomes ready, with
    its snapshot untouched. *)
Lemma stop_live (w : World) :
  isDestroyed (self w) = false ->
  (_scrollListener (self w) = true -> _eventTarget (self w) <> None) ->
  exists out,
    stop w
    = Ok tt
        (if isRunning (self w)
         then set_self
                (set_state Ready
                   (set_resizeObserver false
                      (set_resizeListener
                         (_resizeListener (self w) && negb (_isDocumentElement (self w)))
                         (set_scrollListener false (self w))))) w
         else w) out
    /\ emitted out = if isRunning (self w) then [EvChangeState Ready] else [].
Proof.
  intros Hlive Htarget. unfold stop.
  destruct (isRunning (self w)) eqn:Hrun.
  - eexists. split.
    + eapply bind_Ok_nil; [apply checkDestroyed_live, Hlive|].
      eapply bind_Ok_nil; [reflexivity|]. cbv beta. rewrite Hrun. cbn [negb].
      eapply bind_Ok_nil; [apply stopListeners_run, Htarget|].
      rewrite setState_run. rewrite self_set_self, set_self_set_self. reflexivity.
    + rewrite ?self_set_self. cbn [_state set_state set_resizeObserver set_resizeListener
                                    set_scrollListener].
      unfold isRunning in Hrun.
      destruct (_state (self w)); try discriminate Hrun. cbn [ScrollerState_eqb negb].
      clear. unfold syncs.
      induction (_observers _) as [|o l IH]; [reflexivity | exact IH].
  - exists []. split; [|reflexivity].
    eapply bind_Ok_nil; [apply checkDestroyed_live, Hlive|].
    eapply bind_Ok_nil; [reflexivity|]. cbv beta. rewrite Hrun. reflexivity.
Qed.

Lemma emitted_app (o1 o2 : list Effect) :
  emitted (o1 ++ o2) = emitted o1 ++ emitted o2.
Proof.
  induction o1 as [|[] o1 IH]; cbn; rewrite ?IH; reflexivity.
Qed.

Lemma emitted_syncs (keys : list string) (s : Scroller) : emitted (syncs keys s) = [].
Proof.
  unfold syncs. induction (_observers s) as [|o l IH]; [reflexivity | exact IH].
Qed.

(** [destroy] on a controller that is not destroyed yet runs to its end
    and leaves the terminal state with every reference dropped. *)
Lemma destroy_run (w : World) :
  isDestroyed (self w) = false ->
  (_scrollListener (self w) = true -> _eventTarget (self w) <> None) ->
  exists wd out,
    destroy w = Ok tt wd out
    /\ _state (self wd) = Destroyed
    /\ _scrollToResult (self wd) = None
    /\ _el (self wd) = None
    /\ _eventTarget (self wd) = None
    /\ _scrollStoppers (self wd) = []
    /\ _observers (self wd) = []
    /\ _readyResolvers (self wd) = []
    /\ _scrollListener (self wd) = false
    /\ _resizeObserver (self wd) = false
    /\ visibility_subscribed wd = false
    /\ _subscribers (self wd) = []
    /\ emitted out
       = (if isRunning (self w) then [EvChangeState Ready] else [])
         ++ [EvChangeState Destroyed].
Proof.
  intros Hlive Htarget.
  destruct (stop_live w Hlive Htarget) as (o1 & H1 & Ho1).
  set (w1 := if isRunning (self w) then _ else w) in H1.
  assert (Hst1 : ScrollerState_eqb (_state (self w1)) Destroyed = false).
  { subst w1. destruct (isRunning (self w)); [reflexivity | exact Hlive]. }
  clearbody w1.
  destruct (cancel_self w1) as (w2 & H2 & Hs2).
  do 2 eexists. split.
  - unfold destroy. eapply bind_Ok_nil; [reflexivity|]. cbv beta. rewrite Hlive.
    eapply bind_Ok; [exact H1|].
    eapply bind_Ok_nil; [exact H2|].
    do 12 (eapply bind_Ok_nil; [reflexivity|];
           rewrite ?self_set_self, ?self_set_visibility_subscribed, ?set_self_set_self).
    eapply bind_Ok; [apply setState_run | reflexivity].
  - selves. rewrite ?self_set_visibility_subscribed, ?self_set_self, Hs2.
    cbn. repeat split.
    rewrite Hst1. cbn [negb]. rewrite !emitted_app, Ho1.
    unfold syncs. cbn. reflexivity.
Qed.

(** A scroll function called without a container in its options fails
    with MissingContainer, for the side functions whether or not a default
    container is configured. *)
Lemma scrollFunction_without_container (call : ScrollCall) (w : World) :
  scrollFunction call (Some {| container := None |}) w = Throw MissingContainer w [].
Proof.
  assert (Harray : forall sides,
             scrollToSide (SideArray sides) (Some {| container := None |}) w
             = Throw MissingContainer w []).
  { intros sides. unfold scrollToSide, scrollToSide_position, resolveContainer, bind, env.
    cbn [container].
    destruct (sides_includes sides SideRight), (sides_includes sides SideBottom),
      (sides_includes sides SideTop), (sides_includes sides SideLeft);
      cbv beta iota delta [orb ret];
      try reflexivity;
      destruct (defaultSettings_container w); reflexivity. }
  destruct call as [diffX diffY|position|[side|sides]| | | |]; cbn [scrollFunction];
    try reflexivity; try apply Harray; apply (Harray [_]).
Qed.

(** A request method on a controller without an element hands its scroll
    function options that name no container, whatever the state of the
    controller is. *)
Lemma requestThrough_without_element (f : option ScrollOptions -> M ScrollResult)
  (w : World) :
  _el (self w) = None ->
  requestThrough f w
  = (result <- f (Some {| container := None |}) ;; _setScrollToResult result) w.
Proof.
  intros Hel. unfold requestThrough.
  assert (H : _createMergedScrollOptions w = Ok (Some {| container := None |}) w []).
  { unfold _createMergedScrollOptions. eapply bind_Ok_nil; [reflexivity|].
    cbv beta. rewrite Hel. reflexivity. }
  exact (bind_run _ _ _ _ _ H).
Qed.

(** C4.  [destroy] is idempotent and ends with [offAll]: on the destroyed
    controller no subscriber is left, so nothing that is emitted later is
    delivered; [ready], [start], [stop] and [setElement] fail with
    AlreadyDestroyed and change nothing, and [cancel] does nothing.  The
    claim fails at the scroll requests, which have no such check: [by],
    [to], [toSide] and the side methods hand their scroll function the
    request of the destroyed controller, with no container; the engine
    fails with MissingContainer, which is neither of the two outcomes
    the claim allows. *)
Theorem destroyed_controller (w : World)
  (Hlive : isDestroyed (self w) = false)
  (Htarget : _scrollListener (self w) = true -> _eventTarget (self w) <> None) :
  exists wd out,
    destroy w = Ok tt wd out
    /\ isDestroyed (self wd) = true
    /\ destroy wd = Ok tt wd []
    /\ (forall r, ready r wd = Throw AlreadyDestroyed wd [])
    /\ start wd = Throw AlreadyDestroyed wd []
    /\ stop wd = Throw AlreadyDestroyed wd []
    /\ (forall arg, setElement arg wd = Throw AlreadyDestroyed wd [])
    /\ cancel wd = Ok tt wd []
    /\ _subscribers (self wd) = []
    /\ (forall later, delivered (self wd) later = [])
    /\ (forall f,
           requestThrough f wd
           = (result <- f (Some {| container := None |}) ;; _setScrollToResult result) wd)
    /\ (forall call,
           callScroll call wd = Throw MissingContainer wd []
           /\ ~ noOpOrAlreadyDestroyed (callScroll call) wd).
Proof.
  destruct (destroy_run w Hlive Htarget)
    as (wd & out & Hrun & Hst & Hslot & Hel & _ & _ & _ & _ & _ & _ & _ & Hsub & _).
  exists wd, out. split; [exact Hrun|].
  assert (Hd : isDestroyed (self wd) = true) by (unfold isDestroyed; rewrite Hst; reflexivity).
  pose proof (checkDestroyed_destroyed wd Hst) as Hcheck.
  assert (Hcall : forall call, callScroll call wd = Throw MissingContainer wd []).
  { intros call.
    rewrite callScroll_requestThrough, (requestThrough_without_element _ wd Hel).
    apply bind_Throw, scrollFunction_without_container. }
  split; [exact Hd|].
  split; [unfold destroy; eapply bind_Ok_nil; [reflexivity|]; cbv beta; rewrite Hd;
          reflexivity|].
  split; [intros r; unfold ready; apply bind_Throw, Hcheck|].
  split; [unfold start; apply bind_Throw, Hcheck|].
  split; [unfold stop; apply bind_Throw, Hcheck|].
  split; [intros arg; unfold setElement; apply bind_Throw; unfold stop;
          apply bind_Throw, Hcheck|].
  split; [unfold cancel; eapply bind_Ok_nil; [reflexivity|]; cbv beta; rewrite Hslot;
          reflexivity|].
  split; [exact Hsub|].
  split.
  { intros later. unfold delivered. rewrite Hsub.
    induction (emitted later) as [|e l IH]; [reflexivity | exact IH]. }
  split; [intros f; apply requestThrough_without_element, Hel|].
  intros call. split; [apply Hcall|].
  unfold noOpOrAlreadyDestroyed. rewrite (Hcall call).
  intros [[a H] | H]; discriminate H.
Qed.
Lemma destroyed_controller_witness :
  exists wd out,
    destroy (worldOf (on 3%nat (Page.running AxisY))) = Ok tt wd out
    /\ isDestroyed (self wd) = true
    /\ _subscribers (self wd) = []
    /\ stop wd = Throw AlreadyDestroyed wd []
    /\ callScroll (CallBy 0 100) wd = Throw MissingContainer wd [].
Proof.
  assert (Hlive : isDestroyed (self (worldOf (on 3%nat (Page.running AxisY)))) = false)
    by (vm_compute; reflexivity).
  assert (Htarget : _scrollListener (self (worldOf (on 3%nat (Page.running AxisY)))) = true ->
                    _eventTarget (self (worldOf (on 3%nat (Page.running AxisY)))) <> None)
    by (intros _; vm_compute; discriminate).
  destruct (destroyed_controller _ Hlive Htarget)
    as (wd & out & Hrun & Hd & _ & _ & _ & Hstop & _ & _ & Hsub & _ & _ & Hcall).
  exists wd, out. split; [exact Hrun|]. split; [exact Hd|]. split; [exact Hsub|].
  split; [exact Hstop | exact (proj1 (Hcall (CallBy 0 100)))].
Defined.

(** The failing input: the controller of the page, with one subscriber,
    is destroyed and then asked to scroll by 100.  The call is not
    refused with AlreadyDestroyed: it reaches the engine, which fails with
    MissingContainer. *)
Example by_after_destroy_outcome :
  let wd := worldOf (destroy (worldOf (on 3%nat (Page.running AxisY)))) in
  _subscribers (self (worldOf (on 3%nat (Page.running AxisY)))) = [3%nat]
  /\ isDestroyed (self wd) = true
  /\ thrownBy (by_ 0 100 wd) = Some MissingContainer
  /\ thrownBy (stop wd) = Some AlreadyDestroyed.
Proof. vm_compute. repeat split. Qed.
(** ** Binding an element *)

Lemma settles_refl (w : World) : settles w w.
Proof.
  repeat split. exists []. symmetry. apply app_nil_r.
Qed.

Lemma settles_set_self (s : Scroller) (w w' : World) :
  settles w w' -> settles w (set_self s w').
Proof. intros H. exact H. Qed.

Lemma settle_settles (result : ScrollResult) (st : AnimationStatus) (w : World) :
  exists w', settle result st w = Ok tt w' [] /\ self w' = self w /\ settles w w'.
Proof.
  unfold settle, bind, env, when. destruct (inFlight result w).
  - unfold assign_env at 1. rewrite forEach_enqueue. cbn.
    eexists. split; [reflexivity|]. split; [reflexivity|].
    repeat split. eexists. reflexivity.
  - cbn. exists w. split; [reflexivity|]. split; [reflexivity | apply settles_refl].
Qed.

Lemma cancel_settles (w : World) :
  exists w',
    cancel w = Ok tt w' []
    /\ self w' = set_scrollToResult None (self w)
    /\ settles w w'.
Proof.
  unfold cancel, bind, this. destruct (_scrollToResult (self w)) as [result|] eqn:E.
  - unfold result_cancel.
    destruct (settle_settles result Cancelled w) as (w1 & H1 & Hs & Hset).
    rewrite H1. unfold _clearScrollToResult, bind, this. rewrite Hs, E. cbn.
    eexists. split; [reflexivity|]. split; [cbn; rewrite Hs; reflexivity|].
    apply settles_set_self, Hset.
  - cbn. exists w. split; [reflexivity|].
    split; [symmetry; apply set_scrollToResult_same, E | apply settles_refl].
Qed.



(** [start] on a ready controller queues its continuation and returns. *)
Lemma start_ready (w : World) :
  _state (self w) = Ready ->
  start w = Ok tt (set_microtasks (microtasks w ++ [StartContinuation]) w) [].
Proof.
  intros H.
  assert (Hlive : isDestroyed (self w) = false) by (unfold isDestroyed; rewrite H; reflexivity).
  unfold start.
  eapply bind_Ok_nil; [apply checkDestroyed_live, Hlive|].
  eapply bind_Ok_nil; [reflexivity|]. cbv beta. unfold isRunning. rewrite H. cbn [ScrollerState_eqb].
  unfold ready.
  eapply bind_Ok_nil; [apply checkDestroyed_live, Hlive|].
  eapply bind_Ok_nil; [reflexivity|]. cbv beta. unfold isPending. rewrite H. reflexivity.
Qed.


(** Naming a world: the proofs below run a method step by step and keep
    each intermediate world abstract. *)
Lemma name_it {A : Type} (x : A) : exists y, y = x.
Proof. exists x. reflexivity. Qed.




(** The full refresh on element [e]. *)
Lemma update_run (w : World) (e : Element) (width height : option Z) :
  _el (self w) = Some e ->
  exists out,
    _update width height w
    = Ok tt
        (set_self
           (positions e
              (set_scrollHeight (el_scrollHeight e)
                 (set_scrollWidth (el_scrollWidth e)
                    (set_containerHeight (measuredHeight height w e)
                       (set_containerWidth (measuredWidth width w e) (self w))))))
           w) out
    /\ emitted out
       = if negb (measuredWidth width w e =? _containerWidth (self w))
            || negb (measuredHeight height w e =? _containerHeight (self w))
         then [EvResize (measuredWidth width w e) (measuredHeight height w e)]
         else [].
Proof.
  intros Hel. unfold _update.
  pose proof (updateContainerSize_eq w e width height Hel) as H1. cbv zeta in H1.
  eexists. split.
  - eapply bind_Ok; [exact H1|].
    eapply bind_Ok; [apply updateScrollSize_eq; exact Hel|].
    rewrite updateScrollPositions_eq with (e := e) by exact Hel.
    rewrite ?self_set_self, ?set_self_set_self. reflexivity.
  - rewrite ?self_set_self, !emitted_app.
    repeat match goal with
           | |- context [emitted (if ?c then _ else _)] => destruct c
           end;
      rewrite ?emitted_app, ?emitted_syncs; reflexivity.
Qed.


Lemma set_scrollSizeOvserverPollingId_same (s : Scroller) :
  set_scrollSizeOvserverPollingId (_scrollSizeOvserverPollingId s) s = s.
Proof. destruct s; reflexivity. Qed.

(** Starting the size polling touches the timers and the polling id only. *)
Lemma startScrollSizeOvserver_self (w : World) :
  exists w' p,
    _startScrollSizeOvserver w = Ok tt w' []
    /\ self w' = set_scrollSizeOvserverPollingId p (self w).
Proof.
  unfold _startScrollSizeOvserver, _stopScrollSizeOvserver, setTimer, clearTimer.
  unfold bind, env, this, assign, assign_env, ret.
  destruct (HAS_WINDOW w); cbn [negb].
  - destruct (_scrollSizeOvserverPollingId (self w)) eqn:Ep;
      cbn; destruct (scrollSizeOvserver (self w)); cbn;
      do 2 eexists; (split; [reflexivity|]); cbn;
      try reflexivity;
      try (symmetry; apply set_scrollSizeOvserverPollingId_same).
  - exists w, (_scrollSizeOvserverPollingId (self w)). split; [reflexivity|].
    symmetry. apply set_scrollSizeOvserverPollingId_same.
Qed.

(** [_startListeners] on a controller that has an event target attaches
    the scroll listener and touches nothing of the snapshot. *)
Lemma startListeners_self (w : World) (t : ScrollerEventTarget) :
  _eventTarget (self w) = Some t ->
  exists w' p sus rl ro,
    _startListeners w = Ok tt w' []
    /\ self w'
       = set_scrollSizeOvserverPollingId p
           (set_scrollSizeOvserverSuspended sus
              (set_resizeObserver ro
                 (set_resizeListener rl (set_scrollListener true (self w))))).
Proof.
  intros Ht.
  assert (Htarget : _scrollListener (self w) = true -> _eventTarget (self w) <> None)
    by (intros _; rewrite Ht; discriminate).
  pose proof (stopListeners_run w Htarget) as H1.
  destruct (name_it (set_self
                       (set_resizeObserver false
                          (set_resizeListener
                             (_resizeListener (self w) && negb (_isDocumentElement (self w)))
                             (set_scrollListener false (self w)))) w)) as (w1 & E1).
  rewrite <- E1 in H1.
  assert (Hs1 : self w1
                = set_resizeObserver false
                    (set_resizeListener
                       (_resizeListener (self w) && negb (_isDocumentElement (self w)))
                       (set_scrollListener false (self w)))) by (rewrite E1; reflexivity).
  assert (Hv1 : isVisible w1 = isVisible w) by (rewrite E1; reflexivity).
  clear E1.
  assert (Ht1 : _eventTarget (self w1) = Some t) by (rewrite Hs1; exact Ht).
  assert (Hr1 : _isRootElement (self w1) = _isRootElement (self w))
    by (rewrite Hs1; reflexivity).
  unfold _startListeners.
  rewrite (bind_run _ _ _ _ _ H1).
  erewrite bind_run by reflexivity.
  erewrite bind_run by reflexivity.
  rewrite ?self_set_self, ?set_self_set_self.
  cbn [_eventTarget _isRootElement set_scrollListener]. rewrite Ht1, Hr1.
  destruct (_isRootElement (self w)); destruct (isVisible w) eqn:Hvis;
    erewrite bind_run by reflexivity;
    erewrite bind_run by reflexivity;
    cbn [isVisible set_self]; rewrite Hv1;
    rewrite ?self_set_self, ?set_self_set_self.
  - erewrite bind_run by reflexivity. rewrite ?self_set_self, ?set_self_set_self.
    match goal with
    | |- context [_startScrollSizeOvserver ?W] =>
        destruct (startScrollSizeOvserver_self W) as (w2 & p & H2 & Hs2)
    end.
    exists w2, p, false, true, false. split; [exact H2|].
    rewrite Hs2, self_set_self, Hs1. destruct (self w); reflexivity.
  - eexists. exists (_scrollSizeOvserverPollingId (self w)), true, true, false.
    split; [reflexivity|]. rewrite self_set_self, Hs1. destruct (self w); reflexivity.
  - erewrite bind_run by reflexivity. rewrite ?self_set_self, ?set_self_set_self.
    match goal with
    | |- context [_startScrollSizeOvserver ?W] =>
        destruct (startScrollSizeOvserver_self W) as (w2 & p & H2 & Hs2)
    end.
    exists w2, p, false,
      (_resizeListener (self w) && negb (_isDocumentElement (self w))), true.
    split; [exact H2|].
    rewrite Hs2, self_set_self, Hs1. destruct (self w); reflexivity.
  - eexists. exists (_scrollSizeOvserverPollingId (self w)), true,
      (_resizeListener (self w) && negb (_isDocumentElement (self w))), true.
    split; [reflexivity|]. rewrite self_set_self, Hs1. destruct (self w); reflexivity.
Qed.

(** The continuation of [start]: the listeners are attached and the
    controller is running. *)
Lemma start_continuation_run (w : World) (t : ScrollerEventTarget) :
  _eventTarget (self w) = Some t ->
  exists w' out p sus rl ro,
    start_continuation w = Ok tt w' out
    /\ self w'
       = set_state Running
           (set_scrollSizeOvserverPollingId p
              (set_scrollSizeOvserverSuspended sus
                 (set_resizeObserver ro
                    (set_resizeListener rl (set_scrollListener true (self w))))))
    /\ emitted out = if isRunning (self w) then [] else [EvChangeState Running].
Proof.
  intros Ht.
  destruct (startListeners_self w t Ht) as (w1 & p & sus & rl & ro & H1 & Hs1).
  unfold start_continuation. rewrite (bind_run _ _ _ _ _ H1), setState_run.
  exists (set_self (set_state Running (self w1)) w1). eexists. exists p, sus, rl, ro.
  split; [reflexivity|]. split.
  - rewrite self_set_self, Hs1. reflexivity.
  - rewrite Hs1. cbn [_state set_scrollSizeOvserverPollingId
                        set_scrollSizeOvserverSuspended set_resizeObserver
                        set_resizeListener set_scrollListener].
    unfold isRunning. destruct (ScrollerState_eqb (_state (self w)) Running); cbn [negb];
      rewrite ?emitted_app, ?emitted_syncs; reflexivity.
Qed.




Lemma onScroll_disabled_restores_offsets_witness :
  scrollEnabled (self Page.locked) = false
  /\ exists e,
       _el (self Page.locked) = Some e
       /\ _onScroll Page.locked
          = Ok tt (set_self (set_el (Some (el_set_scrollTop 0 (el_set_scrollLeft 0 e)))
                               (self Page.locked)) Page.locked) [].
Proof.
  assert (Hdis : scrollEnabled (self Page.locked) = false) by (vm_compute; reflexivity).
  split; [exact Hdis|].
  exists (el_set_scrollDisabled true (el_set_scrollTop 30 Page.box)).
  assert (Hel : _el (self Page.locked)
                = Some (el_set_scrollDisabled true (el_set_scrollTop 30 Page.box)))
    by (vm_compute; reflexivity).
  split; [exact Hel|].
  exact (onScroll_disabled_restores_offsets Page.locked _ Hdis Hel).
Defined.

(** ** The idle timer of a scroll event *)

Lemma timers_set_self (s : Scroller) (w : World) : timers (set_self s w) = timers w.
Proof. reflexivity. Qed.

Lemma next_timer_set_self (s : Scroller) (w : World) :
  next_timer (set_self s w) = next_timer w.
Proof. reflexivity. Qed.

Lemma timers_timerCleared (w : World) :
  timers (timerCleared w) = withoutTimer (_scrollingJudgeTimerId (self w)) (timers w).
Proof. unfold timerCleared. destruct (_scrollingJudgeTimerId (self w)); reflexivity. Qed.

Lemma next_timer_timerCleared (w : World) : next_timer (timerCleared w) = next_timer w.
Proof. unfold timerCleared. destruct (_scrollingJudgeTimerId (self w)); reflexivity. Qed.

Lemma timers_set_next_timer (n : nat) (w : World) :
  timers (set_next_timer n w) = timers w.
Proof. reflexivity. Qed.

Lemma timers_set_timers (l : list nat) (w : World) : timers (set_timers l w) = l.
Proof. reflexivity. Qed.

Lemma next_timer_set_next_timer (n : nat) (w : World) :
  next_timer (set_next_timer n w) = n.
Proof. reflexivity. Qed.

Lemma next_timer_set_timers (l : list nat) (w : World) :
  next_timer (set_timers l w) = next_timer w.
Proof. reflexivity. Qed.

(** The timers of a world, read off by rewriting. *)
Ltac envs :=
  repeat first
    [ rewrite timers_set_self | rewrite timers_set_next_timer | rewrite timers_set_timers
    | rewrite next_timer_set_self | rewrite next_timer_set_next_timer
    | rewrite next_timer_set_timers | rewrite timers_timerCleared
    | rewrite next_timer_timerCleared | rewrite self_set_self ].

(** The three paths of an enabled [_onScroll] on a bound element, run to
    their end. *)
Ltac run_onScroll w e Hen Hel :=
  let Hns := fresh "Hns" in
  let Hend := fresh "Hend" in
  destruct (_nowScrolling (self w)) eqn:Hns; [destruct (episodeEnds (self w) e) eqn:Hend|];
  (do 2 eexists; split;
   [ unfold _onScroll; step; rewrite Hen; cbn [negb]; repeat step;
     rewrite Hns, ?when_true, ?when_false;
     try match goal with
         | |- context [if ?c then _triggerScrollTick scrollEnd else _] =>
             change c with (episodeEnds (self w) e); rewrite Hend
         end;
     repeat step;
     try (rewrite Hns; cbn [negb]); rewrite ?when_true, ?when_false;
     repeat step; prim
   | ]).

(** What an enabled [_onScroll] leaves alone, and the timer it sets. *)
Lemma onScroll_enabled_frame (w : World) (e : Element) :
  scrollEnabled (self w) = true -> _el (self w) = Some e ->
  exists w' out,
    _onScroll w = Ok tt w' out
    /\ _el (self w') = Some e
    /\ _scrollStoppers (self w') = _scrollStoppers (self w)
    /\ _scrollListener (self w') = _scrollListener (self w)
    /\ baseAxis (self w') = baseAxis (self w)
    /\ _state (self w') = _state (self w)
    /\ _scrollingJudgeTimerId (self w') = Some (next_timer w)
    /\ timers w'
       = next_timer w :: withoutTimer (_scrollingJudgeTimerId (self w)) (timers w)
    /\ next_timer w' = S (next_timer w).
Proof.
  intros Hen Hel. run_onScroll w e Hen Hel.
  all: repeat split; selves; envs; cbn; envs; try reflexivity; try assumption.
Qed.

Lemma Ok_inj {A : Type} (a b : A) (w1 w2 : World) (o1 o2 : list Effect) :
  Ok a w1 o1 = Ok b w2 o2 -> w1 = w2 /\ o1 = o2.
Proof. intros H. injection H as _ -> ->. split; reflexivity. Qed.

Lemma In_withoutTimer (t : nat) (id : option nat) (l : list nat) :
  In t (withoutTimer id l) <-> In t l /\ id <> Some t.
Proof.
  destruct id as [id|]; cbn.
  - rewrite filter_In, Bool.negb_true_iff, Nat.eqb_neq. intuition congruence.
  - intuition congruence.
Qed.

(** X1: a scroll event processed while scrolling is enabled re-arms the
    idle timer.  The timeout that was pending is cleared, a fresh one is
    set and recorded as the pending one, and every other timer of the page
    is left as it was. *)
Theorem onScroll_rearms_idle_timer (w : World) (e : Element)
  (Hen : scrollEnabled (self w) = true) (Hel : _el (self w) = Some e) :
  exists w' out,
    _onScroll w = Ok tt w' out
    /\ _scrollingJudgeTimerId (self w') = Some (next_timer w)
    /\ In (next_timer w) (timers w')
    /\ (forall old, _scrollingJudgeTimerId (self w) = Some old ->
        old <> next_timer w -> ~ In old (timers w'))
    /\ (forall t, t <> next_timer w -> _scrollingJudgeTimerId (self w) <> Some t ->
        (In t (timers w') <-> In t (timers w))).
Proof.
  destruct (onScroll_enabled_frame w e Hen Hel)
    as (w' & out & Hrun & _ & _ & _ & _ & _ & Hid & Htimers & _).
  exists w', out. rewrite Htimers. split; [exact Hrun|]. split; [exact Hid|].
  split; [left; reflexivity|]. split.
  - intros old Hold Hfresh [H|H]; [congruence|].
    apply In_withoutTimer in H. tauto.
  - intros t Hfresh Hother. cbn [In]. rewrite In_withoutTimer. intuition congruence.
Qed.

Lemma onScroll_rearms_idle_timer_witness :
  exists w' out,
    _onScroll (worldOf (host_scrolls 0 120 (Page.scrollingDown AxisY))) = Ok tt w' out
    /\ _scrollingJudgeTimerId (self w')
       = Some (next_timer (worldOf (host_scrolls 0 120 (Page.scrollingDown AxisY)))).
Proof.
  assert (Hen : scrollEnabled (self (worldOf (host_scrolls 0 120 (Page.scrollingDown AxisY))))
                = true) by (vm_compute; reflexivity).
  assert (Hel : _el (self (worldOf (host_scrolls 0 120 (Page.scrollingDown AxisY))))
                = Some (el_set_scrollTop 120 Page.box)) by (vm_compute; reflexivity).
  destruct (onScroll_rearms_idle_timer _ _ Hen Hel) as (w' & out & Hrun & Hid & _).
  exists w', out. split; assumption.
Defined.

Lemma emitted_if_syncs (b : bool) (keys : list string) (s : Scroller) :
  emitted (if b then syncs keys s else []) = [].
Proof. destruct b; [apply emitted_syncs | reflexivity]. Qed.

Lemma existsb_eqb_In (id : nat) (l : list nat) :
  existsb (Nat.eqb id) l = true <-> In id l.
Proof.
  rewrite existsb_exists. split.
  - intros (x & Hx & E). apply Nat.eqb_eq in E. subst. exact Hx.
  - intros H. exists id. split; [exact H | apply Nat.eqb_refl].
Qed.

(** The idle timeout expires: [_triggerScrollTick('scrollEnd')] runs. *)
Lemma idle_timer_expiry (w : World) (id : nat) :
  _scrollingJudgeTimerId (self w) = Some id -> In id (timers w) ->
  exists w' out,
    scrollingJudgeTimer_expires w = Ok tt w' out
    /\ emitted out = [EvScroll scrollEnd (lastPayload (self w))]
    /\ _nowScrolling (self w') = false
    /\ _lastTotalY (self w') = _lastTotalY (self w).
Proof.
  intros Hid Hlive. apply existsb_eqb_In in Hlive.
  do 2 eexists. split.
  - unfold scrollingJudgeTimer_expires.
    eapply bind_Ok_nil; [reflexivity|]. eapply bind_Ok_nil; [reflexivity|].
    cbv beta. rewrite Hid, Hlive, when_true.
    eapply bind_Ok_nil; [reflexivity|]. unfold scrollingJudgeTimer_callback.
    rewrite triggerScrollTick_eq. reflexivity.
  - selves. split; [|split; reflexivity].
    rewrite emitted_app. rewrite (emitted_if_syncs _ _ _). reflexivity.
Qed.

Lemma scrollTicks_emitted (out : list Effect) (name : ScrollTick) (p : ScrollerPayload) :
  emitted out = [EvScroll name p] -> scrollTicks out = [name].
Proof.
  induction out as [|[ev| | |] out IH]; cbn; intros H; try discriminate H; auto.
  injection H as -> H. cbn. f_equal.
  clear IH. induction out as [|[ev| | |] out IH]; cbn in *; try discriminate H; auto.
Qed.

(** X2: when the idle timeout expires the episode ends.  scrollEnd is
    emitted once, with the snapshot of the last scroll event as its
    payload, no episode is in progress afterwards, and the timeout does not
    fire a second time. *)
Theorem idle_timer_ends_episode (w : World) (id : nat)
  (Hid : _scrollingJudgeTimerId (self w) = Some id) (Hlive : In id (timers w)) :
  exists w' out,
    scrollingJudgeTimer_expires w = Ok tt w' out
    /\ emitted out = [EvScroll scrollEnd (lastPayload (self w))]
    /\ _nowScrolling (self w') = false
    /\ ~ In id (timers w')
    /\ scrollingJudgeTimer_expires w' = Ok tt w' [].
Proof.
  apply existsb_eqb_In in Hlive.
  do 2 eexists. split.
  - unfold scrollingJudgeTimer_expires.
    eapply bind_Ok_nil; [reflexivity|]. eapply bind_Ok_nil; [reflexivity|].
    cbv beta. rewrite Hid, Hlive, when_true.
    eapply bind_Ok_nil; [reflexivity|]. unfold scrollingJudgeTimer_callback.
    rewrite triggerScrollTick_eq. reflexivity.
  - selves. split; [|split; [reflexivity|split]].
    + rewrite emitted_app. rewrite (emitted_if_syncs _ _ _). reflexivity.
    + envs. intros H. apply filter_In in H. rewrite Nat.eqb_refl in H.
      destruct H as [_ H]. discriminate H.
    + unfold scrollingJudgeTimer_expires.
      eapply bind_Ok_nil; [reflexivity|]. eapply bind_Ok_nil; [reflexivity|].
      cbv beta. selves. cbn [ticked _scrollingJudgeTimerId set_nowScrolling].
      rewrite Hid.
      replace (existsb _ _) with false; [reflexivity|].
      symmetry. apply Bool.not_true_is_false. rewrite existsb_eqb_In. envs.
      intros H. apply filter_In in H. rewrite Nat.eqb_refl in H.
      destruct H as [_ H]. discriminate H.
Qed.

Lemma idle_timer_ends_episode_witness :
  exists w' out,
    scrollingJudgeTimer_expires (Page.scrollingDown AxisY) = Ok tt w' out
    /\ _nowScrolling (self w') = false.
Proof.
  assert (Hid : _scrollingJudgeTimerId (self (Page.scrollingDown AxisY)) = Some 2%nat)
    by (vm_compute; reflexivity).
  assert (Hlive : In 2%nat (timers (Page.scrollingDown AxisY)))
    by (vm_compute; left; reflexivity).
  destruct (idle_timer_ends_episode _ _ Hid Hlive) as (w' & out & Hrun & _ & Hns & _).
  exists w', out. split; assumption.
Defined.
(** ** Sequences of scroll events *)

Lemma host_scrolls_eq (x y : Z) (w : World) (e : Element) :
  _el (self w) = Some e ->
  host_scrolls x y w = Ok tt (set_self (set_el (Some (moved x y e)) (self w)) w) [].
Proof. intros H. unfold host_scrolls, assign. rewrite H. reflexivity. Qed.

Lemma classifiedAxis_set_el (x : option Element) (s : Scroller) (e : Element) :
  classifiedAxis (set_el x s) e = classifiedAxis s e.
Proof. reflexivity. Qed.

Lemma classifiedY_set_el (x : option Element) (s : Scroller) (e : Element) :
  classifiedY (set_el x s) e = classifiedY s e.
Proof. reflexivity. Qed.

Lemma classifiedX_set_el (x : option Element) (s : Scroller) (e : Element) :
  classifiedX (set_el x s) e = classifiedX s e.
Proof. reflexivity. Qed.

Lemma episodeEnds_set_el (x : option Element) (s : Scroller) (e : Element) :
  episodeEnds (set_el x s) e = episodeEnds s e.
Proof. reflexivity. Qed.

Lemma restarts_set_el (x : option Element) (s : Scroller) (e : Element) :
  restarts (set_el x s) e = restarts s e.
Proof. reflexivity. Qed.

(** A move of the content followed by a scroll event, on a controller
    that listens and whose scrolling is enabled. *)
Lemma move_and_event (w : World) (e : Element) (x y : Z) :
  _scrollListener (self w) = true -> scrollEnabled (self w) = true ->
  _el (self w) = Some e ->
  exists w' out,
    (host_scrolls x y ;; scroll_event) w = Ok tt w' out
    /\ _scrollListener (self w') = true
    /\ scrollEnabled (self w') = true
    /\ _el (self w') = Some (moved x y e)
    /\ _scrollTop (self w') = y
    /\ _scrollLeft (self w') = x
    /\ _lastAxis (self w') = classifiedAxis (self w) (moved x y e)
    /\ _lastYDirection (self w') = classifiedY (self w) (moved x y e)
    /\ _lastXDirection (self w') = classifiedX (self w) (moved x y e)
    /\ directionOfAxis (self w')
    /\ _nowScrolling (self w') = true
    /\ _startY (self w') = (if restarts (self w) (moved x y e) then y else _startY (self w))
    /\ totalsSinceStart (self w')
    /\ scrollTicks out
       = (if _nowScrolling (self w)
          then if episodeEnds (self w) (moved x y e) then [scrollEnd; scrollStart]
               else [scroll]
          else [scrollStart])
    /\ _scrollingJudgeTimerId (self w') = Some (next_timer w)
    /\ In (next_timer w) (timers w').
Proof.
  intros Hlistener Hen Hel.
  destruct (name_it (set_self (set_el (Some (moved x y e)) (self w)) w)) as (w1 & E1).
  assert (Hs1 : self w1 = set_el (Some (moved x y e)) (self w))
    by (rewrite E1; apply self_set_self).
  assert (Hn1 : next_timer w1 = next_timer w) by (rewrite E1; apply next_timer_set_self).
  assert (Hen1 : scrollEnabled (self w1) = true) by (rewrite Hs1; exact Hen).
  assert (Hel1 : _el (self w1) = Some (moved x y e)) by (rewrite Hs1; reflexivity).
  assert (Hl1 : _scrollListener (self w1) = true) by (rewrite Hs1; exact Hlistener).
  destruct (onScroll_enabled_run w1 _ Hen1 Hel1)
    as (w' & out & Hrun & Htop & Hleft & _ & _ & Haxis & HY & HX & Hdir & Hns & HsX & HsY
        & HtX & HtY & Hticks).
  destruct (onScroll_enabled_frame w1 _ Hen1 Hel1)
    as (w2 & out2 & Hrun2 & Hel2 & Hstoppers & Hl2 & _ & _ & Hid & Htimers & _).
  rewrite Hrun in Hrun2. apply Ok_inj in Hrun2 as [<- <-].
  rewrite Hs1 in *.
  rewrite ?classifiedAxis_set_el, ?classifiedY_set_el, ?classifiedX_set_el,
    ?episodeEnds_set_el, ?restarts_set_el in *.
  exists w', out. split.
  - eapply bind_Ok_nil; [apply host_scrolls_eq, Hel|]. rewrite <- E1.
    unfold scroll_event. eapply bind_Ok_nil; [reflexivity|]. cbv beta.
    rewrite Hs1. change (_scrollListener (set_el _ (self w))) with (_scrollListener (self w)).
    rewrite Hlistener, when_true. exact Hrun.
  - split; [rewrite Hl2; exact Hlistener|].
    split; [unfold scrollEnabled in *; rewrite Hstoppers; exact Hen|].
    split; [exact Hel2|]. split; [exact Htop|]. split; [exact Hleft|].
    split; [exact Haxis|]. split; [exact HY|]. split; [exact HX|].
    split; [unfold directionOfAxis; rewrite Hdir, Haxis, HY, HX; reflexivity|].
    split; [exact Hns|]. split; [exact HsY|].
    split.
    + unfold totalsSinceStart. rewrite HtX, HtY, HsX, HsY, Htop, Hleft.
      change (el_scrollTop (moved x y e)) with y.
      change (el_scrollLeft (moved x y e)) with x.
      change (_startX (set_el (Some (moved x y e)) (self w))) with (_startX (self w)).
      change (_startY (set_el (Some (moved x y e)) (self w))) with (_startY (self w)).
      destruct (restarts (self w) (moved x y e)); split; lia.
    + split; [exact Hticks|]. rewrite Hn1 in *. split; [exact Hid|].
      rewrite Htimers. left. reflexivity.
Qed.

Lemma burst_cons (m : Z * Z) (moves : list (Z * Z)) :
  burst (m :: moves) = (host_scrolls (fst m) (snd m) ;; scroll_event) ;; burst moves.
Proof. reflexivity. Qed.

(** Any sequence of moves on a controller that listens, with scrolling
    enabled: every event is processed, and after the last one the snapshot
    is consistent and an episode is in progress with its idle timer
    pending. *)
Lemma burst_enabled (moves : list (Z * Z)) :
  forall (w : World) (e : Element),
    _scrollListener (self w) = true -> scrollEnabled (self w) = true ->
    _el (self w) = Some e ->
    exists w' out,
      burst moves w = Ok tt w' out
      /\ (moves <> [] ->
          directionOfAxis (self w') /\ totalsSinceStart (self w')
          /\ _nowScrolling (self w') = true
          /\ exists id, _scrollingJudgeTimerId (self w') = Some id /\ In id (timers w')).
Proof.
  induction moves as [|[x y] moves IH]; intros w e Hl Hen Hel.
  - exists w, []. split; [reflexivity|]. intros H. contradiction H. reflexivity.
  - destruct (move_and_event w e x y Hl Hen Hel)
      as (w1 & o1 & Hrun1 & Hl1 & Hen1 & Hel1 & _ & _ & _ & _ & _ & Hdir & Hns & _ & Htot
          & _ & Hid & Hlive).
    destruct (IH w1 _ Hl1 Hen1 Hel1) as (w' & o2 & Hrun2 & Hfacts).
    exists w', (o1 ++ o2). split.
    + rewrite burst_cons. eapply bind_Ok; [exact Hrun1 | exact Hrun2].
    + intros _. destruct moves as [|m moves].
      * apply Ok_inj in Hrun2 as [<- _].
        split; [exact Hdir|]. split; [exact Htot|]. split; [exact Hns|].
        exists (next_timer w). split; assumption.
      * apply Hfacts. discriminate.
Qed.

(** X3: after any sequence of scroll events on a controller that listens,
    with scrolling enabled, the composite direction of the snapshot is the
    direction of the axis the snapshot names: lastYDirection when lastAxis
    is y, lastXDirection when it is x. *)
Theorem direction_follows_axis_after_burst (moves : list (Z * Z)) (w : World) (e : Element)
  (Hlistener : _scrollListener (self w) = true)
  (Hen : scrollEnabled (self w) = true) (Hel : _el (self w) = Some e)
  (Hmoves : moves <> []) :
  exists w' out, burst moves w = Ok tt w' out /\ directionOfAxis (self w').
Proof.
  destruct (burst_enabled moves w e Hlistener Hen Hel) as (w' & out & Hrun & Hfacts).
  exists w', out. split; [exact Hrun | apply Hfacts, Hmoves].
Qed.

(** X4: after any sequence of scroll events on a controller that listens,
    with scrolling enabled, the totals of the snapshot are the distances
    between the current offsets and the offsets at which the episode in
    progress started: net displacements, not path lengths. *)
Theorem totals_are_distances_from_start (moves : list (Z * Z)) (w : World) (e : Element)
  (Hlistener : _scrollListener (self w) = true)
  (Hen : scrollEnabled (self w) = true) (Hel : _el (self w) = Some e)
  (Hmoves : moves <> []) :
  exists w' out,
    burst moves w = Ok tt w' out
    /\ _lastTotalX (self w') = _scrollLeft (self w') - _startX (self w')
    /\ _lastTotalY (self w') = _scrollTop (self w') - _startY (self w').
Proof.
  destruct (burst_enabled moves w e Hlistener Hen Hel) as (w' & out & Hrun & Hfacts).
  exists w', out. split; [exact Hrun | apply Hfacts, Hmoves].
Qed.

Lemma last_cons (l : list Z) (a d : Z) : last (a :: l) d = last l a.
Proof.
  revert a d. induction l as [|b l IH]; intros a d; [reflexivity|].
  change (last (a :: b :: l) d) with (last (b :: l) d). rewrite !IH. reflexivity.
Qed.

(** Moves straight down during an episode that scrolls down: every event
    is a scroll tick of the same episode. *)
Lemma downward_ticks (tops : list Z) :
  forall (w : World) (e : Element),
    _scrollListener (self w) = true -> scrollEnabled (self w) = true ->
    _el (self w) = Some e ->
    _nowScrolling (self w) = true -> _lastAxis (self w) = AxisY ->
    _lastYDirection (self w) = YBottom ->
    increasing (_scrollTop (self w)) tops = true ->
    exists w' out,
      burst (map (fun y => (_scrollLeft (self w), y)) tops) w = Ok tt w' out
      /\ scrollTicks out = repeat scroll (List.length tops)
      /\ _startY (self w') = _startY (self w)
      /\ _scrollTop (self w') = last tops (_scrollTop (self w))
      /\ (tops <> [] ->
          _lastTotalY (self w') = _scrollTop (self w') - _startY (self w')
          /\ exists id, _scrollingJudgeTimerId (self w') = Some id /\ In id (timers w')).
Proof.
  induction tops as [|y tops IH]; intros w e Hl Hen Hel Hns Haxis HY Hinc.
  - exists w, []. do 4 (split; [reflexivity|]). intros H. contradiction H. reflexivity.
  - cbn [increasing] in Hinc. apply andb_prop in Hinc as [Hy Hinc].
    destruct (move_and_event w e (_scrollLeft (self w)) y Hl Hen Hel)
      as (w1 & o1 & Hrun1 & Hl1 & Hen1 & Hel1 & Htop1 & Hleft1 & Haxis1 & HY1 & _ & _ & Hns1
          & HsY1 & Htot1 & Hticks1 & Hid1 & Hlive1).
    assert (Hcy : classifiedY (self w) (moved (_scrollLeft (self w)) y e) = YBottom).
    { unfold classifiedY. change (el_scrollTop (moved _ y e)) with y.
      rewrite Hy. reflexivity. }
    assert (Hca : classifiedAxis (self w) (moved (_scrollLeft (self w)) y e) = AxisY).
    { unfold classifiedAxis, tickX, tickY.
      change (el_scrollTop (moved _ y e)) with y.
      change (el_scrollLeft (moved (_scrollLeft (self w)) y e)) with (_scrollLeft (self w)).
      apply Z.ltb_lt in Hy. rewrite Z.sub_diag.
      destruct (Z.eqb_spec 0 (y - _scrollTop (self w))); [lia|].
      destruct (Z.ltb_spec (Z.abs (y - _scrollTop (self w))) (Z.abs 0)); [lia|reflexivity]. }
    assert (Hend : episodeEnds (self w) (moved (_scrollLeft (self w)) y e) = false).
    { unfold episodeEnds. rewrite Hca, Hcy, Haxis, HY. reflexivity. }
    unfold restarts in HsY1. rewrite Hns, Hend in *.
    rewrite Hca in Haxis1. rewrite Hcy in HY1. rewrite <- Htop1 in Hinc.
    destruct (IH w1 _ Hl1 Hen1 Hel1 Hns1 Haxis1 HY1 Hinc)
      as (w' & o2 & Hrun2 & Hticks2 & HsY2 & Htop2 & Hfacts).
    rewrite Hleft1 in Hrun2.
    exists w', (o1 ++ o2). split.
    + cbn [map]. rewrite burst_cons. eapply bind_Ok; [exact Hrun1 | exact Hrun2].
    + split; [rewrite scrollTicks_app, Hticks1, Hticks2; reflexivity|].
      split; [rewrite HsY2; exact HsY1|].
      split.
      * rewrite Htop2, Htop1. symmetry. apply last_cons.
      * intros _. destruct tops as [|y' tops].
        -- apply Ok_inj in Hrun2 as [<- _]. split; [apply Htot1|].
           exists (next_timer w). split; assumption.
        -- apply Hfacts. discriminate.
Qed.

(** X5: one uninterrupted vertical scroll is one episode.  A controller
    that listens, with scrolling enabled and no episode in progress, whose
    content moves straight down through the offsets [first :: rest], each
    followed by a scroll event, and then stays still until the idle
    timeout expires, emits scrollStart once, one scroll for each further
    event and scrollEnd once; the episode is over, and its vertical total
    is the distance between the first and the last offset. *)
Theorem downward_burst_is_one_episode (w : World) (e : Element) (first : Z) (rest : list Z)
  (Hlistener : _scrollListener (self w) = true)
  (Hen : scrollEnabled (self w) = true) (Hel : _el (self w) = Some e)
  (Hidle : _nowScrolling (self w) = false)
  (Hinc : increasing (_scrollTop (self w)) (first :: rest) = true) :
  exists w' out,
    (burst (map (fun y => (_scrollLeft (self w), y)) (first :: rest)) ;;
     scrollingJudgeTimer_expires) w = Ok tt w' out
    /\ scrollTicks out = scrollStart :: repeat scroll (List.length rest) ++ [scrollEnd]
    /\ _nowScrolling (self w') = false
    /\ _lastTotalY (self w') = last rest first - first.
Proof.
  cbn [increasing] in Hinc. apply andb_prop in Hinc as [Hy Hinc].
  destruct (move_and_event w e (_scrollLeft (self w)) first Hlistener Hen Hel)
    as (w1 & o1 & Hrun1 & Hl1 & Hen1 & Hel1 & Htop1 & Hleft1 & Haxis1 & HY1 & _ & _ & Hns1
        & HsY1 & Htot1 & Hticks1 & Hid1 & Hlive1).
  assert (Hcy : classifiedY (self w) (moved (_scrollLeft (self w)) first e) = YBottom).
  { unfold classifiedY. change (el_scrollTop (moved _ first e)) with first.
    rewrite Hy. reflexivity. }
  assert (Hca : classifiedAxis (self w) (moved (_scrollLeft (self w)) first e) = AxisY).
  { unfold classifiedAxis, tickX, tickY.
    change (el_scrollTop (moved _ first e)) with first.
    change (el_scrollLeft (moved (_scrollLeft (self w)) first e))
      with (_scrollLeft (self w)).
    apply Z.ltb_lt in Hy. rewrite Z.sub_diag.
    destruct (Z.eqb_spec 0 (first - _scrollTop (self w))); [lia|].
    destruct (Z.ltb_spec (Z.abs (first - _scrollTop (self w))) (Z.abs 0));
      [lia|reflexivity]. }
  unfold restarts in HsY1. rewrite Hidle in *.
  rewrite Hca in Haxis1. rewrite Hcy in HY1. rewrite <- Htop1 in Hinc.
  destruct (downward_ticks rest w1 _ Hl1 Hen1 Hel1 Hns1 Haxis1 HY1 Hinc)
    as (w2 & o2 & Hrun2 & Hticks2 & HsY2 & Htop2 & Hfacts).
  rewrite Hleft1 in Hrun2.
  assert (Hfinal : _lastTotalY (self w2) = _scrollTop (self w2) - _startY (self w2)
                   /\ exists id, _scrollingJudgeTimerId (self w2) = Some id
                                 /\ In id (timers w2)).
  { destruct rest as [|y' rest].
    - apply Ok_inj in Hrun2 as [<- _]. split; [apply Htot1|].
      exists (next_timer w). split; assumption.
    - apply Hfacts. discriminate. }
  destruct Hfinal as (Htotal & id & Hid & Hlive).
  destruct (idle_timer_expiry w2 id Hid Hlive) as (w' & o3 & Hrun3 & Hemit3 & Hns3 & Hsame).
  exists w', ((o1 ++ o2) ++ o3). split.
  - eapply bind_Ok; [|exact Hrun3].
    cbn [map]. rewrite burst_cons. eapply bind_Ok; [exact Hrun1 | exact Hrun2].
  - split.
    + rewrite !scrollTicks_app, Hticks1, Hticks2, (scrollTicks_emitted _ _ _ Hemit3).
      reflexivity.
    + split; [exact Hns3|].
      rewrite Hsame, Htotal, Htop2, HsY2, HsY1, Htop1. reflexivity.
Qed.

Lemma direction_follows_axis_after_burst_witness :
  exists w' out,
    burst [(0, 40); (30, 40)] (Page.running AxisY) = Ok tt w' out
    /\ directionOfAxis (self w').
Proof.
  assert (Hl : _scrollListener (self (Page.running AxisY)) = true)
    by (vm_compute; reflexivity).
  assert (Hen : scrollEnabled (self (Page.running AxisY)) = true)
    by (vm_compute; reflexivity).
  assert (Hel : _el (self (Page.running AxisY)) = Some Page.box)
    by (vm_compute; reflexivity).
  assert (Hmoves : [(0, 40); (30, 40)] <> []) by discriminate.
  exact (direction_follows_axis_after_burst _ _ _ Hl Hen Hel Hmoves).
Defined.

Lemma totals_are_distances_from_start_witness :
  exists w' out,
    burst [(0, 40); (0, 100); (0, 70)] (Page.running AxisY) = Ok tt w' out
    /\ _lastTotalX (self w') = _scrollLeft (self w') - _startX (self w')
    /\ _lastTotalY (self w') = _scrollTop (self w') - _startY (self w').
Proof.
  assert (Hl : _scrollListener (self (Page.running AxisY)) = true)
    by (vm_compute; reflexivity).
  assert (Hen : scrollEnabled (self (Page.running AxisY)) = true)
    by (vm_compute; reflexivity).
  assert (Hel : _el (self (Page.running AxisY)) = Some Page.box)
    by (vm_compute; reflexivity).
  assert (Hmoves : [(0, 40); (0, 100); (0, 70)] <> []) by discriminate.
  exact (totals_are_distances_from_start _ _ _ Hl Hen Hel Hmoves).
Defined.

Lemma downward_burst_is_one_episode_witness :
  exists w' out,
    (burst (map (fun y => (_scrollLeft (self (Page.running AxisY)), y)) [40; 100; 160]) ;;
     scrollingJudgeTimer_expires) (Page.running AxisY) = Ok tt w' out
    /\ scrollTicks out = [scrollStart; scroll; scroll; scrollEnd]
    /\ _lastTotalY (self w') = 120.
Proof.
  assert (Hl : _scrollListener (self (Page.running AxisY)) = true)
    by (vm_compute; reflexivity).
  assert (Hen : scrollEnabled (self (Page.running AxisY)) = true)
    by (vm_compute; reflexivity).
  assert (Hel : _el (self (Page.running AxisY)) = Some Page.box)
    by (vm_compute; reflexivity).
  assert (Hidle : _nowScrolling (self (Page.running AxisY)) = false)
    by (vm_compute; reflexivity).
  assert (Hinc : increasing (_scrollTop (self (Page.running AxisY))) [40; 100; 160] = true)
    by (vm_compute; reflexivity).
  destruct (downward_burst_is_one_episode _ _ 40 [100; 160] Hl Hen Hel Hidle Hinc)
    as (w' & out & Hrun & Hticks & _ & Htotal).
  exists w', out. split; [exact Hrun|]. split; [exact Hticks | exact Htotal].
Defined.
(** ** The change events of a scroll event *)

Lemma changes_app (o1 o2 : list Effect) : changes (o1 ++ o2) = changes o1 ++ changes o2.
Proof.
  induction o1 as [|[[]| | |] o1 IH]; cbn; rewrite ?IH; reflexivity.
Qed.

Lemma changes_syncs (keys : list string) (s : Scroller) : changes (syncs keys s) = [].
Proof.
  unfold syncs. induction (_observers s) as [|o l IH]; [reflexivity | exact IH].
Qed.

Lemma changes_if (b : bool) (l : list Effect) :
  changes (if b then l else []) = if b then changes l else [].
Proof. destruct b; reflexivity. Qed.

(** X6: a scroll event processed while scrolling is enabled emits one
    change event for each of the axis, the horizontal direction, the
    vertical direction and the composite direction that it changed, in
    that order and with the new value, and none for a value it left as it
    was. *)
Theorem onScroll_change_events (w : World) (e : Element)
  (Hen : scrollEnabled (self w) = true) (Hel : _el (self w) = Some e) :
  exists w' out,
    _onScroll w = Ok tt w' out
    /\ changes out
       = (if ScrollAxis_eqb (_lastAxis (self w')) (_lastAxis (self w)) then []
          else [EvChangeAxis (_lastAxis (self w'))])
         ++ (if ScrollXDirection_eqb (_lastXDirection (self w')) (_lastXDirection (self w))
             then [] else [EvChangeLastXDirection (_lastXDirection (self w'))])
         ++ (if ScrollYDirection_eqb (_lastYDirection (self w')) (_lastYDirection (self w))
             then [] else [EvChangeLastYDirection (_lastYDirection (self w'))])
         ++ (if ScrollDirection_eqb (_lastDirection (self w')) (_lastDirection (self w))
             then [] else [EvChangeLastDirection (_lastDirection (self w'))]).
Proof.
  run_onScroll w e Hen Hel.
  all: selves; rewrite ?changes_app, ?changes_if, ?changes_syncs; cbn;
    repeat match goal with
           | |- context [negb ?c] => destruct c; cbn [negb]
           end; cbn; try reflexivity.
Qed.

Lemma onScroll_change_events_witness :
  exists w' out,
    _onScroll (worldOf (host_scrolls 0 50 (Page.scrollingDown AxisY))) = Ok tt w' out
    /\ changes out
       = (if ScrollAxis_eqb (_lastAxis (self w'))
               (_lastAxis (self (worldOf (host_scrolls 0 50 (Page.scrollingDown AxisY)))))
          then [] else [EvChangeAxis (_lastAxis (self w'))])
         ++ (if ScrollXDirection_eqb (_lastXDirection (self w'))
                  (_lastXDirection
                     (self (worldOf (host_scrolls 0 50 (Page.scrollingDown AxisY)))))
             then [] else [EvChangeLastXDirection (_lastXDirection (self w'))])
         ++ (if ScrollYDirection_eqb (_lastYDirection (self w'))
                  (_lastYDirection
                     (self (worldOf (host_scrolls 0 50 (Page.scrollingDown AxisY)))))
             then [] else [EvChangeLastYDirection (_lastYDirection (self w'))])
         ++ (if ScrollDirection_eqb (_lastDirection (self w'))
                  (_lastDirection
                     (self (worldOf (host_scrolls 0 50 (Page.scrollingDown AxisY)))))
             then [] else [EvChangeLastDirection (_lastDirection (self w'))]).
Proof.
  assert (Hen : scrollEnabled (self (worldOf (host_scrolls 0 50 (Page.scrollingDown AxisY))))
                = true) by (vm_compute; reflexivity).
  assert (Hel : _el (self (worldOf (host_scrolls 0 50 (Page.scrollingDown AxisY))))
                = Some (el_set_scrollTop 50 Page.box)) by (vm_compute; reflexivity).
  exact (onScroll_change_events _ _ Hen Hel).
Defined.
(** ** Stopping *)

Lemma isRunning_live (s : Scroller) : isRunning s = true -> isDestroyed s = false.
Proof.
  unfold isRunning, isDestroyed.
  destruct (_state s); intros H; (discriminate H || reflexivity).
Qed.

(** X7: [stop] on a running controller detaches the scroll listener and
    the resize observer, emits changeState(Ready) and nothing else, and
    keeps the snapshot: the payload, the episode flag, the timers of the
    page and the pending idle timeout are as before.  Scroll events that
    arrive afterwards are not processed, so the payload stays as it was
    whatever the content does. *)
Theorem stop_keeps_snapshot (w : World) (x y : Z)
  (Hrun : isRunning (self w) = true) (Htarget : _eventTarget (self w) <> None) :
  exists w' out,
    stop w = Ok tt w' out
    /\ emitted out = [EvChangeState Ready]
    /\ _state (self w') = Ready
    /\ _scrollListener (self w') = false
    /\ _resizeObserver (self w') = false
    /\ lastPayload (self w') = lastPayload (self w)
    /\ _nowScrolling (self w') = _nowScrolling (self w)
    /\ _scrollingJudgeTimerId (self w') = _scrollingJudgeTimerId (self w)
    /\ timers w' = timers w
    /\ exists w'',
         (host_scrolls x y ;; scroll_event) w' = Ok tt w'' []
         /\ lastPayload (self w'') = lastPayload (self w).
Proof.
  destruct (stop_live w (isRunning_live _ Hrun) (fun _ => Htarget)) as (out & H & Hout).
  rewrite Hrun in H, Hout.
  eexists. exists out. split; [exact H|]. split; [exact Hout|].
  rewrite self_set_self, timers_set_self.
  do 7 (split; [reflexivity|]).
  eexists. split.
  - eapply bind_Ok_nil; [reflexivity|]. unfold scroll_event.
    eapply bind_Ok_nil; [reflexivity|]. cbv beta. rewrite !self_set_self. reflexivity.
  - rewrite !self_set_self. reflexivity.
Qed.

Lemma stop_keeps_snapshot_witness :
  exists w' out,
    stop (Page.scrollingDown AxisY) = Ok tt w' out
    /\ emitted out = [EvChangeState Ready]
    /\ lastPayload (self w') = lastPayload (self (Page.scrollingDown AxisY)).
Proof.
  assert (Hrun : isRunning (self (Page.scrollingDown AxisY)) = true)
    by (vm_compute; reflexivity).
  assert (Htarget : _eventTarget (self (Page.scrollingDown AxisY)) <> None)
    by (vm_compute; discriminate).
  destruct (stop_keeps_snapshot _ 0 0 Hrun Htarget)
    as (w' & out & H & Hout & _ & _ & _ & Hpayload & _).
  exists w', out. split; [exact H|]. split; [exact Hout | exact Hpayload].
Defined.

(** X8: [stop] removes the resize listener from the window only when the
    bound element is the document element.  On a controller bound to the
    body, which also listens on the window, the resize listener is still
    registered after [stop]. *)
Theorem stop_keeps_resize_listener_unless_document (w : World)
  (Hrun : isRunning (self w) = true) (Htarget : _eventTarget (self w) <> None) :
  exists w' out,
    stop w = Ok tt w' out
    /\ _resizeListener (self w')
       = _resizeListener (self w) && negb (_isDocumentElement (self w))
    /\ (_isBodyElement (self w) = true -> _isDocumentElement (self w) = false ->
        _resizeListener (self w) = true -> _resizeListener (self w') = true).
Proof.
  destruct (stop_live w (isRunning_live _ Hrun) (fun _ => Htarget)) as (out & H & Hout).
  rewrite Hrun in H.
  eexists. exists out. split; [exact H|].
  rewrite self_set_self. split; [reflexivity|].
  intros _ Hdoc Hlistening. cbn. rewrite Hdoc, Hlistening. reflexivity.
Qed.

Lemma stop_keeps_resize_listener_unless_document_witness :
  _isBodyElement (self Body.running) = true
  /\ _resizeListener (self Body.running) = true
  /\ exists w' out,
       stop Body.running = Ok tt w' out /\ _resizeListener (self w') = true.
Proof.
  assert (Hrun : isRunning (self Body.running) = true) by (vm_compute; reflexivity).
  assert (Htarget : _eventTarget (self Body.running) <> None)
    by (vm_compute; discriminate).
  assert (Hbody : _isBodyElement (self Body.running) = true) by (vm_compute; reflexivity).
  assert (Hdoc : _isDocumentElement (self Body.running) = false)
    by (vm_compute; reflexivity).
  assert (Hlistening : _resizeListener (self Body.running) = true)
    by (vm_compute; reflexivity).
  destruct (stop_keeps_resize_listener_unless_document _ Hrun Htarget)
    as (w' & out & H & _ & Hkept).
  split; [exact Hbody|]. split; [exact Hlistening|].
  exists w', out. split; [exact H | exact (Hkept Hbody Hdoc Hlistening)].
Defined.

(** ** Destroying *)

Lemma timers_set_visibility_subscribed (b : bool) (w : World) :
  timers (set_visibility_subscribed b w) = timers w.
Proof. reflexivity. Qed.

(** What [destroy] leaves of a controller that was not destroyed: no
    reference and no listener, but the timers of the page and the polling
    of the content size as they were. *)
Lemma destroy_frame (w : World) :
  isDestroyed (self w) = false ->
  (_scrollListener (self w) = true -> _eventTarget (self w) <> None) ->
  exists wd out,
    destroy w = Ok tt wd out
    /\ _state (self wd) = Destroyed
    /\ _el (self wd) = None
    /\ _eventTarget (self wd) = None
    /\ _scrollListener (self wd) = false
    /\ _resizeListener (self wd) = false
    /\ _resizeObserver (self wd) = false
    /\ _scrollSizeOvserverPollingId (self wd) = _scrollSizeOvserverPollingId (self w)
    /\ scrollSizeOvserver (self wd) = scrollSizeOvserver (self w)
    /\ _scrollingJudgeTimerId (self wd) = _scrollingJudgeTimerId (self w)
    /\ lastPayload (self wd) = lastPayload (self w)
    /\ _scrollHeight (self wd) = _scrollHeight (self w)
    /\ timers wd = timers w.
Proof.
  intros Hlive Htarget.
  destruct (stop_live w Hlive Htarget) as (o1 & H1 & Ho1).
  set (w1 := if isRunning (self w) then _ else w) in H1.
  assert (F1 : _scrollSizeOvserverPollingId (self w1) = _scrollSizeOvserverPollingId (self w)
               /\ scrollSizeOvserver (self w1) = scrollSizeOvserver (self w)
               /\ _scrollingJudgeTimerId (self w1) = _scrollingJudgeTimerId (self w)
               /\ lastPayload (self w1) = lastPayload (self w)
               /\ _scrollHeight (self w1) = _scrollHeight (self w)
               /\ timers w1 = timers w).
  { subst w1. destruct (isRunning (self w)); repeat split; reflexivity. }
  clearbody w1.
  destruct F1 as (Fa & Fb & Fc & Fd & Fe & Ff).
  destruct (cancel_settles w1) as (w2 & H2 & Hs2 & Hset2).
  destruct Hset2 as (_ & _ & _ & _ & Htimers2 & _).
  do 2 eexists. split.
  - unfold destroy. eapply bind_Ok_nil; [reflexivity|]. cbv beta. rewrite Hlive.
    eapply bind_Ok; [exact H1|].
    eapply bind_Ok_nil; [exact H2|].
    do 12 (eapply bind_Ok_nil; [reflexivity|];
           rewrite ?self_set_self, ?self_set_visibility_subscribed, ?set_self_set_self).
    eapply bind_Ok; [apply setState_run | reflexivity].
  - selves. rewrite ?self_set_visibility_subscribed, ?self_set_self, Hs2.
    repeat (rewrite timers_set_self || rewrite timers_set_visibility_subscribed).
    rewrite Htimers2.
    rewrite <- Fa, <- Fb, <- Fc, <- Fd, <- Fe, <- Ff.
    cbn. repeat split.
Qed.

(** X9: [destroy] does not stop the polling of the content size.  The
    interval is still live on the destroyed controller; its next tick
    sees that the controller is destroyed and clears the interval, without
    measuring anything. *)
Theorem polling_ends_one_tick_after_destroy (w : World) (id : nat)
  (Hlive : isDestroyed (self w) = false)
  (Htarget : _scrollListener (self w) = true -> _eventTarget (self w) <> None)
  (Hid : _scrollSizeOvserverPollingId (self w) = Some id)
  (Hticking : In id (timers w)) :
  exists wd out,
    destroy w = Ok tt wd out
    /\ In id (timers wd)
    /\ exists w',
         scrollSizeOvserver_ticks wd = Ok tt w' []
         /\ ~ In id (timers w')
         /\ _scrollSizeOvserverPollingId (self w') = None
         /\ _scrollHeight (self w') = _scrollHeight (self w)
         /\ _state (self w') = Destroyed.
Proof.
  destruct (destroy_frame w Hlive Htarget)
    as (wd & out & Hrun & Hstate & _ & _ & _ & _ & _ & Hpoll & _ & _ & _ & Hheight & Htimers).
  exists wd, out. split; [exact Hrun|]. rewrite Htimers. split; [exact Hticking|].
  rewrite Hid in Hpoll.
  assert (Hstop : _stopScrollSizeOvserver wd
                  = Ok tt (set_self (set_scrollSizeOvserverPollingId None (self wd))
                             (set_timers (filter (fun t => negb (Nat.eqb t id)) (timers wd))
                                wd)) []).
  { unfold _stopScrollSizeOvserver. eapply bind_Ok_nil; [reflexivity|]. cbv beta.
    rewrite Hpoll. eapply bind_Ok_nil; reflexivity. }
  eexists. split.
  - unfold scrollSizeOvserver_ticks.
    eapply bind_Ok_nil; [reflexivity|]. eapply bind_Ok_nil; [reflexivity|]. cbv beta.
    rewrite Hpoll. rewrite Htimers. apply existsb_eqb_In in Hticking.
    rewrite Hticking, when_true. unfold scrollSizeOvserver_callback.
    eapply bind_Ok_nil; [reflexivity|]. cbv beta. unfold isDestroyed. rewrite Hstate.
    cbn [ScrollerState_eqb]. destruct (scrollSizeOvserver (self wd)); exact Hstop.
  - rewrite self_set_self, timers_set_self, timers_set_timers.
    split.
    + intros H. apply filter_In in H. rewrite Nat.eqb_refl in H.
      destruct H as [_ H]. discriminate H.
    + split; [reflexivity|]. split; [exact Hheight | exact Hstate].
Qed.

Lemma polling_ends_one_tick_after_destroy_witness :
  exists wd out,
    destroy Page.polling = Ok tt wd out
    /\ In 1%nat (timers wd)
    /\ exists w', scrollSizeOvserver_ticks wd = Ok tt w' [] /\ ~ In 1%nat (timers w').
Proof.
  assert (Hlive : isDestroyed (self Page.polling) = false) by (vm_compute; reflexivity).
  assert (Htarget : _scrollListener (self Page.polling) = true ->
                    _eventTarget (self Page.polling) <> None)
    by (intros _; vm_compute; discriminate).
  assert (Hid : _scrollSizeOvserverPollingId (self Page.polling) = Some 1%nat)
    by (vm_compute; reflexivity).
  assert (Hticking : In 1%nat (timers Page.polling)) by (vm_compute; left; reflexivity).
  destruct (polling_ends_one_tick_after_destroy _ _ Hlive Htarget Hid Hticking)
    as (wd & out & Hrun & Hstill & w' & Htick & Hgone & _).
  exists wd, out. split; [exact Hrun|]. split; [exact Hstill|].
  exists w'. split; [exact Htick | exact Hgone].
Defined.

(** X10: [stop] does not stop the polling of the content size either.  On
    a stopped controller the interval still ticks, and a tick still
    measures: after the content has changed size, the cached scrollWidth
    and scrollHeight are the new ones, with the controller in the Ready
    state. *)
Theorem polling_goes_on_after_stop (w : World) (e : Element) (id : nat) (width height : Z)
  (Hrun : isRunning (self w) = true) (Htarget : _eventTarget (self w) <> None)
  (Hel : _el (self w) = Some e)
  (Hpolls : scrollSizeOvserver (self w) <> None)
  (Hid : _scrollSizeOvserverPollingId (self w) = Some id)
  (Hticking : In id (timers w)) :
  exists w1 out1,
    stop w = Ok tt w1 out1
    /\ exists w2 out2,
         (host_resizes_content width height ;; scrollSizeOvserver_ticks) w1 = Ok tt w2 out2
         /\ _state (self w2) = Ready
         /\ _scrollWidth (self w2) = width
         /\ _scrollHeight (self w2) = height.
Proof.
  destruct (stop_live w (isRunning_live _ Hrun) (fun _ => Htarget)) as (out & H & Hout).
  rewrite Hrun in H.
  eexists. exists out. split; [exact H|].
  apply existsb_eqb_In in Hticking.
  destruct (scrollSizeOvserver (self w)) as [cfg|] eqn:Hcfg; [|contradiction Hpolls; reflexivity].
  do 2 eexists. split.
  - eapply bind_Ok_nil; [reflexivity|]. unfold scrollSizeOvserver_ticks.
    eapply bind_Ok_nil; [reflexivity|]. eapply bind_Ok_nil; [reflexivity|]. cbv beta.
    rewrite !self_set_self.
    cbn [_scrollSizeOvserverPollingId set_el set_state set_resizeObserver set_resizeListener
           set_scrollListener].
    rewrite Hid, !timers_set_self, Hticking, when_true.
    unfold scrollSizeOvserver_callback. eapply bind_Ok_nil; [reflexivity|]. cbv beta.
    rewrite !self_set_self.
    cbn [scrollSizeOvserver isDestroyed _state set_el set_state set_resizeObserver
           set_resizeListener set_scrollListener ScrollerState_eqb].
    rewrite Hcfg.
    apply updateScrollSize_eq with (e := el_set_scrollSize width height e).
    rewrite !self_set_self. cbn [_el set_el set_state set_resizeObserver set_resizeListener
                                  set_scrollListener]. rewrite Hel. reflexivity.
  - rewrite !self_set_self. repeat split.
Qed.

Lemma polling_goes_on_after_stop_witness :
  exists w1 out1,
    stop Page.polling = Ok tt w1 out1
    /\ exists w2 out2,
         (host_resizes_content 900 5000 ;; scrollSizeOvserver_ticks) w1 = Ok tt w2 out2
         /\ _state (self w2) = Ready
         /\ _scrollWidth (self w2) = 900
         /\ _scrollHeight (self w2) = 5000.
Proof.
  assert (Hrun : isRunning (self Page.polling) = true) by (vm_compute; reflexivity).
  assert (Htarget : _eventTarget (self Page.polling) <> None)
    by (vm_compute; discriminate).
  assert (Hel : _el (self Page.polling) = Some Page.box) by (vm_compute; reflexivity).
  assert (Hpolls : scrollSizeOvserver (self Page.polling) <> None)
    by (vm_compute; discriminate).
  assert (Hid : _scrollSizeOvserverPollingId (self Page.polling) = Some 1%nat)
    by (vm_compute; reflexivity).
  assert (Hticking : In 1%nat (timers Page.polling)) by (vm_compute; left; reflexivity).
  exact (polling_goes_on_after_stop _ _ _ 900 5000 Hrun Htarget Hel Hpolls Hid Hticking).
Defined.


(** ** Observers *)

Lemma set_observers_same (s : Scroller) : set_observers (_observers s) s = s.
Proof. destruct s; reflexivity. Qed.

Lemma set_observers_set_observers (a b : list nat) (s : Scroller) :
  set_observers a (set_observers b s) = set_observers a s.
Proof. reflexivity. Qed.

Lemma observe_run (o : nat) (w : World) :
  observe o w
  = Ok tt (set_self (set_observers (observed (_observers (self w)) o) (self w)) w)
      [SyncToObserver o scrollerObservableKeys].
Proof.
  unfold observe, observed. eapply bind_Ok_nil; [reflexivity|]. cbv beta.
  destruct (includesObserver (_observers (self w)) o); cbn [negb].
  - rewrite when_false. eapply bind_Ok_nil; [reflexivity|].
    rewrite set_observers_same, set_self_self. reflexivity.
  - rewrite when_true. eapply bind_Ok_nil; [reflexivity|]. reflexivity.
Qed.

Lemma unobserve_run (o : nat) (w : World) :
  unobserve o w
  = Ok tt (set_self (set_observers (unobserved (_observers (self w)) o) (self w)) w) [].
Proof.
  unfold unobserve, unobserved. eapply bind_Ok_nil; [reflexivity|]. cbv beta.
  destruct (indexOfObserver (_observers (self w)) o).
  - reflexivity.
  - rewrite set_observers_same, set_self_self. reflexivity.
Qed.

Lemma includesObserver_In (l : list nat) (o : nat) :
  includesObserver l o = true <-> In o l.
Proof. apply existsb_eqb_In. Qed.

Lemma In_observed (l : list nat) (o p : nat) : In p (observed l o) <-> p = o \/ In p l.
Proof.
  unfold observed. destruct (includesObserver l o) eqn:E.
  - apply includesObserver_In in E. split; [auto|]. intros [->|H]; assumption.
  - rewrite in_app_iff. cbn. intuition congruence.
Qed.

Lemma NoDup_observed (l : list nat) (o : nat) : NoDup l -> NoDup (observed l o).
Proof.
  intros H. unfold observed. destruct (includesObserver l o) eqn:E; [exact H|].
  assert (Hnot : ~ In o l).
  { intros Hin. apply includesObserver_In in Hin. congruence. }
  clear E. induction H as [|a l Ha H IH]; cbn.
  - constructor; [intros []|constructor].
  - constructor.
    + rewrite in_app_iff. cbn. intros [Hin|[<-|[]]]; [contradiction|].
      apply Hnot. left. reflexivity.
    + apply IH. intros Hin. apply Hnot. right. exact Hin.
Qed.

Lemma observed_idempotent (l : list nat) (o : nat) : observed (observed l o) o = observed l o.
Proof.
  unfold observed at 1.
  replace (includesObserver (observed l o) o) with true; [reflexivity|].
  symmetry. apply includesObserver_In, In_observed. left. reflexivity.
Qed.

(** X12: [observe] registers an observer at most once and synchronises it
    in full on every call.  After the call the observer is registered,
    the observers registered before are the others, no object is
    registered twice if none was, and a second call with the same object
    changes nothing. *)
Theorem observe_registers_once (o : nat) (w : World) :
  exists w',
    observe o w = Ok tt w' [SyncToObserver o scrollerObservableKeys]
    /\ In o (_observers (self w'))
    /\ (forall p, In p (_observers (self w')) <-> p = o \/ In p (_observers (self w)))
    /\ (NoDup (_observers (self w)) -> NoDup (_observers (self w')))
    /\ observe o w' = Ok tt w' [SyncToObserver o scrollerObservableKeys].
Proof.
  eexists. split; [apply observe_run|]. rewrite self_set_self.
  cbn [_observers set_observers].
  split; [apply In_observed; left; reflexivity|].
  split; [intros p; apply In_observed|].
  split; [apply NoDup_observed|].
  rewrite observe_run, self_set_self. cbn [_observers set_observers].
  rewrite observed_idempotent, set_observers_set_observers, set_self_set_self.
  reflexivity.
Qed.

Lemma indexOfObserver_None (l : list nat) (o : nat) :
  indexOfObserver l o = None <-> ~ In o l.
Proof.
  induction l as [|a l IH]; cbn; [tauto|].
  destruct (Nat.eqb_spec a o) as [->|Hne].
  - split; [discriminate|]. intros H. contradiction H. left. reflexivity.
  - destruct (indexOfObserver l o); split.
    + discriminate.
    + intros H. exfalso. apply H. right. apply Decidable.not_not.
      * unfold Decidable.decidable. destruct (in_dec Nat.eq_dec o l); tauto.
      * intros Hn. apply IH in Hn. discriminate Hn.
    + intros _ [H|H]; [contradiction|]. apply IH in H; [exact H | reflexivity].
    + reflexivity.
Qed.

Lemma In_unobserved (l : list nat) (o p : nat) :
  NoDup l -> (In p (unobserved l o) <-> In p l /\ p <> o).
Proof.
  unfold unobserved. intros H. induction H as [|a l Ha H IH]; cbn.
  - tauto.
  - destruct (Nat.eqb_spec a o) as [->|Hne].
    + split.
      * intros Hin. split; [right; exact Hin|]. intros ->. contradiction.
      * intros [[->|Hin] Hp]; [contradiction Hp; reflexivity | exact Hin].
    + destruct (indexOfObserver l o) as [i|] eqn:E; cbn.
      * rewrite IH. split.
        -- intros [->|[Hin Hp]]; [split; [left; reflexivity | exact Hne] | tauto].
        -- intros [[->|Hin] Hp]; [left; reflexivity | right; tauto].
      * apply indexOfObserver_None in E. split.
        -- intros [->|Hin]; [split; [left; reflexivity | exact Hne]|].
           split; [right; exact Hin|]. intros ->. contradiction.
        -- tauto.
Qed.

Lemma NoDup_unobserved (l : list nat) (o : nat) : NoDup l -> NoDup (unobserved l o).
Proof.
  intros H. induction H as [|a l Ha H IH]; [constructor|].
  unfold unobserved in *. cbn.
  destruct (Nat.eqb_spec a o) as [->|Hne]; [exact H|].
  assert (Hall : NoDup (a :: l)) by (constructor; assumption).
  destruct (indexOfObserver l o) as [i|] eqn:E; [|exact Hall].
  cbn. constructor; [|exact IH].
  intros Hin. apply Ha.
  pose proof (In_unobserved l o a H) as Hiff. unfold unobserved in Hiff.
  rewrite E in Hiff. apply Hiff in Hin. tauto.
Qed.

Lemma syncs_to_absent (o : nat) (keys : list string) (s : Scroller) :
  ~ In o (_observers s) -> existsb (syncsTo o) (syncs keys s) = false.
Proof.
  unfold syncs. induction (_observers s) as [|a l IH]; cbn; [reflexivity|].
  intros H. destruct (Nat.eqb_spec a o) as [->|Hne].
  - contradiction H. left. reflexivity.
  - apply IH. intros Hin. apply H. right. exact Hin.
Qed.

(** X13: [unobserve] ends the synchronisation of an observer.  On a
    controller whose observers are distinct, as [observe] keeps them, the
    object is no longer registered after the call, the other observers
    are, and no later synchronisation writes to it. *)
Theorem unobserve_ends_synchronisation (o : nat) (w : World) (keys : list string)
  (Hdistinct : NoDup (_observers (self w))) :
  exists w',
    unobserve o w = Ok tt w' []
    /\ ~ In o (_observers (self w'))
    /\ (forall p, p <> o -> (In p (_observers (self w')) <-> In p (_observers (self w))))
    /\ NoDup (_observers (self w'))
    /\ exists out,
         _syncToObservers keys w' = Ok tt w' out /\ existsb (syncsTo o) out = false.
Proof.
  eexists. split; [apply unobserve_run|]. rewrite self_set_self.
  cbn [_observers set_observers].
  assert (Hgone : ~ In o (unobserved (_observers (self w)) o)).
  { intros H. apply In_unobserved in H; [|exact Hdistinct]. destruct H as [_ H].
    apply H. reflexivity. }
  split; [exact Hgone|]. split.
  - intros p Hp. rewrite In_unobserved by exact Hdistinct. tauto.
  - split; [apply NoDup_unobserved, Hdistinct|].
    eexists. split; [apply syncToObservers_eq|].
    apply syncs_to_absent. rewrite self_set_self. exact Hgone.
Qed.

Lemma unobserve_ends_synchronisation_witness :
  exists w',
    unobserve 5%nat (worldOf ((observe 4%nat ;; observe 5%nat) (Page.running AxisY)))
    = Ok tt w' []
    /\ ~ In 5%nat (_observers (self w')).
Proof.
  assert (Hdistinct : NoDup (_observers (self (worldOf ((observe 4%nat ;; observe 5%nat)
                                                           (Page.running AxisY))))))
    by (vm_compute; repeat constructor; cbn; intuition discriminate).
  destruct (unobserve_ends_synchronisation 5%nat _ ["scrollTop"%string] Hdistinct)
    as (w' & Hrun & Hgone & _).
  exists w'. split; [exact Hrun | exact Hgone].
Defined.

Lemma unobserved_observed (l : list nat) (o : nat) :
  includesObserver l o = false -> unobserved (observed l o) o = l.
Proof.
  intros H. unfold observed. rewrite H.
  assert (Hnot : ~ In o l).
  { intros Hin. apply includesObserver_In in Hin. congruence. }
  clear H. unfold unobserved. induction l as [|a l IH]; cbn.
  - rewrite Nat.eqb_refl. reflexivity.
  - destruct (Nat.eqb_spec a o) as [->|Hne]; [contradiction Hnot; left; reflexivity|].
    assert (Hl : ~ In o l) by (intros Hin; apply Hnot; right; exact Hin).
    specialize (IH Hl).
    destruct (indexOfObserver (l ++ [o]) o) as [i|] eqn:E.
    + cbn. rewrite IH. reflexivity.
    + apply indexOfObserver_None in E. contradiction E.
      apply in_app_iff. right. left. reflexivity.
Qed.

(** X14: registering an observer that was not registered and
    unregistering it again leaves the controller exactly as it was; the
    only effect of the two calls is the full synchronisation of the
    object at [observe]. *)
Theorem observe_then_unobserve_restores (o : nat) (w : World)
  (Hnew : includesObserver (_observers (self w)) o = false) :
  (observe o ;; unobserve o) w = Ok tt w [SyncToObserver o scrollerObservableKeys].
Proof.
  rewrite (bind_Ok (observe o) (fun _ => unobserve o) w _ _ _ _ _ _
             (observe_run o w) (unobserve_run o _)).
  rewrite self_set_self. cbn [_observers set_observers].
  rewrite (unobserved_observed _ _ Hnew), set_observers_set_observers, set_self_set_self,
    set_observers_same, set_self_self.
  reflexivity.
Qed.

Lemma observe_then_unobserve_restores_witness :
  (observe 4%nat ;; unobserve 4%nat) (Page.running AxisY)
  = Ok tt (Page.running AxisY) [SyncToObserver 4%nat scrollerObservableKeys].
Proof.
  assert (Hnew : includesObserver (_observers (self (Page.running AxisY))) 4%nat = false)
    by (vm_compute; reflexivity).
  exact (observe_then_unobserve_restores 4%nat _ Hnew).
Defined.
(** ** Resizing and refreshing *)

Lemma measuredWidth_set_self (width : option Z) (s : Scroller) (w : World) (e : Element) :
  _isBodyElement s = _isBodyElement (self w) ->
  measuredWidth width (set_self s w) e = measuredWidth width w e.
Proof. intros H. unfold measuredWidth. rewrite self_set_self, H. reflexivity. Qed.

Lemma measuredHeight_set_self (height : option Z) (s : Scroller) (w : World) (e : Element) :
  _isBodyElement s = _isBodyElement (self w) ->
  measuredHeight height (set_self s w) e = measuredHeight height w e.
Proof. intros H. unfold measuredHeight. rewrite self_set_self, H. reflexivity. Qed.

(** X15: a resize notification refreshes the whole snapshot and is
    reported only when it changes the container size.  [_onResize] takes
    the size it is given (by the ResizeObserver) or measures it (for the
    window listener), reads the content size and the offsets from the
    element, assigns the far-edge distances the differences it computes
    from them, and emits one resize event with the new size when the
    width or the height differs from the cached one, none otherwise. *)
Theorem onResize_refreshes_and_reports_changes (w : World) (e : Element)
  (width height : option Z) (Hel : _el (self w) = Some e) :
  exists w' out,
    _onResize width height w = Ok tt w' out
    /\ emitted out
       = (if (measuredWidth width w e =? _containerWidth (self w))
             && (measuredHeight height w e =? _containerHeight (self w))
          then [] else [EvResize (measuredWidth width w e) (measuredHeight height w e)])
    /\ _containerWidth (self w') = measuredWidth width w e
    /\ _containerHeight (self w') = measuredHeight height w e
    /\ _scrollWidth (self w') = el_scrollWidth e
    /\ _scrollHeight (self w') = el_scrollHeight e
    /\ _scrollTop (self w') = el_scrollTop e
    /\ _scrollLeft (self w') = el_scrollLeft e
    /\ _scrollBottom (self w')
       = el_scrollHeight e - el_scrollTop e - measuredHeight height w e
    /\ _scrollRight (self w')
       = el_scrollWidth e - el_scrollLeft e - measuredWidth width w e.
Proof.
  destruct (update_run w e width height Hel) as (out & H & Hout).
  eexists. exists out. split; [exact H|]. split.
  - rewrite Hout.
    destruct (measuredWidth width w e =? _containerWidth (self w)),
      (measuredHeight height w e =? _containerHeight (self w)); reflexivity.
  - rewrite self_set_self. do 6 (split; [reflexivity|]).
    unfold positions. cbn. split; reflexivity.
Qed.

Lemma onResize_refreshes_and_reports_changes_witness :
  exists w' out,
    _onResize (Some 320) (Some 200) (Page.running AxisY) = Ok tt w' out
    /\ emitted out = [EvResize 320 200]
    /\ _scrollBottom (self w') = 1000 - 0 - 200.
Proof.
  assert (Hel : _el (self (Page.running AxisY)) = Some Page.box)
    by (vm_compute; reflexivity).
  destruct (onResize_refreshes_and_reports_changes _ _ (Some 320) (Some 200) Hel)
    as (w' & out & Hrun & Hout & _ & _ & _ & _ & _ & _ & Hbottom & _).
  exists w', out. split; [exact Hrun|]. split; [|exact Hbottom].
  rewrite Hout. vm_compute. reflexivity.
Defined.

Lemma refreshed_fixpoint (s : Scroller) (e : Element) (cw ch : Z) :
  let refresh s :=
    positions e
      (set_scrollHeight (el_scrollHeight e)
         (set_scrollWidth (el_scrollWidth e)
            (set_containerHeight ch (set_containerWidth cw s)))) in
  refresh (refresh s) = refresh s.
Proof. destruct s. vm_compute. reflexivity. Qed.

(** X16: [update] is idempotent.  A second [update], with nothing changed
    on the page in between, leaves the controller exactly as the first
    one left it and emits no event. *)
Theorem update_is_idempotent (w : World) (e : Element) (Hel : _el (self w) = Some e) :
  exists w1 out1,
    update w = Ok tt w1 out1
    /\ exists out2, update w1 = Ok tt w1 out2 /\ emitted out2 = [].
Proof.
  unfold update.
  destruct (update_run w e None None Hel) as (out1 & H1 & _).
  match type of H1 with
  | _ = Ok tt (set_self ?S w) _ =>
      destruct (name_it S) as (s1 & E1); rewrite <- E1 in H1
  end.
  assert (Hbody : _isBodyElement s1 = _isBodyElement (self w)) by (rewrite E1; reflexivity).
  assert (Hel1 : _el (self (set_self s1 w)) = Some e)
    by (rewrite self_set_self, E1; exact Hel).
  destruct (update_run (set_self s1 w) e None None Hel1) as (out2 & H2 & Hout2).
  rewrite measuredWidth_set_self, measuredHeight_set_self in H2, Hout2 by exact Hbody.
  rewrite self_set_self, set_self_set_self in H2. rewrite self_set_self in Hout2.
  exists (set_self s1 w), out1. split; [exact H1|].
  exists out2. split.
  - rewrite H2. f_equal. f_equal. rewrite E1. apply refreshed_fixpoint.
  - rewrite Hout2, E1. cbn [_containerWidth _containerHeight positions set_scrollRight
                              set_scrollBottom set_scrollLeft set_scrollTop set_scrollHeight
                              set_scrollWidth set_containerHeight set_containerWidth].
    rewrite !Z.eqb_refl. reflexivity.
Qed.

Lemma update_is_idempotent_witness :
  exists w1 out1,
    update (worldOf ((host_scrolls 10 250 ;; host_resizes_content 1200 4000)
                       (Page.running AxisY))) = Ok tt w1 out1
    /\ exists out2, update w1 = Ok tt w1 out2 /\ emitted out2 = [].
Proof.
  assert (Hel : _el (self (worldOf ((host_scrolls 10 250 ;; host_resizes_content 1200 4000)
                                      (Page.running AxisY))))
                = Some (el_set_scrollSize 1200 4000 (moved 10 250 Page.box)))
    by (vm_compute; reflexivity).
  exact (update_is_idempotent _ _ Hel).
Defined.
(** ** The sides of scrollToSide *)

Lemma scrollToSide_position_ext (sides1 sides2 : list ScrollSide)
  (options : option ScrollOptions) (w : World) :
  (forall side, sides_includes sides1 side = sides_includes sides2 side) ->
  scrollToSide_position (SideArray sides1) options w
  = scrollToSide_position (SideArray sides2) options w.
Proof.
  intros H. unfold scrollToSide_position.
  rewrite (H SideRight), (H SideBottom), (H SideTop), (H SideLeft). reflexivity.
Qed.

(** X17: [scrollToSide] looks only at which sides its argument names.
    Two arrays that name the same sides, in any order and with any
    repetition, give the same outcome, and a single side gives the
    outcome of the array that holds it alone. *)
Theorem scrollToSide_ignores_order (sides1 sides2 : list ScrollSide)
  (options : option ScrollOptions) (w : World)
  (Hsame : forall side, sides_includes sides1 side = sides_includes sides2 side) :
  scrollToSide (SideArray sides1) options w = scrollToSide (SideArray sides2) options w
  /\ forall side, scrollToSide (OneSide side) options w
                  = scrollToSide (SideArray [side]) options w.
Proof.
  split; [|reflexivity].
  unfold scrollToSide, bind.
  rewrite (scrollToSide_position_ext sides1 sides2 options w Hsame). reflexivity.
Qed.

Lemma scrollToSide_ignores_order_witness :
  scrollToSide (SideArray [SideBottom; SideLeft]) None Page.page
  = scrollToSide (SideArray [SideLeft; SideBottom; SideLeft]) None Page.page.
Proof.
  assert (Hsame : forall side,
             sides_includes [SideBottom; SideLeft] side
             = sides_includes [SideLeft; SideBottom; SideLeft] side)
    by (intros []; reflexivity).
  exact (proj1 (scrollToSide_ignores_order _ _ None Page.page Hsame)).
Defined.

(** X18: the far sides take their target from the container and win
    over the near sides.  With a container that resolves, 'right' sets x
    to the scrollWidth of the container and 'bottom' sets y to its
    scrollHeight, whether or not 'left' or 'top' is named as well; the
    values are the full content sizes, not the largest offsets. *)
Theorem scrollToSide_far_sides_win (sides : list ScrollSide) (options : option ScrollOptions)
  (w : World) (c : Element)
  (Hcontainer : resolveContainer options w = Ok (Some c) w []) :
  exists p,
    scrollToSide_position (SideArray sides) options w = Ok p w []
    /\ (sides_includes sides SideRight = true -> pos_x p = Some (el_scrollWidth c))
    /\ (sides_includes sides SideBottom = true -> pos_y p = Some (el_scrollHeight c))
    /\ scrollToSide (SideArray sides) options w = scrollTo p options w.
Proof.
  assert (Hpos : exists p,
             scrollToSide_position (SideArray sides) options w = Ok p w []
             /\ (sides_includes sides SideRight = true -> pos_x p = Some (el_scrollWidth c))
             /\ (sides_includes sides SideBottom = true ->
                 pos_y p = Some (el_scrollHeight c))).
  { unfold scrollToSide_position.
    destruct (sides_includes sides SideRight) eqn:HR;
      destruct (sides_includes sides SideBottom) eqn:HB; cbn [orb];
      try (eexists; split;
           [eapply bind_Ok_nil; [exact Hcontainer | reflexivity]
           | split; intros H; (discriminate H || reflexivity)]).
    - destruct (sides_includes sides SideTop); [|destruct (sides_includes sides SideLeft)];
        (eexists; split; [reflexivity | split; intros H; discriminate H]). }
  destruct Hpos as (p & Hp & Hx & Hy).
  exists p. split; [exact Hp|]. split; [exact Hx|]. split; [exact Hy|].
  unfold scrollToSide.
  exact (bind_run _ (fun position => scrollTo position options) w p w Hp).
Qed.

Lemma scrollToSide_far_sides_win_witness :
  exists p,
    scrollToSide_position (SideArray [SideTop; SideBottom])
      (Some {| container := Some Page.box |}) Page.page = Ok p Page.page []
    /\ pos_y p = Some 1000.
Proof.
  assert (Hcontainer : resolveContainer (Some {| container := Some Page.box |}) Page.page
                       = Ok (Some Page.box) Page.page []) by reflexivity.
  destruct (scrollToSide_far_sides_win [SideTop; SideBottom] _ _ _ Hcontainer)
    as (p & Hp & _ & Hy & _).
  exists p. split; [exact Hp | exact (Hy eq_refl)].
Defined.

(** X19: a far side without a container is an error at the call.  When
    'right' or 'bottom' is named and the container does not resolve,
    [scrollToSide] fails with MissingContainer before it reaches
    [scrollTo]: the page is unchanged and no animation is started. *)
Theorem scrollToSide_far_side_needs_container (sides : list ScrollSide)
  (options : option ScrollOptions) (w : World)
  (Hfar : sides_includes sides SideRight || sides_includes sides SideBottom = true)
  (Hmissing : resolveContainer options w = Ok None w []) :
  scrollToSide (SideArray sides) options w = Throw MissingContainer w [].
Proof.
  unfold scrollToSide. apply bind_Throw. unfold scrollToSide_position.
  rewrite Hfar. eapply bind_Ok_Throw; [exact Hmissing | reflexivity].
Qed.

Lemma scrollToSide_far_side_needs_container_witness :
  scrollToSide (SideArray [SideLeft; SideBottom]) None Bare.page
  = Throw MissingContainer Bare.page [].
Proof.
  assert (Hfar : sides_includes [SideLeft; SideBottom] SideRight
                 || sides_includes [SideLeft; SideBottom] SideBottom = true)
    by reflexivity.
  assert (Hmissing : resolveContainer None Bare.page = Ok None Bare.page [])
    by reflexivity.
  exact (scrollToSide_far_side_needs_container _ None Bare.page Hfar Hmissing).
Defined.

Lemma nth_error_started (l : list Animation) (a : Animation) :
  nth_error (l ++ [a]) (List.length l) = Some a.
Proof. rewrite nth_error_app2, Nat.sub_diag; [reflexivity | apply Nat.le_refl]. Qed.

(** A request made through the controller with one of the scroll
    functions, on a bound element. *)
Lemma requested_on_bound_element (f : option ScrollOptions -> M ScrollResult)
  (request : ScrollRequest) (c : Element) (w : World) :
  _el (self w) = Some c ->
  f (Some {| container := Some c |}) w
  = animate request (Some {| container := Some c |}) w ->
  requested (options <- _createMergedScrollOptions ;;
             result <- f options ;;
             _setScrollToResult result) request c w.
Proof.
  intros Hel Hf.
  exists (List.length (animations w)). eexists. split; [|split].
  - eapply bind_Ok_nil;
      [unfold _createMergedScrollOptions; eapply bind_Ok_nil; reflexivity|].
    rewrite Hel.
    eapply bind_Ok_nil; [rewrite Hf; apply animate_on|].
    apply (setScrollToResult_inFlight _ _ (inFlight_started request c w)).
  - reflexivity.
  - apply nth_error_started.
Qed.

(** X20: the four side methods of a controller with a bound element.
    Each starts one animation on the bound element and records its
    result: [toTop] towards y = 0 and [toLeft] towards x = 0, with the
    other axis left out; [toBottom] towards y = the scrollHeight of the
    element and [toRight] towards x = its scrollWidth, read from the
    element at the call and not from the cached sizes. *)
Theorem side_methods_on_bound_element (w : World) (e : Element)
  (Hel : _el (self w) = Some e) :
  requested toTop (RequestTo {| pos_x := None; pos_y := Some 0 |}) e w
  /\ requested toLeft (RequestTo {| pos_x := Some 0; pos_y := None |}) e w
  /\ requested toBottom
       (RequestTo {| pos_x := None; pos_y := Some (el_scrollHeight e) |}) e w
  /\ requested toRight
       (RequestTo {| pos_x := Some (el_scrollWidth e); pos_y := None |}) e w.
Proof.
  repeat split; apply requested_on_bound_element; try exact Hel; reflexivity.
Qed.

Lemma side_methods_on_bound_element_witness :
  requested toBottom (RequestTo {| pos_x := None; pos_y := Some 1000 |}) Page.box
    (Page.running AxisY).
Proof.
  assert (Hel : _el (self (Page.running AxisY)) = Some Page.box)
    by (vm_compute; reflexivity).
  exact (proj1 (proj2 (proj2 (side_methods_on_bound_element _ _ Hel)))).
Defined.
(** ** Cancelling *)

Lemma status_setStatus_same (r : nat) (st : AnimationStatus) (l : list Animation) :
  (r < List.length l)%nat ->
  option_map anim_status (nth_error (setStatus r st l) r) = Some st.
Proof.
  revert r. induction l as [|a l IH]; intros [|r] H; cbn in *; try lia.
  - reflexivity.
  - apply IH. lia.
Qed.

Lemma status_setStatus_other (r r' : nat) (st : AnimationStatus) (l : list Animation) :
  r' <> r ->
  option_map anim_status (nth_error (setStatus r st l) r')
  = option_map anim_status (nth_error l r').
Proof.
  revert r r'. induction l as [|a l IH]; intros [|r] [|r'] H; cbn; try reflexivity.
  - contradiction H. reflexivity.
  - apply IH. congruence.
Qed.

Lemma inFlight_lt (r : ScrollResult) (w : World) :
  inFlight r w = true -> (r < List.length (animations w))%nat.
Proof.
  unfold inFlight, statusOf. intros H. apply nth_error_Some.
  destruct (nth_error (animations w) r); [discriminate | discriminate H].
Qed.

(** Settling an animation in flight: its status changes, the reactions
    attached to it are queued, and nothing else moves. *)
Lemma settle_status (r : ScrollResult) (st : AnimationStatus) (w : World) :
  inFlight r w = true ->
  exists w',
    settle r st w = Ok tt w' []
    /\ self w' = self w
    /\ statusOf r w' = Some st
    /\ (forall r', r' <> r -> statusOf r' w' = statusOf r' w)
    /\ microtasks w'
       = microtasks w
         ++ repeat ScrollToResultSettled
              (List.length (filter (Nat.eqb r) (reactions w))).
Proof.
  intros H. pose proof (inFlight_lt r w H) as Hlt.
  unfold settle, bind, env, when. rewrite H.
  unfold assign_env at 1. rewrite forEach_enqueue. cbn.
  eexists. split; [reflexivity|]. split; [reflexivity|].
  unfold statusOf. cbn. split; [apply status_setStatus_same, Hlt|].
  split; [|reflexivity].
  intros r' Hr'. apply status_setStatus_other, Hr'.
Qed.

Lemma cancel_without_result (w : World) :
  _scrollToResult (self w) = None -> cancel w = Ok tt w [].
Proof. intros H. unfold cancel, bind, this. rewrite H. reflexivity. Qed.

(** [cancel] on a controller whose current result is in flight. *)
Lemma cancel_recorded (w : World) (r : ScrollResult) :
  _scrollToResult (self w) = Some r -> inFlight r w = true ->
  exists w',
    cancel w = Ok tt w' []
    /\ self w' = set_scrollToResult None (self w)
    /\ statusOf r w' = Some Cancelled
    /\ (forall r', r' <> r -> statusOf r' w' = statusOf r' w).
Proof.
  intros Hslot Hfl.
  destruct (settle_status r Cancelled w Hfl) as (w1 & H1 & Hs1 & Hst & Hothers & _).
  exists (set_self (set_scrollToResult None (self w1)) w1). split; [|split; [|split]].
  - unfold cancel. eapply bind_Ok_nil; [reflexivity|]. cbv beta. rewrite Hslot.
    eapply bind_Ok_nil; [exact H1|].
    unfold _clearScrollToResult. eapply bind_Ok_nil; [reflexivity|]. cbv beta.
    assert (Hslot1 : _scrollToResult (self w1) = Some r) by (rewrite Hs1; exact Hslot).
    rewrite Hslot1. reflexivity.
  - rewrite self_set_self, Hs1. reflexivity.
  - exact Hst.
  - exact Hothers.
Qed.

(** X21: [cancel] with a current result in flight cancels that animation,
    and only that one, and forgets it: the status of the animation is
    Cancelled, every other animation is as it was, no result is recorded
    any more, nothing is emitted, and a second [cancel] does nothing. *)
Theorem cancel_halts_the_recorded_animation (w : World) (r : ScrollResult)
  (Hslot : _scrollToResult (self w) = Some r) (Hflight : inFlight r w = true) :
  exists w',
    cancel w = Ok tt w' []
    /\ _scrollToResult (self w') = None
    /\ statusOf r w' = Some Cancelled
    /\ (forall r', r' <> r -> statusOf r' w' = statusOf r' w)
    /\ cancel w' = Ok tt w' [].
Proof.
  destruct (cancel_recorded w r Hslot Hflight) as (w' & H & Hs & Hst & Hothers).
  assert (Hnone : _scrollToResult (self w') = None) by (rewrite Hs; reflexivity).
  exists w'. split; [exact H|]. split; [exact Hnone|]. split; [exact Hst|].
  split; [exact Hothers | apply cancel_without_result, Hnone].
Qed.

Lemma cancel_halts_the_recorded_animation_witness :
  exists w',
    cancel (worldOf (by_ 0 300 (Page.running AxisY))) = Ok tt w' []
    /\ _scrollToResult (self w') = None
    /\ statusOf 0%nat w' = Some Cancelled.
Proof.
  assert (Hslot : _scrollToResult (self (worldOf (by_ 0 300 (Page.running AxisY))))
                  = Some 0%nat) by (vm_compute; reflexivity).
  assert (Hflight : inFlight 0%nat (worldOf (by_ 0 300 (Page.running AxisY))) = true)
    by (vm_compute; reflexivity).
  destruct (cancel_halts_the_recorded_animation _ _ Hslot Hflight)
    as (w' & H & Hnone & Hst & _).
  exists w'. split; [exact H|]. split; [exact Hnone | exact Hst].
Defined.

(** ** Stoppers and the element *)

Lemma updateScrollable_enabled (w : World) :
  scrollEnabled (self w) = true ->
  _updateScrollable w = Ok tt (set_self (set_el (enableScroll (_el (self w))) (self w)) w) [].
Proof.
  intros H. unfold _updateScrollable. eapply bind_Ok_nil; [reflexivity|]. cbv beta.
  rewrite H. reflexivity.
Qed.

Lemma updateScrollable_disabled (w : World) :
  scrollEnabled (self w) = false -> _scrollToResult (self w) = None ->
  _updateScrollable w
  = Ok tt (set_self (set_el (disableScroll (_el (self w))) (self w)) w) [].
Proof.
  intros H Hnone. unfold _updateScrollable. eapply bind_Ok_nil; [reflexivity|]. cbv beta.
  rewrite H. unfold _scrollDisable.
  eapply bind_Ok_nil; [apply cancel_without_result, Hnone | reflexivity].
Qed.

Lemma updateScrollable_cancels (w : World) (r : ScrollResult) :
  scrollEnabled (self w) = false ->
  _scrollToResult (self w) = Some r -> inFlight r w = true ->
  exists w',
    _updateScrollable w = Ok tt w' []
    /\ self w' = set_el (disableScroll (_el (self w))) (set_scrollToResult None (self w))
    /\ statusOf r w' = Some Cancelled.
Proof.
  intros H Hslot Hfl.
  destruct (cancel_recorded w r Hslot Hfl) as (w1 & H1 & Hs1 & Hst & _).
  exists (set_self (set_el (disableScroll (_el (self w1))) (self w1)) w1).
  split; [|split].
  - unfold _updateScrollable. eapply bind_Ok_nil; [reflexivity|]. cbv beta.
    rewrite H. unfold _scrollDisable. eapply bind_Ok_nil; [exact H1 | reflexivity].
  - rewrite self_set_self, Hs1. reflexivity.
  - exact Hst.
Qed.

(** X22: the first stopper halts the controller's animation and locks
    the element.  On a controller without stoppers, with a bound element
    and a current result in flight, [pushScrollStopper] cancels that
    animation and forgets its result, disables scrolling and sets the
    scroll suppression on the element; it notifies the observers and
    emits no event. *)
Theorem first_stopper_cancels_and_locks (w : World) (e : Element) (r : ScrollResult)
  (t : ScrollStopper)
  (Hnone : _scrollStoppers (self w) = []) (Hel : _el (self w) = Some e)
  (Hslot : _scrollToResult (self w) = Some r) (Hflight : inFlight r w = true) :
  exists w' out,
    pushScrollStopper t w = Ok tt w' out
    /\ emitted out = []
    /\ _scrollStoppers (self w') = [t]
    /\ scrollEnabled (self w') = false
    /\ _scrollToResult (self w') = None
    /\ statusOf r w' = Some Cancelled
    /\ _el (self w') = Some (el_set_scrollDisabled true e).
Proof.
  destruct (name_it (set_self (set_scrollStoppers [t] (self w)) w)) as (w1 & E1).
  assert (Hs1 : self w1 = set_scrollStoppers [t] (self w))
    by (rewrite E1; apply self_set_self).
  assert (Hdis1 : scrollEnabled (self w1) = false) by (rewrite Hs1; reflexivity).
  assert (Hslot1 : _scrollToResult (self w1) = Some r) by (rewrite Hs1; exact Hslot).
  assert (Hfl1 : inFlight r w1 = true) by (rewrite E1; exact Hflight).
  destruct (updateScrollable_cancels w1 r Hdis1 Hslot1 Hfl1) as (w2 & H2 & Hs2 & Hst).
  exists w2. eexists. split.
  - unfold pushScrollStopper. eapply bind_Ok_nil; [reflexivity|]. cbv beta.
    rewrite Hnone. cbn [includes existsb negb]. rewrite when_true.
    eapply bind_Ok_nil; [reflexivity|]. cbv beta. rewrite Hnone. cbn [app]. rewrite <- E1.
    eapply bind_Ok_nil; [reflexivity|]. cbv beta. rewrite Hs1.
    cbn [_scrollStoppers set_scrollStoppers List.length Nat.eqb]. rewrite when_true.
    eapply bind_Ok_nil; [exact H2 | apply syncToObservers_eq].
  - split; [apply emitted_syncs|]. rewrite Hs2, Hs1. cbn. rewrite Hel.
    repeat split. exact Hst.
Qed.

Lemma first_stopper_cancels_and_locks_witness :
  exists w' out,
    pushScrollStopper (StopperString "modal") (worldOf (by_ 0 300 (Page.running AxisY)))
    = Ok tt w' out
    /\ statusOf 0%nat w' = Some Cancelled
    /\ _el (self w') = Some (el_set_scrollDisabled true Page.box).
Proof.
  assert (Hnone : _scrollStoppers (self (worldOf (by_ 0 300 (Page.running AxisY)))) = [])
    by (vm_compute; reflexivity).
  assert (Hel : _el (self (worldOf (by_ 0 300 (Page.running AxisY)))) = Some Page.box)
    by (vm_compute; reflexivity).
  assert (Hslot : _scrollToResult (self (worldOf (by_ 0 300 (Page.running AxisY))))
                  = Some 0%nat) by (vm_compute; reflexivity).
  assert (Hflight : inFlight 0%nat (worldOf (by_ 0 300 (Page.running AxisY))) = true)
    by (vm_compute; reflexivity).
  destruct (first_stopper_cancels_and_locks _ _ _ (StopperString "modal")
              Hnone Hel Hslot Hflight)
    as (w' & out & H & _ & _ & _ & _ & Hst & Hlocked).
  exists w', out. split; [exact H|]. split; [exact Hst | exact Hlocked].
Defined.

Lemma unlocked_again (s : Scroller) (e : Element) (t : ScrollStopper) :
  _scrollStoppers s = [] ->
  set_el (enableScroll (Some (el_set_scrollDisabled true e)))
    (set_scrollStoppers []
       (set_el (disableScroll (Some e)) (set_scrollStoppers [t] s)))
  = set_el (Some (el_set_scrollDisabled false e)) s.
Proof.
  intros Hnone. destruct s, e. cbn in *. subst. reflexivity.
Qed.

Lemma set_el_same (s : Scroller) (e : Element) :
  _el s = Some e -> el_scrollDisabled e = false ->
  set_el (Some (el_set_scrollDisabled false e)) s = s.
Proof.
  intros Hel Hfree. destruct s, e. cbn in *. subst. reflexivity.
Qed.

(** X23: pushing a stopper and removing it again.  On a controller
    without stoppers and without a current result, with a bound element,
    [pushScrollStopper] followed by [removeScrollStopper] with the same
    stopper, any stopper but NaN, emits no event and leaves the
    controller as it was, but for the scroll suppression of the element,
    which is lifted.  When the element was not suppressed before, the
    two calls are a round trip: the controller and its element are
    exactly as they were. *)
Theorem push_then_remove_restores (w : World) (e : Element) (t : ScrollStopper)
  (Ht : t <> StopperNaN)
  (Hnone : _scrollStoppers (self w) = []) (Hel : _el (self w) = Some e)
  (Hidle : _scrollToResult (self w) = None) :
  exists out,
    (pushScrollStopper t ;; removeScrollStopper t) w
    = Ok tt (set_self (set_el (Some (el_set_scrollDisabled false e)) (self w)) w) out
    /\ emitted out = []
    /\ (el_scrollDisabled e = false ->
        (pushScrollStopper t ;; removeScrollStopper t) w = Ok tt w out).
Proof.
  destruct (name_it (set_self (set_scrollStoppers [t] (self w)) w)) as (w1 & E1).
  assert (Hs1 : self w1 = set_scrollStoppers [t] (self w))
    by (rewrite E1; apply self_set_self).
  assert (Hdis1 : scrollEnabled (self w1) = false) by (rewrite Hs1; reflexivity).
  assert (Hidle1 : _scrollToResult (self w1) = None) by (rewrite Hs1; exact Hidle).
  pose proof (updateScrollable_disabled w1 Hdis1 Hidle1) as H2.
  destruct (name_it (set_self (set_el (disableScroll (_el (self w1))) (self w1)) w1))
    as (w2 & E2).
  rewrite <- E2 in H2.
  assert (Hs2 : self w2 = set_el (disableScroll (Some e)) (set_scrollStoppers [t] (self w))).
  { rewrite E2, self_set_self, Hs1. cbn [_el set_scrollStoppers]. rewrite Hel. reflexivity. }
  assert (Hpush : pushScrollStopper t w
                  = Ok tt w2 (syncs ["scrollEnabled"]%string (self w2))).
  { unfold pushScrollStopper. eapply bind_Ok_nil; [reflexivity|]. cbv beta.
    rewrite Hnone. cbn [includes existsb negb]. rewrite when_true.
    eapply bind_Ok_nil; [reflexivity|]. cbv beta. rewrite Hnone. cbn [app]. rewrite <- E1.
    eapply bind_Ok_nil; [reflexivity|]. cbv beta. rewrite Hs1.
    cbn [_scrollStoppers set_scrollStoppers List.length Nat.eqb]. rewrite when_true.
    eapply bind_Ok_nil; [exact H2 | apply syncToObservers_eq]. }
  destruct (name_it (set_self (set_scrollStoppers [] (self w2)) w2)) as (w3 & E3).
  assert (Hs3 : self w3 = set_scrollStoppers [] (self w2))
    by (rewrite E3; apply self_set_self).
  assert (Hen3 : scrollEnabled (self w3) = true) by (rewrite Hs3; reflexivity).
  pose proof (updateScrollable_enabled w3 Hen3) as H4.
  destruct (name_it (set_self (set_el (Some (el_set_scrollDisabled false e)) (self w)) w))
    as (wf & Ef).
  assert (Hback : set_self (set_el (enableScroll (_el (self w3))) (self w3)) w3 = wf).
  { assert (Hs4 : set_el (enableScroll (_el (self w3))) (self w3)
                  = set_el (Some (el_set_scrollDisabled false e)) (self w)).
    { rewrite Hs3, Hs2. exact (unlocked_again (self w) e t Hnone). }
    rewrite Hs4, E3, E2, E1, !set_self_set_self. symmetry. exact Ef. }
  rewrite Hback in H4.
  assert (Hremove : removeScrollStopper t w2
                    = Ok tt wf (syncs ["scrollEnabled"]%string (self wf))).
  { unfold removeScrollStopper. eapply bind_Ok_nil; [reflexivity|]. cbv beta.
    rewrite Hs2. cbn [_scrollStoppers set_el set_scrollStoppers indexOf].
    rewrite (strictEquals_refl t Ht).
    eapply bind_Ok_nil; [reflexivity|]. cbv beta.
    assert (Hl2 : _scrollStoppers (self w2) = [t]) by (rewrite Hs2; reflexivity).
    rewrite Hl2. cbn [splice1]. rewrite <- E3.
    eapply bind_Ok_nil; [reflexivity|]. cbv beta. rewrite Hs3.
    cbn [_scrollStoppers set_scrollStoppers List.length Nat.eqb]. rewrite when_true.
    eapply bind_Ok_nil; [exact H4 | apply syncToObservers_eq]. }
  assert (Hboth : (pushScrollStopper t ;; removeScrollStopper t) w
                  = Ok tt wf (syncs ["scrollEnabled"]%string (self w2)
                              ++ syncs ["scrollEnabled"]%string (self wf)))
    by (eapply bind_Ok; [exact Hpush | exact Hremove]).
  eexists. rewrite <- Ef. split; [exact Hboth|]. split.
  - rewrite !emitted_app, !emitted_syncs. reflexivity.
  - intros Hfree. rewrite Hboth. f_equal.
    rewrite Ef, (set_el_same (self w) e Hel Hfree). apply set_self_self.
Qed.

Lemma push_then_remove_restores_witness :
  exists out,
    (pushScrollStopper (StopperString "modal") ;;
     removeScrollStopper (StopperString "modal")) (Page.running AxisY)
    = Ok tt (Page.running AxisY) out
    /\ emitted out = [].
Proof.
  assert (Ht : StopperString "modal" <> StopperNaN) by discriminate.
  assert (Hnone : _scrollStoppers (self (Page.running AxisY)) = [])
    by (vm_compute; reflexivity).
  assert (Hel : _el (self (Page.running AxisY)) = Some Page.box)
    by (vm_compute; reflexivity).
  assert (Hfree : el_scrollDisabled Page.box = false) by reflexivity.
  assert (Hidle : _scrollToResult (self (Page.running AxisY)) = None)
    by (vm_compute; reflexivity).
  destruct (push_then_remove_restores _ _ _ Ht Hnone Hel Hidle) as (out & _ & Hout & Hback).
  exists out. split; [exact (Hback Hfree) | exact Hout].
Defined.

(** ** The current result and the completion of an earlier one *)

Lemma inFlight_spec (r : ScrollResult) (w : World) :
  inFlight r w = true <-> statusOf r w = Some InFlight.
Proof.
  unfold inFlight. destruct (statusOf r w) as [[]|]; split; congruence.
Qed.

(** X24: the completion of a request that was overwritten clears the
    result of the request that overwrote it.  After two requests on a
    bound element the second result is the current one.  When the first
    animation then reaches its target, the reaction the controller
    attached to it runs and empties the slot, without looking at what
    the slot holds: the second animation is still in flight, but no
    result is recorded and [cancel] no longer reaches it. *)
Theorem completion_of_overwritten_request_clears_slot (w : World) (e : Element)
  (diffX diffY : Z) (position : ScrollPosition)
  (Hel : _el (self w) = Some e) :
  exists r1 r2 w2,
    (r1 <- by_ diffX diffY ;; r2 <- to position ;; ret (r1, r2)) w = Ok (r1, r2) w2 []
    /\ r1 <> r2
    /\ _scrollToResult (self w2) = Some r2
    /\ exists w3,
         animation_completes r1 w2 = Ok tt w3 []
         /\ In ScrollToResultSettled (microtasks w3)
         /\ exists w4,
              runMicrotask ScrollToResultSettled w3 = Ok tt w4 []
              /\ _scrollToResult (self w4) = None
              /\ inFlight r2 w4 = true
              /\ cancel w4 = Ok tt w4 [].
Proof.
  pose proof (request_on_bound_element (RequestBy diffX diffY) e w Hel) as H1.
  match type of H1 with
  | _ = Ok _ ?W _ => destruct (name_it W) as (w1 & E1)
  end.
  rewrite <- E1 in H1.
  set (r1 := List.length (animations w)) in *.
  assert (Hel1 : _el (self w1) = Some e) by (rewrite E1; exact Hel).
  assert (Hlen1 : List.length (animations w1) = S r1).
  { rewrite E1. cbn [animations set_reactions set_self set_animations].
    rewrite length_app. cbn. subst r1. lia. }
  assert (Hfl1 : inFlight r1 w1 = true).
  { rewrite E1. rewrite inFlight_set_reactions, inFlight_set_self. apply inFlight_started. }
  assert (Hre1 : In r1 (reactions w1)).
  { rewrite E1. cbn [reactions set_reactions]. apply in_app_iff. right. left. reflexivity. }
  pose proof (request_on_bound_element (RequestTo position) e w1 Hel1) as H2.
  rewrite Hlen1 in H2.
  match type of H2 with
  | _ = Ok _ ?W _ => destruct (name_it W) as (w2 & E2)
  end.
  rewrite <- E2 in H2.
  assert (Hslot2 : _scrollToResult (self w2) = Some (S r1)) by (rewrite E2; reflexivity).
  assert (Hfl12 : inFlight r1 w2 = true).
  { rewrite E2. rewrite inFlight_set_reactions, inFlight_set_self.
    apply inFlight_after_start, Hfl1. }
  assert (Hfl22 : inFlight (S r1) w2 = true).
  { rewrite E2. rewrite inFlight_set_reactions, inFlight_set_self, <- Hlen1.
    apply inFlight_started. }
  assert (Hre2 : In r1 (reactions w2)).
  { rewrite E2. cbn [reactions set_reactions]. apply in_app_iff. left.
    cbn [reactions set_self set_animations]. exact Hre1. }
  exists r1, (S r1), w2. split; [|split; [|split]].
  - eapply bind_Ok_nil; [exact H1|]. eapply bind_Ok_nil; [exact H2 | reflexivity].
  - apply Nat.neq_succ_diag_r.
  - exact Hslot2.
  - destruct (settle_status r1 Completed w2 Hfl12) as (w3 & H3 & Hs3 & _ & Hothers & Hm3).
    exists w3. split; [exact H3|]. split.
    + rewrite Hm3. apply in_app_iff. right.
      destruct (filter (Nat.eqb r1) (reactions w2)) as [|x l] eqn:Ef.
      * exfalso.
        assert (Hin : In r1 (filter (Nat.eqb r1) (reactions w2)))
          by (apply filter_In; split; [exact Hre2 | apply Nat.eqb_refl]).
        rewrite Ef in Hin. exact Hin.
      * left. reflexivity.
    + assert (Hslot3 : _scrollToResult (self w3) = Some (S r1))
        by (rewrite Hs3; exact Hslot2).
      assert (Hfl3 : inFlight (S r1) w3 = true).
      { apply inFlight_spec. rewrite Hothers by apply Nat.neq_succ_diag_l.
        apply inFlight_spec, Hfl22. }
      exists (set_self (set_scrollToResult None (self w3)) w3).
      split; [|split; [|split]].
      * unfold runMicrotask, _clearScrollToResult.
        eapply bind_Ok_nil; [reflexivity|]. cbv beta. rewrite Hslot3. reflexivity.
      * reflexivity.
      * rewrite inFlight_set_self. exact Hfl3.
      * apply cancel_without_result. reflexivity.
Qed.

Lemma completion_of_overwritten_request_clears_slot_witness :
  exists r1 r2 w2,
    (r1 <- by_ 0 300 ;; r2 <- to {| pos_x := None; pos_y := Some 0 |} ;; ret (r1, r2))
      (Page.running AxisY) = Ok (r1, r2) w2 []
    /\ r1 <> r2
    /\ _scrollToResult (self w2) = Some r2.
Proof.
  assert (Hel : _el (self (Page.running AxisY)) = Some Page.box)
    by (vm_compute; reflexivity).
  destruct (completion_of_overwritten_request_clears_slot _ _ 0 300
              {| pos_x := None; pos_y := Some 0 |} Hel)
    as (r1 & r2 & w2 & H & Hne & Hslot & _).
  exists r1, r2, w2. split; [exact H|]. split; [exact Hne | exact Hslot].
Defined.
(** ** Visibility and the polling of the content size *)

Lemma stopScrollSizeOvserver_polling (w : World) (id : nat) :
  _scrollSizeOvserverPollingId (self w) = Some id ->
  _stopScrollSizeOvserver w
  = Ok tt (set_self (set_scrollSizeOvserverPollingId None (self w))
             (set_timers (filter (fun t => negb (Nat.eqb t id)) (timers w)) w)) [].
Proof.
  intros H. unfold _stopScrollSizeOvserver. eapply bind_Ok_nil; [reflexivity|]. cbv beta.
  rewrite H. eapply bind_Ok_nil; reflexivity.
Qed.

Lemma startScrollSizeOvserver_idle (w : World) (cfg : ScrollSizeOvserverSetting) :
  HAS_WINDOW w = true -> _scrollSizeOvserverPollingId (self w) = None ->
  scrollSizeOvserver (self w) = Some cfg ->
  _startScrollSizeOvserver w
  = Ok tt (set_self (set_scrollSizeOvserverPollingId (Some (next_timer w)) (self w))
             (set_next_timer (S (next_timer w))
                (set_timers (next_timer w :: timers w) w))) [].
Proof.
  intros Hwin Hidle Hcfg.
  unfold _startScrollSizeOvserver, _stopScrollSizeOvserver, setTimer.
  unfold bind, env, this, assign, assign_env, ret.
  rewrite Hwin. cbn [negb]. rewrite Hidle. cbn. rewrite Hcfg. cbn. reflexivity.
Qed.

(** X25: the polling of the content size is suspended while the page is
    in the background and resumed when it comes back.  On a controller
    that polls, the transition to the background clears the interval and
    remembers that it was active; the transition to the foreground
    refreshes the whole snapshot (the container size is measured, the
    content size and the offsets are read from the element, the far-edge
    distances are assigned their differences) and sets a fresh
    interval. *)
Theorem polling_is_suspended_in_the_background (w : World) (e : Element) (id : nat)
  (cfg : ScrollSizeOvserverSetting)
  (Hwin : HAS_WINDOW w = true) (Hsub : visibility_subscribed w = true)
  (Hel : _el (self w) = Some e)
  (Hcfg : scrollSizeOvserver (self w) = Some cfg)
  (Hid : _scrollSizeOvserverPollingId (self w) = Some id) :
  exists w1,
    visibility_changes false w = Ok tt w1 []
    /\ _scrollSizeOvserverPollingId (self w1) = None
    /\ _scrollSizeOvserverSuspended (self w1) = true
    /\ ~ In id (timers w1)
    /\ lastPayload (self w1) = lastPayload (self w)
    /\ exists w2 out,
         visibility_changes true w1 = Ok tt w2 out
         /\ _scrollSizeOvserverPollingId (self w2) = Some (next_timer w)
         /\ In (next_timer w) (timers w2)
         /\ _scrollSizeOvserverSuspended (self w2) = false
         /\ _containerWidth (self w2) = measuredWidth None w e
         /\ _containerHeight (self w2) = measuredHeight None w e
         /\ _scrollWidth (self w2) = el_scrollWidth e
         /\ _scrollHeight (self w2) = el_scrollHeight e
         /\ _scrollTop (self w2) = el_scrollTop e
         /\ _scrollLeft (self w2) = el_scrollLeft e
         /\ _scrollBottom (self w2)
            = el_scrollHeight e - el_scrollTop e - measuredHeight None w e
         /\ _scrollRight (self w2)
            = el_scrollWidth e - el_scrollLeft e - measuredWidth None w e.
Proof.
  (* to the background *)
  destruct (name_it (set_self (set_scrollSizeOvserverSuspended true (self w))
                       (set_isVisible false w))) as (wa & Ea).
  assert (Hsa : self wa = set_scrollSizeOvserverSuspended true (self w))
    by (rewrite Ea; reflexivity).
  assert (Hida : _scrollSizeOvserverPollingId (self wa) = Some id)
    by (rewrite Hsa; exact Hid).
  pose proof (stopScrollSizeOvserver_polling wa id Hida) as Hstop.
  match type of Hstop with
  | _ = Ok tt ?W _ => destruct (name_it W) as (w1 & E1)
  end.
  rewrite <- E1 in Hstop.
  assert (Hs1 : self w1 = set_scrollSizeOvserverPollingId None
                            (set_scrollSizeOvserverSuspended true (self w)))
    by (rewrite E1, self_set_self, Hsa; reflexivity).
  assert (Ht1 : timers w1 = filter (fun t => negb (Nat.eqb t id)) (timers w))
    by (rewrite E1, Ea; reflexivity).
  assert (Hn1 : next_timer w1 = next_timer w) by (rewrite E1, Ea; reflexivity).
  assert (Hwin1 : HAS_WINDOW w1 = true) by (rewrite E1, Ea; exact Hwin).
  assert (Hsub1 : visibility_subscribed w1 = true) by (rewrite E1, Ea; exact Hsub).
  exists w1. split; [|split; [|split; [|split; [|split]]]].
  - unfold visibility_changes. eapply bind_Ok_nil; [reflexivity|].
    eapply bind_Ok_nil; [reflexivity|]. cbv beta.
    change (visibility_subscribed (set_isVisible false w)) with (visibility_subscribed w).
    rewrite Hsub, when_true. unfold _visibilityListener_callback.
    eapply bind_Ok_nil; [reflexivity|]. cbv beta.
    change (isVisible (set_isVisible false w)) with false. cbv iota.
    eapply bind_Ok_nil; [reflexivity|].
    change (self (set_isVisible false w)) with (self w). cbv beta. rewrite Hid, <- Ea.
    exact Hstop.
  - rewrite Hs1. reflexivity.
  - rewrite Hs1. reflexivity.
  - rewrite Ht1. intros H. apply filter_In in H. rewrite Nat.eqb_refl in H.
    destruct H as [_ H]. discriminate H.
  - rewrite Hs1. reflexivity.
  - (* back to the foreground *)
    destruct (name_it (set_isVisible true w1)) as (wb & Eb).
    assert (Hsb : self wb = self w1) by (rewrite Eb; reflexivity).
    assert (Helb : _el (self wb) = Some e) by (rewrite Hsb, Hs1; exact Hel).
    destruct (update_run wb e None None Helb) as (o2 & H2 & _).
    match type of H2 with
    | _ = Ok tt (set_self ?S wb) _ =>
        destruct (name_it S) as (s2 & F2); rewrite <- F2 in H2
    end.
    assert (Hsus2 : _scrollSizeOvserverSuspended s2 = true)
      by (rewrite F2, Hsb, Hs1; reflexivity).
    assert (Hmw : measuredWidth None wb e = measuredWidth None w e).
    { unfold measuredWidth. rewrite Hsb, Hs1, Eb, E1, Ea. reflexivity. }
    assert (Hmh : measuredHeight None wb e = measuredHeight None w e).
    { unfold measuredHeight. rewrite Hsb, Hs1, Eb, E1, Ea. reflexivity. }
    rewrite Hmw, Hmh in F2.
    assert (Hsnap2 : _containerWidth s2 = measuredWidth None w e
                     /\ _containerHeight s2 = measuredHeight None w e
                     /\ _scrollWidth s2 = el_scrollWidth e
                     /\ _scrollHeight s2 = el_scrollHeight e
                     /\ _scrollTop s2 = el_scrollTop e
                     /\ _scrollLeft s2 = el_scrollLeft e
                     /\ _scrollBottom s2
                        = el_scrollHeight e - el_scrollTop e - measuredHeight None w e
                     /\ _scrollRight s2
                        = el_scrollWidth e - el_scrollLeft e - measuredWidth None w e).
    { rewrite F2. unfold positions. cbn. repeat split. }
    destruct (name_it (set_self (set_scrollSizeOvserverSuspended false s2) wb))
      as (wc & Ec).
    assert (Hsc : self wc = set_scrollSizeOvserverSuspended false s2)
      by (rewrite Ec; reflexivity).
    assert (Hwinc : HAS_WINDOW wc = true) by (rewrite Ec, Eb; exact Hwin1).
    assert (Hidc : _scrollSizeOvserverPollingId (self wc) = None)
      by (rewrite Hsc, F2, Hsb, Hs1; reflexivity).
    assert (Hcfgc : scrollSizeOvserver (self wc) = Some cfg)
      by (rewrite Hsc, F2, Hsb, Hs1; exact Hcfg).
    assert (Hnc : next_timer wc = next_timer w) by (rewrite Ec, Eb; exact Hn1).
    pose proof (startScrollSizeOvserver_idle wc cfg Hwinc Hidc Hcfgc) as H3.
    rewrite Hnc in H3.
    do 2 eexists. split; [|split; [|split; [|split]]].
    + unfold visibility_changes. eapply bind_Ok_nil; [reflexivity|].
      eapply bind_Ok_nil; [reflexivity|]. cbv beta. rewrite <- Eb.
      assert (Hsubb : visibility_subscribed wb = true) by (rewrite Eb; exact Hsub1).
      rewrite Hsubb, when_true. unfold _visibilityListener_callback.
      eapply bind_Ok_nil; [reflexivity|]. cbv beta.
      assert (Hvis : isVisible wb = true) by (rewrite Eb; reflexivity).
      rewrite Hvis. unfold update.
      eapply bind_Ok; [exact H2|].
      eapply bind_Ok_nil; [reflexivity|]. cbv beta. rewrite self_set_self, Hsus2, when_true.
      eapply bind_Ok_nil; [reflexivity|]. rewrite self_set_self, set_self_set_self, <- Ec.
      exact H3.
    + rewrite self_set_self. reflexivity.
    + rewrite timers_set_self, timers_set_next_timer, timers_set_timers.
      left. reflexivity.
    + rewrite self_set_self, Hsc. reflexivity.
    + rewrite self_set_self, Hsc. exact Hsnap2.
Qed.

Lemma polling_is_suspended_in_the_background_witness :
  exists w1,
    visibility_changes false Page.polling = Ok tt w1 []
    /\ _scrollSizeOvserverPollingId (self w1) = None
    /\ _scrollSizeOvserverSuspended (self w1) = true.
Proof.
  assert (Hwin : HAS_WINDOW Page.polling = true) by (vm_compute; reflexivity).
  assert (Hsub : visibility_subscribed Page.polling = true) by (vm_compute; reflexivity).
  assert (Hel : _el (self Page.polling) = Some Page.box) by (vm_compute; reflexivity).
  assert (Hcfg : scrollSizeOvserver (self Page.polling)
                 = Some {| interval := 500; width := true; height := true |})
    by (vm_compute; reflexivity).
  assert (Hid : _scrollSizeOvserverPollingId (self Page.polling) = Some 1%nat)
    by (vm_compute; reflexivity).
  destruct (polling_is_suspended_in_the_background _ _ _ _ Hwin Hsub Hel Hcfg Hid)
    as (w1 & H & Hnone & Hsus & _).
  exists w1. split; [exact H|]. split; [exact Hnone | exact Hsus].
Defined.
(** ** Binding again, and starting again *)

Lemma bind_Ok_then_Throw {A B : Type} (m : M A) (f : A -> M B) w a w1 o1 e w2 o2 :
  m w = Ok a w1 o1 -> f a w1 = Throw e w2 o2 -> bind m f w = Throw e w2 (o1 ++ o2).
Proof. unfold bind. intros Hm Hf. rewrite Hm, Hf. reflexivity. Qed.

(** X26: a failed [setElement] on a running controller stops it.
    [setElement] calls [stop] before it looks for the element, so when
    the argument resolves to no element the call fails with
    InvalidTarget after the controller has gone to Ready and its scroll
    listener has been detached; the element bound before stays bound. *)
Theorem failed_rebind_stops_the_controller (w : World) (arg : ElementArg)
  (Hrun : isRunning (self w) = true) (Htarget : _eventTarget (self w) <> None)
  (Hdom : HAS_WINDOW w = true) (Hmissing : lookup arg w = None) :
  exists w' out,
    setElement arg w = Throw InvalidTarget w' out
    /\ emitted out = [EvChangeState Ready]
    /\ _state (self w') = Ready
    /\ _scrollListener (self w') = false
    /\ _el (self w') = _el (self w).
Proof.
  destruct (stop_live w (isRunning_live _ Hrun) (fun _ => Htarget)) as (out & H & Hout).
  rewrite Hrun in H, Hout.
  match type of H with
  | _ = Ok tt ?W _ => destruct (name_it W) as (w1 & E1)
  end.
  rewrite <- E1 in H.
  assert (Hdom1 : HAS_WINDOW w1 = true) by (rewrite E1; exact Hdom).
  assert (Hlookup1 : lookup arg w1 = None) by (rewrite E1; exact Hmissing).
  exists w1, (out ++ []). split.
  - unfold setElement. eapply bind_Ok_then_Throw; [exact H|].
    eapply bind_Ok_Throw; [reflexivity|]. cbv beta.
    destruct arg as [query|e|]; cbn [lookup] in Hlookup1; try discriminate Hlookup1;
      rewrite Hdom1; (eapply bind_Ok_Throw; [reflexivity|]); cbv beta;
      rewrite Hlookup1; reflexivity.
  - rewrite app_nil_r. split; [exact Hout|]. rewrite E1, self_set_self.
    repeat split.
Qed.

Lemma failed_rebind_stops_the_controller_witness :
  exists w' out,
    setElement (ElString "#missing") (Page.running AxisY) = Throw InvalidTarget w' out
    /\ emitted out = [EvChangeState Ready]
    /\ _state (self w') = Ready.
Proof.
  assert (Hrun : isRunning (self (Page.running AxisY)) = true) by (vm_compute; reflexivity).
  assert (Htarget : _eventTarget (self (Page.running AxisY)) <> None)
    by (vm_compute; discriminate).
  assert (Hdom : HAS_WINDOW (Page.running AxisY) = true) by (vm_compute; reflexivity).
  assert (Hmissing : lookup (ElString "#missing") (Page.running AxisY) = None)
    by (vm_compute; reflexivity).
  destruct (failed_rebind_stops_the_controller _ _ Hrun Htarget Hdom Hmissing)
    as (w' & out & H & Hout & Hstate & _).
  exists w', out. split; [exact H|]. split; [exact Hout | exact Hstate].
Defined.

(** X27: [stop] and [start] are a round trip, but not inside the call.
    On a running controller with no job queued, [start] after [stop]
    returns with the controller still Ready and its continuation queued;
    once that job has run the controller is Running again with its scroll
    listener attached.  The two calls emit changeState(Ready) and then
    changeState(Running), and the snapshot is the one from before. *)
Theorem stop_then_start_resumes (w : World) (t : ScrollerEventTarget)
  (Hrun : isRunning (self w) = true) (Htarget : _eventTarget (self w) = Some t)
  (Hquiet : microtasks w = []) :
  exists w1 out1,
    (stop ;; start) w = Ok tt w1 out1
    /\ _state (self w1) = Ready
    /\ microtasks w1 = [StartContinuation]
    /\ exists w2 out2,
         runMicrotasks 1 w1 = Ok tt w2 out2
         /\ _state (self w2) = Running
         /\ _scrollListener (self w2) = true
         /\ emitted (out1 ++ out2) = [EvChangeState Ready; EvChangeState Running]
         /\ lastPayload (self w2) = lastPayload (self w).
Proof.
  assert (Htarget' : _eventTarget (self w) <> None) by (rewrite Htarget; discriminate).
  destruct (stop_live w (isRunning_live _ Hrun) (fun _ => Htarget')) as (o1 & H1 & Ho1).
  rewrite Hrun in H1, Ho1.
  match type of H1 with
  | _ = Ok tt ?W _ => destruct (name_it W) as (wa & Ea)
  end.
  rewrite <- Ea in H1.
  assert (Hsa : self wa
                = set_state Ready
                    (set_resizeObserver false
                       (set_resizeListener
                          (_resizeListener (self w) && negb (_isDocumentElement (self w)))
                          (set_scrollListener false (self w)))))
    by (rewrite Ea; apply self_set_self).
  assert (Hma : microtasks wa = []) by (rewrite Ea; exact Hquiet).
  assert (Hsta : _state (self wa) = Ready) by (rewrite Hsa; reflexivity).
  pose proof (start_ready wa Hsta) as H2. rewrite Hma in H2. cbn [app] in H2.
  destruct (name_it (set_microtasks [StartContinuation] wa)) as (w1 & E1).
  rewrite <- E1 in H2.
  assert (Hs1 : self w1 = self wa) by (rewrite E1; reflexivity).
  assert (Hm1 : microtasks w1 = [StartContinuation]) by (rewrite E1; reflexivity).
  exists w1, (o1 ++ []). split; [|split; [|split]].
  - eapply bind_Ok; [exact H1 | exact H2].
  - rewrite Hs1. exact Hsta.
  - exact Hm1.
  - destruct (name_it (set_microtasks [] w1)) as (wb & Eb).
    assert (Hsb : self wb = self wa) by (rewrite Eb; exact Hs1).
    assert (Htb : _eventTarget (self wb) = Some t) by (rewrite Hsb, Hsa; exact Htarget).
    destruct (start_continuation_run wb t Htb)
      as (w2 & o2 & p & sus & rl & ro & H3 & Hs3 & Ho3).
    exists w2, o2. split; [|split; [|split; [|split]]].
    + cbn [runMicrotasks]. eapply bind_Ok_nil; [reflexivity|]. cbv beta. rewrite Hm1.
      eapply bind_Ok_nil; [reflexivity|]. cbv beta. rewrite <- Eb.
      rewrite <- (app_nil_r o2). eapply bind_Ok; [|reflexivity].
      unfold runMicrotask, detached. rewrite H3. reflexivity.
    + rewrite Hs3. reflexivity.
    + rewrite Hs3. reflexivity.
    + rewrite !emitted_app, Ho1, Ho3. unfold isRunning. rewrite Hsb, Hsta. reflexivity.
    + rewrite Hs3, Hsb, Hsa. reflexivity.
Qed.

Lemma stop_then_start_resumes_witness :
  exists w1 out1,
    (stop ;; start) (Page.scrollingDown AxisY) = Ok tt w1 out1
    /\ _state (self w1) = Ready
    /\ microtasks w1 = [StartContinuation].
Proof.
  assert (Hrun : isRunning (self (Page.scrollingDown AxisY)) = true)
    by (vm_compute; reflexivity).
  assert (Htarget : _eventTarget (self (Page.scrollingDown AxisY)) = Some TargetElement)
    by (vm_compute; reflexivity).
  assert (Hquiet : microtasks (Page.scrollingDown AxisY) = []) by (vm_compute; reflexivity).
  destruct (stop_then_start_resumes _ _ Hrun Htarget Hquiet)
    as (w1 & out1 & H & Hstate & Hqueue & _).
  exists w1, out1. split; [exact H|]. split; [exact Hstate | exact Hqueue].
Defined.
(** ** Scroll events while a stopper is held *)

Lemma set_el_set_el (a b : option Element) (s : Scroller) :
  set_el a (set_el b s) = set_el a s.
Proof. reflexivity. Qed.

Lemma moved_moved (x y x' y' : Z) (e : Element) : moved x y (moved x' y' e) = moved x y e.
Proof. reflexivity. Qed.

(** One move and its scroll event on a locked controller: the element is
    back at the cached offsets and nothing else has changed. *)
Lemma locked_step (w : World) (e : Element) (x y : Z) :
  _scrollListener (self w) = true -> scrollEnabled (self w) = false ->
  _el (self w) = Some e ->
  (host_scrolls x y ;; scroll_event) w
  = Ok tt (set_self (set_el (Some (moved (_scrollLeft (self w)) (_scrollTop (self w)) e))
                       (self w)) w) [].
Proof.
  intros Hl Hdis Hel.
  eapply bind_Ok_nil; [apply host_scrolls_eq, Hel|].
  unfold scroll_event. eapply bind_Ok_nil; [reflexivity|]. cbv beta.
  rewrite self_set_self.
  change (_scrollListener (set_el _ (self w))) with (_scrollListener (self w)).
  rewrite Hl, when_true.
  rewrite (onScroll_disabled_eq _ (moved x y e)); [|exact Hdis | reflexivity].
  rewrite self_set_self, set_self_set_self, set_el_set_el.
  reflexivity.
Qed.

(** X28: while a stopper is held, scroll events are silent however many
    arrive.  On a controller that listens, with a bound element and
    scrolling disabled, any sequence of moves of the content, each
    followed by its scroll event, emits nothing and notifies no
    observer; afterwards the element is at the cached offsets again and
    the controller is otherwise exactly as before: same snapshot, same
    episode, same timers. *)
Theorem locked_burst_is_silent (moves : list (Z * Z)) (w : World) (e : Element)
  (Hlistener : _scrollListener (self w) = true)
  (Hdisabled : scrollEnabled (self w) = false)
  (Hel : _el (self w) = Some e)
  (Hmoves : moves <> []) :
  burst moves w
  = Ok tt (set_self (set_el (Some (moved (_scrollLeft (self w)) (_scrollTop (self w)) e))
                       (self w)) w) [].
Proof.
  revert w e Hlistener Hdisabled Hel Hmoves.
  induction moves as [|[x y] moves IH]; intros w e Hl Hdis Hel Hmoves;
    [contradiction Hmoves; reflexivity|].
  rewrite burst_cons.
  pose proof (locked_step w e x y Hl Hdis Hel) as Hstep.
  destruct moves as [|m moves].
  - eapply bind_Ok_nil; [exact Hstep | reflexivity].
  - eapply bind_Ok_nil; [exact Hstep|].
    rewrite IH with (e := moved (_scrollLeft (self w)) (_scrollTop (self w)) e);
      [|rewrite self_set_self; exact Hl | rewrite self_set_self; exact Hdis
       |rewrite self_set_self; reflexivity | discriminate].
    rewrite self_set_self, set_self_set_self, set_el_set_el.
    reflexivity.
Qed.

Lemma locked_burst_is_silent_witness :
  burst [(0, 60); (20, 90)] Page.locked
  = Ok tt (set_self
             (set_el (Some (moved (_scrollLeft (self Page.locked))
                              (_scrollTop (self Page.locked))
                              (moved 0 30 (el_set_scrollDisabled true Page.box))))
                (self Page.locked)) Page.locked) [].
Proof.
  assert (Hl : _scrollListener (self Page.locked) = true) by (vm_compute; reflexivity).
  assert (Hdis : scrollEnabled (self Page.locked) = false) by (vm_compute; reflexivity).
  assert (Hel : _el (self Page.locked)
                = Some (moved 0 30 (el_set_scrollDisabled true Page.box)))
    by (vm_compute; reflexivity).
  assert (Hmoves : [(0, 60); (20, 90)] <> []) by discriminate.
  exact (locked_burst_is_silent _ _ _ Hl Hdis Hel Hmoves).
Defined.
(** ** Where the far-edge distances are assigned *)

Lemma keepsEdges_ret {A : Type} (a : A) : keepsEdges (ret a).
Proof. intros w. split; reflexivity. Qed.

Lemma keepsEdges_throw {A : Type} (e : Error) : keepsEdges (@throw A e).
Proof. intros w. split; reflexivity. Qed.

Lemma keepsEdges_this : keepsEdges this.
Proof. intros w. split; reflexivity. Qed.

Lemma keepsEdges_env : keepsEdges env.
Proof. intros w. split; reflexivity. Qed.

Lemma keepsEdges_tell (out : list Effect) : keepsEdges (tell out).
Proof. intros w. split; reflexivity. Qed.

Lemma keepsEdges_emit (e : Event) : keepsEdges (emit e).
Proof. intros w. split; reflexivity. Qed.

Lemma keepsEdges_assign (f : Scroller -> Scroller) :
  (forall s, _scrollBottom (f s) = _scrollBottom s /\ _scrollRight (f s) = _scrollRight s) ->
  keepsEdges (assign f).
Proof. intros H w. exact (H (self w)). Qed.

Lemma keepsEdges_assign_env (f : World -> World) :
  (forall w, self (f w) = self w) -> keepsEdges (assign_env f).
Proof.
  intros H w. unfold assign_env. cbn [worldOf]. rewrite H. split; reflexivity.
Qed.

Lemma keepsEdges_bind {A B : Type} (m : M A) (f : A -> M B) :
  keepsEdges m -> (forall a, keepsEdges (f a)) -> keepsEdges (bind m f).
Proof.
  intros Hm Hf w. specialize (Hm w). unfold bind.
  destruct (m w) as [a w1 o1|e w1 o1]; cbn [worldOf] in Hm.
  - specialize (Hf a w1). destruct (f a w1) as [b w2 o2|e w2 o2]; cbn [worldOf] in *;
      destruct Hm as [Hb Hr], Hf as [Hb' Hr']; rewrite Hb', Hr'; split; assumption.
  - exact Hm.
Qed.

Lemma keepsEdges_when (b : bool) (m : M unit) : keepsEdges m -> keepsEdges (when b m).
Proof. intros H. destruct b; [exact H | apply keepsEdges_ret]. Qed.

Lemma keepsEdges_forEach {A : Type} (l : list A) (f : A -> M unit) :
  (forall a, keepsEdges (f a)) -> keepsEdges (forEach l f).
Proof.
  intros H. induction l as [|a l IH]; [apply keepsEdges_ret|].
  cbn [forEach]. apply keepsEdges_bind; [apply H | intros _; exact IH].
Qed.

Lemma keepsEdges_detached (m : M unit) : keepsEdges m -> keepsEdges (detached m).
Proof.
  intros H w. specialize (H w). unfold detached.
  destruct (m w); exact H.
Qed.

Create HintDb edges discriminated.

(** The frame of a method, one statement after the other. *)
Ltac frame :=
  repeat first
    [ apply keepsEdges_bind; [|intro]
    | apply keepsEdges_ret
    | apply keepsEdges_throw
    | apply keepsEdges_this
    | apply keepsEdges_env
    | apply keepsEdges_tell
    | apply keepsEdges_emit
    | apply keepsEdges_when
    | apply keepsEdges_detached
    | (apply keepsEdges_forEach; intro)
    | (apply keepsEdges_assign; intro; split; reflexivity)
    | (apply keepsEdges_assign_env; intro; reflexivity)
    | match goal with
      | |- keepsEdges (if ?c then _ else _) => destruct c
      | |- keepsEdges (match ?x with _ => _ end) => destruct x
      end
    | solve [auto with edges]
    | progress cbv beta zeta ].

Lemma keepsEdges_syncToObserver (observer : nat) (keys : list string) :
  keepsEdges (_syncToObserver observer keys).
Proof. unfold _syncToObserver. frame. Qed.

Lemma keepsEdges_syncToObservers (keys : list string) : keepsEdges (_syncToObservers keys).
Proof. unfold _syncToObservers, _syncToObserver. frame. Qed.

#[local] Hint Resolve keepsEdges_syncToObserver keepsEdges_syncToObservers : edges.

Lemma keepsEdges_enqueueMicrotask (t : Microtask) : keepsEdges (enqueueMicrotask t).
Proof. unfold enqueueMicrotask. frame. Qed.

Lemma keepsEdges_setTimer : keepsEdges setTimer.
Proof. unfold setTimer. frame. Qed.

Lemma keepsEdges_clearTimer (id : nat) : keepsEdges (clearTimer id).
Proof. unfold clearTimer. frame. Qed.

#[local] Hint Resolve keepsEdges_enqueueMicrotask keepsEdges_setTimer keepsEdges_clearTimer
  : edges.

(** The engine touches the environment only. *)
Lemma keepsEdges_animate (request : ScrollRequest) (options : option ScrollOptions) :
  keepsEdges (animate request options).
Proof. unfold animate. frame. Qed.

Lemma keepsEdges_settle (result : ScrollResult) (st : AnimationStatus) :
  keepsEdges (settle result st).
Proof. unfold settle. frame. Qed.

Lemma keepsEdges_promise_then (result : ScrollResult) : keepsEdges (promise_then result).
Proof. unfold promise_then. frame. Qed.

Lemma keepsEdges_resolveContainer (options : option ScrollOptions) :
  keepsEdges (resolveContainer options).
Proof. unfold resolveContainer. frame. Qed.

#[local] Hint Resolve keepsEdges_animate keepsEdges_settle keepsEdges_promise_then
  keepsEdges_resolveContainer : edges.

Lemma keepsEdges_scrollTo (position : ScrollPosition) (options : option ScrollOptions) :
  keepsEdges (scrollTo position options).
Proof. unfold scrollTo. frame. Qed.

#[local] Hint Resolve keepsEdges_scrollTo : edges.

Lemma keepsEdges_scrollFunction (call : ScrollCall) (options : option ScrollOptions) :
  keepsEdges (scrollFunction call options).
Proof.
  destruct call; cbn [scrollFunction];
    unfold scrollBy, scrollToTop, scrollToRight, scrollToBottom, scrollToLeft,
      scrollToSide, scrollToSide_position;
    frame.
Qed.

Lemma keepsEdges_clearScrollToResult : keepsEdges _clearScrollToResult.
Proof. unfold _clearScrollToResult. frame. Qed.

Lemma keepsEdges_setScrollToResult (result : ScrollResult) :
  keepsEdges (_setScrollToResult result).
Proof. unfold _setScrollToResult. frame. Qed.

#[local] Hint Resolve keepsEdges_scrollFunction keepsEdges_clearScrollToResult
  keepsEdges_setScrollToResult : edges.

Lemma keepsEdges_cancel : keepsEdges cancel.
Proof. unfold cancel, result_cancel. frame. Qed.

#[local] Hint Resolve keepsEdges_cancel : edges.

Lemma keepsEdges_updateScrollable : keepsEdges _updateScrollable.
Proof. unfold _updateScrollable, _scrollEnable, _scrollDisable. frame. Qed.

Lemma keepsEdges_setState (state : ScrollerState) : keepsEdges (_setState state).
Proof. unfold _setState. frame. Qed.

Lemma keepsEdges_checkDestroyed : keepsEdges _checkDestroyed.
Proof. unfold _checkDestroyed. frame. Qed.

Lemma keepsEdges_el : keepsEdges el.
Proof. unfold el. frame. Qed.

#[local] Hint Resolve keepsEdges_updateScrollable keepsEdges_setState
  keepsEdges_checkDestroyed keepsEdges_el : edges.

Lemma keepsEdges_updateContainerSize (width height : option Z) :
  keepsEdges (_updateContainerSize width height).
Proof. unfold _updateContainerSize. frame. Qed.

Lemma keepsEdges_updateScrollSize : keepsEdges _updateScrollSize.
Proof. unfold _updateScrollSize. frame. Qed.

Lemma keepsEdges_stopScrollSizeOvserver : keepsEdges _stopScrollSizeOvserver.
Proof. unfold _stopScrollSizeOvserver. frame. Qed.

#[local] Hint Resolve keepsEdges_updateContainerSize keepsEdges_updateScrollSize
  keepsEdges_stopScrollSizeOvserver : edges.

Lemma keepsEdges_startScrollSizeOvserver : keepsEdges _startScrollSizeOvserver.
Proof. unfold _startScrollSizeOvserver. frame. Qed.

Lemma keepsEdges_scrollSizeOvserver_callback : keepsEdges scrollSizeOvserver_callback.
Proof. unfold scrollSizeOvserver_callback. frame. Qed.

Lemma keepsEdges_stopListeners : keepsEdges _stopListeners.
Proof. unfold _stopListeners. frame. Qed.

#[local] Hint Resolve keepsEdges_startScrollSizeOvserver
  keepsEdges_scrollSizeOvserver_callback keepsEdges_stopListeners : edges.

Lemma keepsEdges_startListeners : keepsEdges _startListeners.
Proof. unfold _startListeners. frame. Qed.

Lemma keepsEdges_clearScrollingJudgeTimer : keepsEdges _clearScrollingJudgeTimer.
Proof. unfold _clearScrollingJudgeTimer. frame. Qed.

Lemma keepsEdges_triggerScrollTick (event : ScrollTick) : keepsEdges (_triggerScrollTick event).
Proof. unfold _triggerScrollTick. frame. Qed.

#[local] Hint Resolve keepsEdges_startListeners keepsEdges_clearScrollingJudgeTimer
  keepsEdges_triggerScrollTick : edges.

Lemma keepsEdges_ready (r : Resolver) : keepsEdges (ready r).
Proof. unfold ready. frame. Qed.

#[local] Hint Resolve keepsEdges_ready : edges.

Lemma keepsEdges_start : keepsEdges start.
Proof. unfold start. frame. Qed.

Lemma keepsEdges_start_continuation : keepsEdges start_continuation.
Proof. unfold start_continuation. frame. Qed.

Lemma keepsEdges_stop : keepsEdges stop.
Proof. unfold stop. frame. Qed.

#[local] Hint Resolve keepsEdges_start keepsEdges_start_continuation keepsEdges_stop : edges.

Lemma keepsEdges_destroy : keepsEdges destroy.
Proof. unfold destroy, _scrollEnable, offAll. frame. Qed.

Lemma keepsEdges_observe (observer : nat) : keepsEdges (observe observer).
Proof. unfold observe. frame. Qed.

Lemma keepsEdges_unobserve (observer : nat) : keepsEdges (unobserve observer).
Proof. unfold unobserve. frame. Qed.

Lemma keepsEdges_callScroll (call : ScrollCall) : keepsEdges (callScroll call).
Proof.
  rewrite callScroll_requestThrough. unfold requestThrough, _createMergedScrollOptions.
  frame.
Qed.

Lemma keepsEdges_pushScrollStopper (stopper : ScrollStopper) :
  keepsEdges (pushScrollStopper stopper).
Proof. unfold pushScrollStopper. frame. Qed.

Lemma keepsEdges_removeScrollStopper (stopper : ScrollStopper) :
  keepsEdges (removeScrollStopper stopper).
Proof. unfold removeScrollStopper. frame. Qed.

#[local] Hint Resolve keepsEdges_destroy keepsEdges_observe keepsEdges_unobserve
  keepsEdges_callScroll keepsEdges_pushScrollStopper keepsEdges_removeScrollStopper : edges.


